(** * Session-backed JWT authentication of the GAuth web backend

    A shallow embedding of the Go backend: the models package
    (User, Role, Session), the handlers of auth.go (Login, RefreshToken,
    Logout), the user listing of the user handler, and the middleware
    package (AuthMiddleware, RequireRole, RequirePermission, RateLimit).

    Conventions.
    - A Go [string] is a byte string: [string] of Rocq, a list of 8-bit
      characters.
    - [time.Time] and [time.Duration] are integers, in nanoseconds.
    - The database behind [*gorm.DB] is a pair of tables held as lists,
      together with the answers the connection will give to the coming
      statements (see [DB]).
    - bcrypt, the codec and the signatures of golang-jwt, and the ILIKE of
      the database are interfaces: type classes whose methods the
      handlers use and about which nothing is assumed. What the claims
      depend on in the libraries is written out: the flow of [jwt.Parse]
      and its validator, and [encoding/json] with [unicode/utf8] at the
      type [[]string]. *)

From Stdlib Require Import ZArith NArith String Ascii List Bool Lia.
From Stdlib Require Import Sorted.
From stdpp Require Import base option list gmap strings.

Local Open Scope string_scope.
Local Open Scope Z_scope.

(** ** Basic types *)

Definition Time := Z.
Definition Duration := Z.

Definition Second : Duration := 1000000000.
Definition Minute : Duration := 60 * Second.

(** [t.After(u)] and [t.Before(u)]. *)
Definition After (t u : Time) : bool := u <? t.
Definition Before (t u : Time) : bool := t <? u.

(** [t.Unix()]: whole seconds since the epoch. *)
Definition Unix (t : Time) : Z := t / Second.

Definition minDuration : Duration := - 2 ^ 63.
Definition maxDuration : Duration := 2 ^ 63 - 1.

(** [t.Sub(u)]: the difference, saturated to the range of a Duration. *)
Definition Sub (t u : Time) : Duration :=
  if t - u <? minDuration then minDuration
  else if maxDuration <? t - u then maxDuration
  else t - u.

(** [d.Seconds()] converted with [int64(...)]: truncation toward zero. *)
Definition Seconds (d : Duration) : Z := Z.quot d Second.

(** A [uuid.UUID] is sixteen bytes, read here as one 128-bit number. *)
Definition UUID := N.

Module uuid.

Definition Nil : UUID := 0%N.

Definition hexdigit (n : N) : ascii :=
  match (n mod 16)%N with
  | 0%N => "0" | 1%N => "1" | 2%N => "2" | 3%N => "3"
  | 4%N => "4" | 5%N => "5" | 6%N => "6" | 7%N => "7"
  | 8%N => "8" | 9%N => "9" | 10%N => "a" | 11%N => "b"
  | 12%N => "c" | 13%N => "d" | 14%N => "e" | _ => "f"
  end%char.

(** The [digits] low hexadecimal digits of [v], most significant first. *)
Fixpoint hex (digits : nat) (v : N) : string :=
  match digits with
  | O => ""
  | S d => hex d (v / 16)%N +:+ String (hexdigit v) ""
  end.

(** [u.String()]: the form xxxxxxxx-xxxx-xxxx-xxxx-xxxxxxxxxxxx. *)
Definition String (u : UUID) : string :=
  hex 8 (u / 2 ^ 96)%N +:+ "-" +:+ hex 4 (u / 2 ^ 80)%N +:+ "-" +:+
  hex 4 (u / 2 ^ 64)%N +:+ "-" +:+ hex 4 (u / 2 ^ 48)%N +:+ "-" +:+ hex 12 u.

End uuid.

(** A Go slice of strings: [nil] is told apart from the empty slice. *)
Inductive StringSlice :=
| NilSlice
| Slice (elems : list string).

Definition elems_of (s : StringSlice) : list string :=
  match s with NilSlice => [] | Slice l => l end.

(** ** The unicode/utf8 package, as far as encoding/json uses it

    A byte is read as a number below 256; a rune is a number. *)

Definition byte_of (c : ascii) : Z := Z.of_N (N_of_ascii c).
Definition char_of (b : Z) : ascii := ascii_of_N (Z.to_N b).

Module utf8.

Definition RuneError : Z := 65533.
Definition RuneSelf : Z := 128.
Definition MaxRune : Z := 1114111.

(** What the table [first] and [acceptRanges] say of a leading byte above
    the ASCII range: the length of the sequence and the bounds of its
    second byte; [None] for a byte that starts no sequence. *)
Definition first (s0 : Z) : option (nat * Z * Z) :=
  if s0 <? 194 then None
  else if s0 <? 224 then Some (2%nat, 128, 191)
  else if s0 =? 224 then Some (3%nat, 160, 191)
  else if s0 <? 237 then Some (3%nat, 128, 191)
  else if s0 =? 237 then Some (3%nat, 128, 159)
  else if s0 <? 240 then Some (3%nat, 128, 191)
  else if s0 =? 240 then Some (4%nat, 144, 191)
  else if s0 <? 244 then Some (4%nat, 128, 191)
  else if s0 =? 244 then Some (4%nat, 128, 143)
  else None.

Definition cont (b : Z) : bool := (128 <=? b) && (b <=? 191).

(** [DecodeRuneInString]: the rune at the head of [s] and its width in
    bytes; [(RuneError, 1)] where the bytes are no encoding of a rune. *)
Definition DecodeRuneInString (s : string) : Z * nat :=
  match s with
  | EmptyString => (RuneError, 0%nat)
  | String c0 r0 =>
    let s0 := byte_of c0 in
    if s0 <? RuneSelf then (s0, 1%nat)
    else
      match first s0 with
      | None => (RuneError, 1%nat)
      | Some (sz, lo, hi) =>
        if (String.length s <? sz)%nat then (RuneError, 1%nat)
        else
          match r0 with
          | String c1 r1 =>
            let s1 := byte_of c1 in
            if (s1 <? lo) || (hi <? s1) then (RuneError, 1%nat)
            else if (sz <=? 2)%nat then ((s0 - 192) * 64 + (s1 - 128), 2%nat)
            else
              match r1 with
              | String c2 r2 =>
                let s2 := byte_of c2 in
                if negb (cont s2) then (RuneError, 1%nat)
                else if (sz <=? 3)%nat then
                  ((s0 - 224) * 4096 + (s1 - 128) * 64 + (s2 - 128), 3%nat)
                else
                  match r2 with
                  | String c3 r3 =>
                    let s3 := byte_of c3 in
                    if negb (cont s3) then (RuneError, 1%nat)
                    else ((s0 - 240) * 262144 + (s1 - 128) * 4096 +
                          (s2 - 128) * 64 + (s3 - 128), 4%nat)
                  | EmptyString => (RuneError, 1%nat)
                  end
              | EmptyString => (RuneError, 1%nat)
              end
          | EmptyString => (RuneError, 1%nat)
          end
      end
  end.

(** [EncodeRune]: the bytes of a rune; a surrogate or a number beyond
    [MaxRune] is written as [RuneError]. *)
Definition EncodeRune (r : Z) : string :=
  let three (r : Z) :=
    String (char_of (224 + r / 4096))
      (String (char_of (128 + (r / 64) mod 64))
        (String (char_of (128 + r mod 64)) "")) in
  if (r <? 0) || (MaxRune <? r) || ((55296 <=? r) && (r <=? 57343)) then three RuneError
  else if r <? 128 then String (char_of r) ""
  else if r <? 2048 then
    String (char_of (192 + r / 64)) (String (char_of (128 + r mod 64)) "")
  else if r <? 65536 then three r
  else
    String (char_of (240 + r / 262144))
      (String (char_of (128 + (r / 4096) mod 64))
        (String (char_of (128 + (r / 64) mod 64))
          (String (char_of (128 + r mod 64)) ""))).

(** [s[n:]] for [n] within the string. *)
Fixpoint skip (n : nat) (s : string) : string :=
  match n, s with
  | S m, String _ r => skip m r
  | _, _ => s
  end.

(** [s[:n]]. *)
Fixpoint take (n : nat) (s : string) : string :=
  match n, s with
  | S m, String c r => String c (take m r)
  | _, _ => ""
  end.

(** [ValidString]: every position decodes to a rune. The first argument
    bounds the number of runes and is the length of the string. *)
Fixpoint valid_from (fuel : nat) (s : string) : bool :=
  match fuel with
  | O => match s with EmptyString => true | _ => false end
  | S f =>
    match s with
    | EmptyString => true
    | _ =>
      let '(r, size) := DecodeRuneInString s in
      if (r =? RuneError) && (size =? 1)%nat then false
      else valid_from f (skip size s)
    end
  end.

Definition ValidString (s : string) : bool := valid_from (String.length s) s.

End utf8.

(** ** The encoding/json package, for values of type [[]string]

    [Marshal] writes a slice of strings; [Unmarshal] reads any JSON text
    into a nil slice of strings, as [Role.GetPermissions] calls it. The
    nesting limit of the scanner (10000 levels) is not modelled. *)

Module json.

Definition quote : ascii := char_of 34.
Definition backslash : ascii := char_of 92.

Definition hexchar (n : Z) : ascii := uuid.hexdigit (Z.to_N n).

(** [htmlSafeSet]: the ASCII bytes written as they are. *)
Definition htmlSafe (b : Z) : bool :=
  (32 <=? b) && (b <? 128) &&
  negb ((b =? 34) || (b =? 92) || (b =? 60) || (b =? 62) || (b =? 38)).

(** The escape of one ASCII byte outside [htmlSafeSet]. Go 1.21 writes
    backspace and form feed as \u0008 and \u000c. *)
Definition escapeByte (b : Z) : string :=
  if (b =? 92) || (b =? 34) then String backslash (String (char_of b) "")
  else if b =? 10 then "\n"
  else if b =? 13 then "\r"
  else if b =? 9 then "\t"
  else "\u00" +:+ String (hexchar (b / 16)) (String (hexchar (b mod 16)) "").

(** The six characters written for a byte that starts no rune: the
    escape of U+FFFD. *)
Definition replacement : string := "\u" +:+ "fffd".

(** The loop of [appendString] with [escapeHTML] set, without the two
    quotes. [fuel] bounds the number of iterations; the length of [src]
    is enough. *)
Fixpoint appendBody (fuel : nat) (src : string) : string :=
  match fuel with
  | O => ""
  | S f =>
    match src with
    | EmptyString => ""
    | String c rest =>
      let b := byte_of c in
      if b <? utf8.RuneSelf then
        (if htmlSafe b then String c "" else escapeByte b) +:+ appendBody f rest
      else
        let '(r, size) := utf8.DecodeRuneInString src in
        if (r =? utf8.RuneError) && (size =? 1)%nat then
          replacement +:+ appendBody f rest
        else if (r =? 8232) || (r =? 8233) then
          ("\u202" +:+ String (hexchar (r mod 16)) "") +:+
          appendBody f (utf8.skip size src)
        else utf8.take size src +:+ appendBody f (utf8.skip size src)
    end
  end.

Definition appendString (src : string) : string :=
  String quote (appendBody (String.length src) src) +:+ String quote "".

Fixpoint join (sep : string) (l : list string) : string :=
  match l with
  | [] => ""
  | [x] => x
  | x :: l' => x +:+ sep +:+ join sep l'
  end.

(** [json.Marshal] of a [[]string]; it returns no error at this type. *)
Definition Marshal (v : StringSlice) : string :=
  match v with
  | NilSlice => "null"
  | Slice l => "[" +:+ join "," (map appendString l) +:+ "]"
  end.

(** *** Reading *)

#[warnings="-register-all"]
Inductive Value :=
| VNull
| VTrue
| VFalse
| VNumber
| VString (raw : string)
| VArray (elems : list Value)
| VObject (members : list (string * Value)).

Definition isSpace (b : Z) : bool :=
  (b =? 32) || (b =? 9) || (b =? 13) || (b =? 10).

Fixpoint skipSpace (s : string) : string :=
  match s with
  | String c r => if isSpace (byte_of c) then skipSpace r else s
  | EmptyString => ""
  end.

Definition isDigit (b : Z) : bool := (48 <=? b) && (b <=? 57).

Definition isHex (b : Z) : bool :=
  isDigit b || ((97 <=? b) && (b <=? 102)) || ((65 <=? b) && (b <=? 70)).

Definition hexval (b : Z) : Z :=
  if isDigit b then b - 48
  else if (97 <=? b) && (b <=? 102) then b - 97 + 10
  else b - 65 + 10.

(** The scanner inside a string literal, after the opening quote: the
    bytes up to the closing quote, and what follows it. *)
Fixpoint scanString (s : string) : option (string * string) :=
  match s with
  | EmptyString => None
  | String c r =>
    let b := byte_of c in
    if b =? 34 then Some ("", r)
    else if b =? 92 then
      match r with
      | EmptyString => None
      | String e r' =>
        let eb := byte_of e in
        if (eb =? 98) || (eb =? 102) || (eb =? 110) || (eb =? 114) ||
           (eb =? 116) || (eb =? 92) || (eb =? 47) || (eb =? 34) then
          match scanString r' with
          | Some (raw, rest) => Some (String c (String e raw), rest)
          | None => None
          end
        else if eb =? 117 then
          match r' with
          | String h1 (String h2 (String h3 (String h4 r''))) =>
            if isHex (byte_of h1) && isHex (byte_of h2) &&
               isHex (byte_of h3) && isHex (byte_of h4) then
              match scanString r'' with
              | Some (raw, rest) =>
                Some (String c (String e (String h1 (String h2
                       (String h3 (String h4 raw))))), rest)
              | None => None
              end
            else None
          | _ => None
          end
        else None
      end
    else if b <? 32 then None
    else
      match scanString r with
      | Some (raw, rest) => Some (String c raw, rest)
      | None => None
      end
  end.

Fixpoint skipDigits (s : string) : string :=
  match s with
  | String c r => if isDigit (byte_of c) then skipDigits r else s
  | EmptyString => ""
  end.

(** One or more digits. *)
Definition scanDigits (s : string) : option string :=
  match s with
  | String c r => if isDigit (byte_of c) then Some (skipDigits r) else None
  | EmptyString => None
  end.

(** The scanner on a number: what follows it. *)
Definition scanNumber (s : string) : option string :=
  let s := match s with
           | String c r => if byte_of c =? 45 then r else s
           | EmptyString => s
           end in
  let int :=
    match s with
    | String c r =>
      if byte_of c =? 48 then Some r
      else if isDigit (byte_of c) then Some (skipDigits r)
      else None
    | EmptyString => None
    end in
  let frac (s : string) :=
    match s with
    | String c r => if byte_of c =? 46 then scanDigits r else Some s
    | EmptyString => Some s
    end in
  let exp (s : string) :=
    match s with
    | String c r =>
      if (byte_of c =? 101) || (byte_of c =? 69) then
        match r with
        | String sg r' =>
          if (byte_of sg =? 43) || (byte_of sg =? 45) then scanDigits r'
          else scanDigits r
        | EmptyString => None
        end
      else Some s
    | EmptyString => Some s
    end in
  s1 ← int; s2 ← frac s1; exp s2.

(** [s] starts with [w]: what follows. *)
Fixpoint scanWord (w s : string) : option string :=
  match w, s with
  | EmptyString, _ => Some s
  | String a w', String c s' => if Ascii.eqb a c then scanWord w' s' else None
  | _, _ => None
  end.

Fixpoint scanValue (fuel : nat) (s : string) {struct fuel} : option (Value * string) :=
  match fuel with
  | O => None
  | S f =>
    match skipSpace s with
    | EmptyString => None
    | String c r =>
      let b := byte_of c in
      if b =? 34 then
        match scanString r with
        | Some (raw, rest) => Some (VString raw, rest)
        | None => None
        end
      else if b =? 91 then
        match skipSpace r with
        | String c' r' =>
          if byte_of c' =? 93 then Some (VArray [], r')
          else
            match scanElements f r with
            | Some (vs, rest) => Some (VArray vs, rest)
            | None => None
            end
        | EmptyString => None
        end
      else if b =? 123 then
        match skipSpace r with
        | String c' r' =>
          if byte_of c' =? 125 then Some (VObject [], r')
          else
            match scanMembers f r with
            | Some (ms, rest) => Some (VObject ms, rest)
            | None => None
            end
        | EmptyString => None
        end
      else if b =? 110 then rest ← scanWord "ull" r; Some (VNull, rest)
      else if b =? 116 then rest ← scanWord "rue" r; Some (VTrue, rest)
      else if b =? 102 then rest ← scanWord "alse" r; Some (VFalse, rest)
      else rest ← scanNumber (String c r); Some (VNumber, rest)
    end
  end
with scanElements (fuel : nat) (s : string) {struct fuel} : option (list Value * string) :=
  match fuel with
  | O => None
  | S f =>
    match scanValue f s with
    | None => None
    | Some (v, r) =>
      match skipSpace r with
      | String c r' =>
        if byte_of c =? 44 then
          match scanElements f r' with
          | Some (vs, rest) => Some (v :: vs, rest)
          | None => None
          end
        else if byte_of c =? 93 then Some ([v], r')
        else None
      | EmptyString => None
      end
    end
  end
with scanMembers (fuel : nat) (s : string) {struct fuel} : option (list (string * Value) * string) :=
  match fuel with
  | O => None
  | S f =>
    match skipSpace s with
    | String q r =>
      if byte_of q =? 34 then
        match scanString r with
        | None => None
        | Some (key, r1) =>
          match skipSpace r1 with
          | String colon r2 =>
            if byte_of colon =? 58 then
              match scanValue f r2 with
              | None => None
              | Some (v, r3) =>
                match skipSpace r3 with
                | String c r' =>
                  if byte_of c =? 44 then
                    match scanMembers f r' with
                    | Some (ms, rest) => Some ((key, v) :: ms, rest)
                    | None => None
                    end
                  else if byte_of c =? 125 then Some ([(key, v)], r')
                  else None
                | EmptyString => None
                end
              end
            else None
          | EmptyString => None
          end
        end
      else None
    | EmptyString => None
    end
  end.

(** [checkValid], yielding the value read: one value, then only space. *)
Definition scan (data : string) : option Value :=
  match scanValue (S (String.length data)) data with
  | Some (v, rest) =>
    match skipSpace rest with
    | EmptyString => Some v
    | _ => None
    end
  | None => None
  end.

(** [getu4]: the number written by a \uXXXX escape at the head of [s],
    or -1. *)
Definition getu4 (s : string) : Z :=
  match s with
  | String b (String u (String h1 (String h2 (String h3 (String h4 _))))) =>
    if (byte_of b =? 92) && (byte_of u =? 117) &&
       isHex (byte_of h1) && isHex (byte_of h2) &&
       isHex (byte_of h3) && isHex (byte_of h4) then
      hexval (byte_of h1) * 4096 + hexval (byte_of h2) * 256 +
      hexval (byte_of h3) * 16 + hexval (byte_of h4)
    else -1
  | _ => -1
  end.

(** [utf16.IsSurrogate] and [utf16.DecodeRune]. *)
Definition IsSurrogate (r : Z) : bool := (55296 <=? r) && (r <? 57344).

Definition DecodeSurrogates (r1 r2 : Z) : Z :=
  if (55296 <=? r1) && (r1 <? 56320) && (56320 <=? r2) && (r2 <? 57344) then
    (r1 - 55296) * 1024 + (r2 - 56320) + 65536
  else utf8.RuneError.

(** The loop of [unquoteBytes] on the bytes between the quotes. The loop
    that first looks for a byte needing work returns the same bytes and is
    left out. [fuel] bounds the number of iterations. *)
Fixpoint unquote (fuel : nat) (s : string) : option string :=
  match fuel with
  | O => match s with EmptyString => Some "" | _ => None end
  | S f =>
    match s with
    | EmptyString => Some ""
    | String c r =>
      let b := byte_of c in
      if b =? 92 then
        match r with
        | EmptyString => None
        | String e r' =>
          let eb := byte_of e in
          if (eb =? 34) || (eb =? 92) || (eb =? 47) || (eb =? 39) then
            String e <$> unquote f r'
          else if eb =? 98 then String (char_of 8) <$> unquote f r'
          else if eb =? 102 then String (char_of 12) <$> unquote f r'
          else if eb =? 110 then String (char_of 10) <$> unquote f r'
          else if eb =? 114 then String (char_of 13) <$> unquote f r'
          else if eb =? 116 then String (char_of 9) <$> unquote f r'
          else if eb =? 117 then
            let rr := getu4 s in
            if rr <? 0 then None
            else
              let s6 := utf8.skip 6 s in
              if IsSurrogate rr then
                let dec := DecodeSurrogates rr (getu4 s6) in
                if negb (dec =? utf8.RuneError) then
                  String.append (utf8.EncodeRune dec) <$> unquote f (utf8.skip 6 s6)
                else
                  String.append (utf8.EncodeRune utf8.RuneError) <$> unquote f s6
              else String.append (utf8.EncodeRune rr) <$> unquote f s6
          else None
        end
      else if (b =? 34) || (b <? 32) then None
      else if b <? utf8.RuneSelf then String c <$> unquote f r
      else
        let '(rr, size) := utf8.DecodeRuneInString s in
        String.append (utf8.EncodeRune rr) <$> unquote f (utf8.skip size s)
    end
  end.

(** What an element of the array leaves in a [string]: the text of a
    string literal; nothing for [null]; nothing, and a type error, for
    any other value. *)
Definition elementString (v : Value) : string :=
  match v with
  | VString raw => default "" (unquote (String.length raw) raw)
  | _ => ""
  end.

Definition elementMismatch (v : Value) : bool :=
  match v with
  | VString _ | VNull => false
  | _ => true
  end.

(** [json.Unmarshal(data, &v)] for a nil [v] of type [[]string]: the slice
    left in [v], and whether an error is returned. *)
Definition Unmarshal (data : string) : StringSlice * bool :=
  match scan data with
  | None => (NilSlice, true)
  | Some (VArray elems) => (Slice (map elementString elems), existsb elementMismatch elems)
  | Some VNull => (NilSlice, false)
  | Some _ => (NilSlice, true)
  end.

End json.

(** ** The models package *)

(** *** Role *)

Module Role.

Record t := mk {
  ID : UUID;
  CreatedAt : Time;
  UpdatedAt : Time;
  Name : string;
  Description : string;
  Permissions : string;
  IsActive : bool
}.

Definition with_Permissions (p : string) (r : t) : t :=
  {| ID := ID r; CreatedAt := CreatedAt r; UpdatedAt := UpdatedAt r;
     Name := Name r; Description := Description r; Permissions := p;
     IsActive := IsActive r |}.

(** [GetPermissions]: the error of [json.Unmarshal] is dropped. *)
Definition GetPermissions (r : t) : StringSlice :=
  if String.eqb (Permissions r) "" then Slice []
  else fst (json.Unmarshal (Permissions r)).

Definition SetPermissions (permissions : StringSlice) (r : t) : t :=
  let permissions :=
    match permissions with NilSlice => Slice [] | _ => permissions end in
  let data := json.Marshal permissions in
  with_Permissions data r.

End Role.

(** *** User *)

Module User.

Record t := mk {
  ID : UUID;
  CreatedAt : Time;
  UpdatedAt : Time;
  DeletedAt : option Time;
  Username : string;
  Email : string;
  Password : string;
  FirstName : string;
  LastName : string;
  Avatar : string;
  IsActive : bool;
  IsVerified : bool;
  LastLoginAt : option Time;
  Roles : list Role.t
}.

(** The zero value of the struct. *)
Definition zero : t :=
  mk uuid.Nil 0 0 None "" "" "" "" "" "" false false None [].

Definition with_Password (p : string) (u : t) : t :=
  mk (ID u) (CreatedAt u) (UpdatedAt u) (DeletedAt u) (Username u) (Email u)
     p (FirstName u) (LastName u) (Avatar u) (IsActive u) (IsVerified u)
     (LastLoginAt u) (Roles u).

Definition with_LastLoginAt (l : option Time) (u : t) : t :=
  mk (ID u) (CreatedAt u) (UpdatedAt u) (DeletedAt u) (Username u) (Email u)
     (Password u) (FirstName u) (LastName u) (Avatar u) (IsActive u)
     (IsVerified u) l (Roles u).

Definition with_UpdatedAt (now : Time) (u : t) : t :=
  mk (ID u) (CreatedAt u) now (DeletedAt u) (Username u) (Email u)
     (Password u) (FirstName u) (LastName u) (Avatar u) (IsActive u)
     (IsVerified u) (LastLoginAt u) (Roles u).

End User.

(** *** Session *)

Module Session.

Record t := mk {
  ID : UUID;
  CreatedAt : Time;
  UpdatedAt : Time;
  UserID : UUID;
  Token : string;
  ExpiresAt : Time;
  IPAddress : string;
  UserAgent : string;
  IsActive : bool;
  (** the [User] relationship, filled by [Preload] *)
  User : User.t
}.

Definition with_ID (id : UUID) (s : t) : t :=
  mk id (CreatedAt s) (UpdatedAt s) (UserID s) (Token s) (ExpiresAt s)
     (IPAddress s) (UserAgent s) (IsActive s) (User s).

Definition with_times (created updated : Time) (s : t) : t :=
  mk (ID s) created updated (UserID s) (Token s) (ExpiresAt s)
     (IPAddress s) (UserAgent s) (IsActive s) (User s).

Definition with_IsActive (a : bool) (s : t) : t :=
  mk (ID s) (CreatedAt s) (UpdatedAt s) (UserID s) (Token s) (ExpiresAt s)
     (IPAddress s) (UserAgent s) a (User s).

Definition with_User (u : User.t) (s : t) : t :=
  mk (ID s) (CreatedAt s) (UpdatedAt s) (UserID s) (Token s) (ExpiresAt s)
     (IPAddress s) (UserAgent s) (IsActive s) u.

(** [BeforeCreate]: a fresh identifier for a session that has none;
    [fresh] is what [uuid.New()] returns. *)
Definition BeforeCreate (fresh : UUID) (s : t) : t :=
  if N.eqb (ID s) uuid.Nil then with_ID fresh s else s.

(** [IsExpired], at the time [now] that [time.Now()] returns. *)
Definition IsExpired (now : Time) (s : t) : bool := After now (ExpiresAt s).

End Session.

(** Requests and responses of the auth handlers. *)
Record LoginRequest := {
  LoginRequest_Username : string;
  LoginRequest_Password : string
}.

Record RefreshTokenRequest := {
  RefreshTokenRequest_RefreshToken : string
}.

Record LoginResponse := {
  LoginResponse_User : User.t;
  AccessToken : string;
  RefreshToken_ : string;
  ExpiresIn : Z
}.

(** ** The database

    The two tables the handlers read and write. A row of [users] carries
    the roles that [Preload("Roles")] joins to it. [faults] holds the
    answers of the connection to the coming statements, one per statement:
    [true] makes the statement return an error other than
    [ErrRecordNotFound] and change nothing; when the list is used up every
    statement is answered. *)

Record DB := {
  users : list User.t;
  sessions : list Session.t;
  faults : list bool
}.

Inductive DBError := ErrRecordNotFound | ErrOther.

Inductive result (A : Type) :=
| Ok (a : A)
| Error (e : DBError).
Arguments Ok {A} a.
Arguments Error {A} e.

Module gorm.

(** The answer to the next statement, and the database after it. *)
Definition statement (db : DB) : bool * DB :=
  match faults db with
  | [] => (false, db)
  | f :: fs => (f, {| users := users db; sessions := sessions db; faults := fs |})
  end.

(** The next [n] statements are answered. *)
Fixpoint answered (n : nat) (fs : list bool) : bool :=
  match n, fs with
  | S m, f :: fs' => negb f && answered m fs'
  | _, _ => true
  end.

Definition set_users (us : list User.t) (db : DB) : DB :=
  {| users := us; sessions := sessions db; faults := faults db |}.

Definition set_sessions (ss : list Session.t) (db : DB) : DB :=
  {| users := users db; sessions := ss; faults := faults db |}.

(** The row of least primary key: what [ORDER BY id LIMIT 1] keeps. *)
Fixpoint least {A : Type} (key : A → UUID) (rows : list A) : option A :=
  match rows with
  | [] => None
  | x :: rows' =>
    match least key rows' with
    | None => Some x
    | Some y => if (key x <=? key y)%N then Some x else Some y
    end
  end.

(** Rows of [users] that a query sees: [deleted_at IS NULL]. *)
Definition live (u : User.t) : bool :=
  match User.DeletedAt u with None => true | Some _ => false end.

(** [db.Where(cond).Preload("Roles").First(&user)]. *)
Definition First_user (cond : User.t → bool) (db : DB) : result User.t * DB :=
  let '(fault, db) := statement db in
  if fault then (Error ErrOther, db)
  else
    match least User.ID (filter (λ u, live u && cond u) (users db)) with
    | Some u => (Ok u, db)
    | None => (Error ErrRecordNotFound, db)
    end.

(** [Preload("User.Roles")] on a session: the live user the foreign key
    names; the zero value when there is none. *)
Definition preload_User (db : DB) (s : Session.t) : Session.t :=
  Session.with_User
    (default User.zero
       (least User.ID
          (filter (λ u, live u && (User.ID u =? Session.UserID s)%N) (users db))))
    s.

(** [db.Where(cond).Preload("User.Roles").First(&session)]. *)
Definition First_session (cond : Session.t → bool) (db : DB) : result Session.t * DB :=
  let '(fault, db) := statement db in
  if fault then (Error ErrOther, db)
  else
    match least Session.ID (filter cond (sessions db)) with
    | Some s => (Ok (preload_User db s), db)
    | None => (Error ErrRecordNotFound, db)
    end.

(** [db.Create(session)]: the hook, the timestamps, then the insert, which
    the primary key and the unique index on [token] can refuse. The zero
    [User] of a new session is no association to save. *)
Definition Create_session (fresh : UUID) (now : Time) (s : Session.t) (db : DB)
  : result Session.t * DB :=
  let s := Session.with_times now now (Session.BeforeCreate fresh s) in
  let '(fault, db) := statement db in
  if fault then (Error ErrOther, db)
  else if existsb (λ r, (Session.ID r =? Session.ID s)%N ||
                        String.eqb (Session.Token r) (Session.Token s))
            (sessions db)
  then (Error ErrOther, db)
  else (Ok s, set_sessions (List.app (sessions db) [s]) db).

(** [db.Save(session)] for a session that has a primary key: the row of
    that key is rewritten; where there is none the session is inserted.
    The unique index on [token] refuses a token that another row has. The
    rows of the associations are left as they are. *)
Definition Save_session (now : Time) (s : Session.t) (db : DB) : result unit * DB :=
  let s := Session.with_times (Session.CreatedAt s) now s in
  let '(fault, db) := statement db in
  if fault then (Error ErrOther, db)
  else if existsb (λ r, negb (Session.ID r =? Session.ID s)%N &&
                        String.eqb (Session.Token r) (Session.Token s))
            (sessions db)
  then (Error ErrOther, db)
  else if existsb (λ r, (Session.ID r =? Session.ID s)%N) (sessions db) then
    (Ok (), set_sessions
              (map (λ r, if (Session.ID r =? Session.ID s)%N then s else r)
                 (sessions db)) db)
  else (Ok (), set_sessions (List.app (sessions db) [s]) db).

(** [db.Save(&user)] for a user read from the table. *)
Definition Save_user (now : Time) (u : User.t) (db : DB) : result unit * DB :=
  let u := User.with_UpdatedAt now u in
  let '(fault, db) := statement db in
  if fault then (Error ErrOther, db)
  else
    (Ok (), set_users
              (map (λ r, if (User.ID r =? User.ID u)%N then u else r) (users db))
              db).

End gorm.

(** ** Libraries the handlers call *)

Module bcrypt.

(** [CompareHashAndPassword(hash, password)]: [true] when it returns no
    error. *)
Class Library := {
  CompareHashAndPassword : string → string → bool
}.

End bcrypt.

Module jwt.

Inductive SigningMethod :=
| HS256 | HS384 | HS512
| RS256 | RS384 | RS512
| PS256 | PS384 | PS512
| ES256 | ES384 | ES512
| EdDSA
| none.

(** The type assertion of [token.Method] to a pointer to
    [jwt.SigningMethodHMAC]. *)
Definition isHMAC (m : SigningMethod) : bool :=
  match m with
  | HS256 | HS384 | HS512 => true
  | _ => false
  end.

(** A value of a claim, as [encoding/json] leaves it in a
    [map[string]interface{}]. The numbers the program writes are whole
    (seconds since the epoch) and a number is held as an integer. *)
Inductive ClaimValue :=
| CString (s : string)
| CNumber (n : Z)
| CBool (b : bool)
| CNull
| CArray
| CObject.

Abbreviation MapClaims := (gmap string ClaimValue).

(** The type assertion [claims[key].(string)]: the string and [ok]. *)
Definition claimString (claims : MapClaims) (key : string) : string * bool :=
  match claims !! key with
  | Some (CString s) => (s, true)
  | _ => ("", false)
  end.

Record Token := {
  Raw : string;
  Method : SigningMethod;
  Claims : MapClaims;
  Signature : string;
  Valid : bool
}.

(** What the handlers use of the library and do not compute themselves:
    reading the first two segments of a token, checking a signature over
    the signing input with a key, and [SignedString]. *)
Class Library := {
  DecodeHeader : string → option SigningMethod;
  DecodeClaims : string → option MapClaims;
  Verify : SigningMethod → string → string → string → bool;
  SignedString : SigningMethod → MapClaims → string → option string
}.

(** [strings.Cut(s, ".")]. *)
Fixpoint Cut (s : string) : option (string * string) :=
  match s with
  | EmptyString => None
  | String c r =>
    if Ascii.eqb c "." then Some ("", r)
    else
      match Cut r with
      | Some (before, after) => Some (String c before, after)
      | None => None
      end
  end.

(** [splitToken]: exactly three segments. *)
Definition splitToken (token : string) : option (string * string * string) :=
  match Cut token with
  | None => None
  | Some (header, remain) =>
    match Cut remain with
    | None => None
    | Some (claims, remain) =>
      match Cut remain with
      | Some _ => None
      | None => Some (header, claims, remain)
      end
    end
  end.

(** A registered date claim: absent, a date, or (the outer [None]) a value
    of another type. *)
Definition parseNumericDate (claims : MapClaims) (key : string) : option (option Time) :=
  match claims !! key with
  | None => Some None
  | Some (CNumber n) => if n =? 0 then Some None else Some (Some (n * Second))
  | Some _ => None
  end.

(** The validator with its default options: [exp] and [nbf], both
    optional, no leeway. *)
Definition Validate (claims : MapClaims) (now : Time) : bool :=
  match parseNumericDate claims "exp", parseNumericDate claims "nbf" with
  | Some exp, Some nbf =>
    match exp with None => true | Some e => Before now e end &&
    match nbf with None => true | Some n => negb (Before now n) end
  | _, _ => false
  end.

(** A key function returns the key, or an error. *)
Definition Keyfunc := Token → string + string.

Section Parse.
Context {J : Library}.

(** [jwt.Parse(tokenString, keyFunc)] at time [now]: the verified token,
    or [None] when an error is returned. *)
Definition Parse (tokenString : string) (keyFunc : Keyfunc) (now : Time) : option Token :=
  match splitToken tokenString with
  | None => None
  | Some (h, c, sig) =>
    match DecodeHeader h, DecodeClaims c with
    | Some m, Some claims =>
      let token := {| Raw := tokenString; Method := m; Claims := claims;
                      Signature := sig; Valid := false |} in
      match keyFunc token with
      | inr _ => None
      | inl key =>
        if negb (Verify m (h +:+ "." +:+ c) sig key) then None
        else if negb (Validate claims now) then None
        else Some {| Raw := tokenString; Method := m; Claims := claims;
                     Signature := sig; Valid := true |}
      end
    | _, _ => None
    end
  end.

End Parse.

End jwt.

(** ** The config package *)

Record JWTConfig := {
  Secret : string;
  Expiry : Duration;
  RefreshExp : Duration
}.

(** ** HTTP *)

Definition StatusOK : Z := 200.
Definition StatusBadRequest : Z := 400.
Definition StatusUnauthorized : Z := 401.
Definition StatusForbidden : Z := 403.
Definition StatusTooManyRequests : Z := 429.
Definition StatusInternalServerError : Z := 500.

Record Pagination := {
  current_page : Z;
  total_pages : Z;
  total_items : Z;
  items_per_page : Z
}.

(** The bodies that [c.JSON] is given. *)
Inductive Body :=
| NoBody
| H_error (msg : string)
| H_message (msg : string)
| JSON_LoginResponse (r : LoginResponse)
| JSON_users (users : list User.t) (pagination : Pagination).

Record Response := JSON {
  Status : Z;
  Payload : Body
}.

Module binding.

(** The text of the validator for a field that fails [required]. *)
Definition required (type field : string) : string :=
  "Key: '" +:+ type +:+ "." +:+ field +:+ "' Error:Field validation for '" +:+
  field +:+ "' failed on the 'required' tag".

Definition newline : string := String (char_of 10) "".

(** [c.ShouldBindJSON(&req)] on a body that [body] describes: the text of
    the decoding error, or the struct decoded, which the [required] tags
    then check. The result is the error text or the request. *)
Definition ShouldBindJSON_LoginRequest (body : string + LoginRequest) : string + LoginRequest :=
  match body with
  | inl err => inl err
  | inr req =>
    let failed :=
      List.app
        (if String.eqb (LoginRequest_Username req) "" then
           [required "LoginRequest" "Username"] else [])
        (if String.eqb (LoginRequest_Password req) "" then
           [required "LoginRequest" "Password"] else []) in
    match failed with
    | [] => inr req
    | _ => inl (json.join newline failed)
    end
  end.

Definition ShouldBindJSON_RefreshTokenRequest (body : string + RefreshTokenRequest)
  : string + RefreshTokenRequest :=
  match body with
  | inl err => inl err
  | inr req =>
    if String.eqb (RefreshTokenRequest_RefreshToken req) "" then
      inl (required "RefreshTokenRequest" "RefreshToken")
    else inr req
  end.

End binding.

(** ** The gin context *)

Module gin.

(** The values the middleware stores under [c.Keys]. *)
Inductive Value :=
| VUser (u : User.t)
| VUUID (id : UUID)
| VSession (s : Session.t).

Abbreviation Keys := (gmap string Value).

(** How a middleware leaves the chain: [c.Next()] with the keys it has
    set, or [c.Abort()] after a response. *)
Inductive Flow :=
| Next (keys : Keys)
| Abort (r : Response).

End gin.

(** What [Recovery] answers when a handler panics on a failed type
    assertion: [AbortWithStatus(500)], no JSON body. *)
Definition recovered : Response := JSON StatusInternalServerError NoBody.

(** ** The handlers package: auth.go *)

Module handlers.

Section Auth.
Context {B : bcrypt.Library} {J : jwt.Library}.
Variable cfg : JWTConfig.

Definition accessClaims (now : Time) (userID : UUID) (sessionToken : string) : jwt.MapClaims :=
  <["user_id" := jwt.CString (uuid.String userID)]>
  (<["session_token" := jwt.CString sessionToken]>
  (<["type" := jwt.CString "access"]>
  (<["exp" := jwt.CNumber (Unix (now + Expiry cfg))]>
  (<["iat" := jwt.CNumber (Unix now)]> ∅)))).

Definition refreshClaims (now : Time) (userID : UUID) (sessionToken : string) : jwt.MapClaims :=
  <["user_id" := jwt.CString (uuid.String userID)]>
  (<["session_token" := jwt.CString sessionToken]>
  (<["type" := jwt.CString "refresh"]>
  (<["exp" := jwt.CNumber (Unix (now + RefreshExp cfg))]>
  (<["iat" := jwt.CNumber (Unix now)]> ∅)))).

Definition generateAccessToken (now : Time) (userID : UUID) (sessionToken : string)
  : option string :=
  jwt.SignedString jwt.HS256 (accessClaims now userID sessionToken) (Secret cfg).

Definition generateRefreshToken (now : Time) (userID : UUID) (sessionToken : string)
  : option string :=
  jwt.SignedString jwt.HS256 (refreshClaims now userID sessionToken) (Secret cfg).

(** The key function of [RefreshToken]. *)
Definition refreshKeyfunc : jwt.Keyfunc :=
  λ token,
    if negb (jwt.isHMAC (jwt.Method token)) then inr "signature is invalid"
    else inl (Secret cfg).

(** The condition of the user query: [username = ? OR email = ?], both
    with the name of the request. *)
Definition loginQuery (name : string) (u : User.t) : bool :=
  String.eqb (User.Username u) name || String.eqb (User.Email u) name.

(** [Login]. [now] is the reading of the clock, [newToken] and [newID] the
    identifiers that [uuid.New()] draws for the token and, in the hook, for
    the row; [clientIP] and [userAgent] are read from the request. *)
Definition Login (now : Time) (newToken newID : UUID) (clientIP userAgent : string)
    (body : string + LoginRequest) (db : DB) : Response * DB :=
  match binding.ShouldBindJSON_LoginRequest body with
  | inl err => (JSON StatusBadRequest (H_error err), db)
  | inr req =>
    (* Find user *)
    let '(found, db) :=
      gorm.First_user (loginQuery (LoginRequest_Username req)) db in
    match found with
    | Error _ => (JSON StatusUnauthorized (H_error "Invalid credentials"), db)
    | Ok user =>
      (* Check if user is active *)
      if negb (User.IsActive user) then
        (JSON StatusUnauthorized (H_error "Account is disabled"), db)
      (* Verify password *)
      else if negb (bcrypt.CompareHashAndPassword (User.Password user)
                      (LoginRequest_Password req)) then
        (JSON StatusUnauthorized (H_error "Invalid credentials"), db)
      else
        (* Create session *)
        let session :=
          Session.mk uuid.Nil 0 0 (User.ID user) (uuid.String newToken)
            (now + RefreshExp cfg) clientIP userAgent true User.zero in
        let '(created, db) := gorm.Create_session newID now session db in
        match created with
        | Error _ =>
          (JSON StatusInternalServerError (H_error "Failed to create session"), db)
        | Ok session =>
          (* Generate JWT tokens *)
          match generateAccessToken now (User.ID user) (Session.Token session) with
          | None =>
            (JSON StatusInternalServerError
               (H_error "Failed to generate access token"), db)
          | Some accessToken =>
            match generateRefreshToken now (User.ID user) (Session.Token session) with
            | None =>
              (JSON StatusInternalServerError
                 (H_error "Failed to generate refresh token"), db)
            | Some refreshToken =>
              (* Update last login time *)
              let user := User.with_LastLoginAt (Some now) user in
              let '(_, db) := gorm.Save_user now user db in
              (* Remove password from response *)
              let user := User.with_Password "" user in
              (JSON StatusOK
                 (JSON_LoginResponse
                    {| LoginResponse_User := user;
                       AccessToken := accessToken;
                       RefreshToken_ := refreshToken;
                       ExpiresIn := Seconds (Expiry cfg) |}), db)
            end
          end
        end
    end
  end.

(** The condition of the session query:
    [token = ? AND user_id = ? AND is_active = true]. The text given for
    [user_id] is compared with the rendering of the column. *)
Definition sessionQuery (sessionToken userID : string) (s : Session.t) : bool :=
  String.eqb (Session.Token s) sessionToken &&
  String.eqb (uuid.String (Session.UserID s)) userID &&
  Session.IsActive s.

(** [RefreshToken]. [jwt.Parse] leaves a [MapClaims] in [token.Claims], so
    the assertion of the claims to that type holds and its 401 is not
    reached. *)
Definition RefreshToken (now : Time) (body : string + RefreshTokenRequest) (db : DB)
  : Response * DB :=
  match binding.ShouldBindJSON_RefreshTokenRequest body with
  | inl err => (JSON StatusBadRequest (H_error err), db)
  | inr req =>
    (* Parse and validate refresh token *)
    match jwt.Parse (RefreshTokenRequest_RefreshToken req) refreshKeyfunc now with
    | None => (JSON StatusUnauthorized (H_error "Invalid refresh token"), db)
    | Some token =>
      if negb (jwt.Valid token) then
        (JSON StatusUnauthorized (H_error "Invalid refresh token"), db)
      else
        let claims := jwt.Claims token in
        let userID := fst (jwt.claimString claims "user_id") in
        let sessionToken := fst (jwt.claimString claims "session_token") in
        (* Validate session *)
        let '(found, db) := gorm.First_session (sessionQuery sessionToken userID) db in
        match found with
        | Error _ => (JSON StatusUnauthorized (H_error "Invalid session"), db)
        | Ok session =>
          if Session.IsExpired now session then
            (JSON StatusUnauthorized (H_error "Session expired"), db)
          else
            (* Generate new access token *)
            match generateAccessToken now (User.ID (Session.User session))
                    (Session.Token session) with
            | None =>
              (JSON StatusInternalServerError
                 (H_error "Failed to generate access token"), db)
            | Some accessToken =>
              (JSON StatusOK
                 (JSON_LoginResponse
                    {| LoginResponse_User := User.with_Password "" (Session.User session);
                       AccessToken := accessToken;
                       RefreshToken_ := RefreshTokenRequest_RefreshToken req;
                       ExpiresIn := Seconds (Expiry cfg) |}), db)
            end
        end
    end
  end.

(** [Logout]. *)
Definition Logout (now : Time) (keys : gin.Keys) (db : DB) : Response * DB :=
  match keys !! "session" with
  | None => (JSON StatusUnauthorized (H_error "Session not found"), db)
  | Some (gin.VSession s) =>
    let s := Session.with_IsActive false s in
    let '(saved, db) := gorm.Save_session now s db in
    match saved with
    | Error _ => (JSON StatusInternalServerError (H_error "Failed to logout"), db)
    | Ok _ => (JSON StatusOK (H_message "Logged out successfully"), db)
    end
  | Some _ => (recovered, db)
  end.

End Auth.

End handlers.

(** ** The strings and strconv packages *)

Module strings.

(** [s] without the leading [prefix], when it has it. *)
Fixpoint CutPrefix (s prefix : string) : option string :=
  match prefix, s with
  | EmptyString, _ => Some s
  | String a prefix', String c s' =>
    if Ascii.eqb a c then CutPrefix s' prefix' else None
  | String _ _, EmptyString => None
  end.

Definition TrimPrefix (s prefix : string) : string :=
  default s (CutPrefix s prefix).

End strings.

Module strconv.

Definition maxInt : Z := 2 ^ 63 - 1.
Definition minInt : Z := - 2 ^ 63.

Fixpoint digits (acc : Z) (s : string) : option Z :=
  match s with
  | EmptyString => Some acc
  | String c r =>
    let b := byte_of c in
    if json.isDigit b then digits (acc * 10 + (b - 48)) r else None
  end.

(** [Atoi]: the number and whether an error is returned. A text that is
    no number gives 0; a number out of range gives the nearest bound. *)
Definition Atoi (s : string) : Z * bool :=
  let '(neg, body) :=
    match s with
    | String c r =>
      if byte_of c =? 43 then (false, r)
      else if byte_of c =? 45 then (true, r)
      else (false, s)
    | EmptyString => (false, s)
    end in
  match body with
  | EmptyString => (0, true)
  | _ =>
    match digits 0 body with
    | None => (0, true)
    | Some v =>
      let v := if neg then - v else v in
      if v <? minInt then (minInt, true)
      else if maxInt <? v then (maxInt, true)
      else (v, false)
    end
  end.

End strconv.

(** An [int] or [int64] after an operation: the value modulo 2^64, read as
    a signed number. *)
Definition wrap64 (z : Z) : Z := (z + 2 ^ 63) mod 2 ^ 64 - 2 ^ 63.

(** ** The handlers package: the listing of users *)

Module postgres.

(** The operator [ILIKE] of the database: [ILIKE text pattern]. *)
Class Library := {
  ILIKE : string → string → bool
}.

End postgres.

Module user_handlers.

Section Users.
Context {P : postgres.Library}.

(** [c.DefaultQuery(key, defaultValue)] and [c.Query(key)] on the query
    string, held as the first value of each key. *)
Definition DefaultQuery (query : gmap string string) (key defaultValue : string) : string :=
  default defaultValue (query !! key).

Definition Query (query : gmap string string) (key : string) : string :=
  default "" (query !! key).

(** The rows a query on [users] ranges over, under the search term. *)
Definition searched (search : string) (u : User.t) : bool :=
  gorm.live u &&
  (if String.eqb search "" then true
   else
     let pattern := "%" +:+ search +:+ "%" in
     postgres.ILIKE (User.Username u) pattern ||
     postgres.ILIKE (User.Email u) pattern ||
     postgres.ILIKE (User.FirstName u) pattern ||
     postgres.ILIKE (User.LastName u) pattern).

(** [Offset(offset).Limit(limit)]: an offset that is not positive is left
    out of the query. *)
Definition page_of {A : Type} (offset limit : Z) (rows : list A) : list A :=
  take (Z.to_nat limit) (drop (Z.to_nat offset) rows).

(** [GetUsers]. The error of [Count] is not looked at: a failed count
    leaves [total] at 0. *)
Definition GetUsers (query : gmap string string) (db : DB) : Response * DB :=
  let page := fst (strconv.Atoi (DefaultQuery query "page" "1")) in
  let limit := fst (strconv.Atoi (DefaultQuery query "limit" "10")) in
  let search := Query query "search" in
  let page := if page <? 1 then 1 else page in
  let limit := if (limit <? 1) || (100 <? limit) then 10 else limit in
  let offset := wrap64 ((page - 1) * limit) in
  let '(fault, db) := gorm.statement db in
  let total :=
    if fault then 0
    else Z.of_nat (length (filter (λ u, searched search u) (users db))) in
  let '(fault, db) := gorm.statement db in
  if fault then
    (JSON StatusInternalServerError (H_error "Failed to fetch users"), db)
  else
    let users := page_of offset limit (filter (λ u, searched search u) (users db)) in
    (* Remove passwords from response *)
    let users := map (User.with_Password "") users in
    (JSON StatusOK
       (JSON_users users
          {| current_page := page;
             total_pages := Z.quot (wrap64 (wrap64 (total + limit) - 1)) limit;
             total_items := total;
             items_per_page := limit |}), db).

End Users.

End user_handlers.

(** ** The middleware package *)

Module middleware.

Section Auth.
Context {J : jwt.Library}.
Variable cfg : JWTConfig.

(** The key function of [AuthMiddleware]. *)
Definition authKeyfunc : jwt.Keyfunc :=
  λ token,
    if negb (jwt.isHMAC (jwt.Method token)) then inr "unexpected signing method"
    else inl (Secret cfg).

Definition unauthorized (msg : string) : gin.Flow :=
  gin.Abort (JSON StatusUnauthorized (H_error msg)).

(** [AuthMiddleware]: [authHeader] is the Authorization header of the
    request, empty when the request has none. As in [RefreshToken] the
    claims are a [MapClaims]. *)
Definition AuthMiddleware (now : Time) (authHeader : string) (keys : gin.Keys) (db : DB)
  : gin.Flow * DB :=
  if String.eqb authHeader "" then
    (unauthorized "Authorization header is required", db)
  else
    let tokenString := strings.TrimPrefix authHeader "Bearer " in
    if String.eqb tokenString authHeader then
      (unauthorized "Bearer token is required", db)
    else
      match jwt.Parse tokenString authKeyfunc now with
      | None => (unauthorized "Invalid token", db)
      | Some token =>
        if negb (jwt.Valid token) then (unauthorized "Invalid token", db)
        else
          let claims := jwt.Claims token in
          let '(userID, ok) := jwt.claimString claims "user_id" in
          if negb ok then (unauthorized "Invalid user ID in token", db)
          else
            (* Validate session *)
            let '(sessionToken, ok) := jwt.claimString claims "session_token" in
            if negb ok then (unauthorized "Invalid session token in claims", db)
            else
              let '(found, db) :=
                gorm.First_session (handlers.sessionQuery sessionToken userID) db in
              match found with
              | Error _ => (unauthorized "Invalid session", db)
              | Ok session =>
                if Session.IsExpired now session then
                  (unauthorized "Session expired", db)
                else
                  (* Set user in context *)
                  (gin.Next
                     (<["session" := gin.VSession session]>
                      (<["user_id" := gin.VUUID (User.ID (Session.User session))]>
                       (<["user" := gin.VUser (Session.User session)]> keys))), db)
              end
      end.

End Auth.

(** The loop of [RequireRole]. *)
Fixpoint hasRole (roles : list Role.t) (requiredRole : string) : bool :=
  match roles with
  | [] => false
  | role :: roles' =>
    if String.eqb (Role.Name role) requiredRole then true
    else hasRole roles' requiredRole
  end.

Definition RequireRole (requiredRole : string) (keys : gin.Keys) : gin.Flow :=
  match keys !! "user" with
  | None => gin.Abort (JSON StatusUnauthorized (H_error "User not found in context"))
  | Some (gin.VUser u) =>
    if negb (hasRole (User.Roles u) requiredRole) then
      gin.Abort (JSON StatusForbidden
                   (H_error ("Role '" +:+ requiredRole +:+ "' is required")))
    else gin.Next keys
  | Some _ => gin.Abort recovered
  end.

(** The inner loop of [RequirePermission]. *)
Fixpoint inPermissions (permissions : list string) (requiredPermission : string) : bool :=
  match permissions with
  | [] => false
  | permission :: permissions' =>
    if String.eqb permission requiredPermission then true
    else inPermissions permissions' requiredPermission
  end.

(** The outer loop of [RequirePermission]. *)
Fixpoint hasPermission (roles : list Role.t) (requiredPermission : string) : bool :=
  match roles with
  | [] => false
  | role :: roles' =>
    let permissions := Role.GetPermissions role in
    if inPermissions (elems_of permissions) requiredPermission then true
    else hasPermission roles' requiredPermission
  end.

Definition RequirePermission (requiredPermission : string) (keys : gin.Keys) : gin.Flow :=
  match keys !! "user" with
  | None => gin.Abort (JSON StatusUnauthorized (H_error "User not found in context"))
  | Some (gin.VUser u) =>
    if negb (hasPermission (User.Roles u) requiredPermission) then
      gin.Abort (JSON StatusForbidden
                   (H_error ("Permission '" +:+ requiredPermission +:+ "' is required")))
    else gin.Next keys
  | Some _ => gin.Abort recovered
  end.

(** The state of [RateLimit]: the map [clients] that the closure holds.
    A call of the handler is a step on it; calls are taken one after the
    other. *)
Definition RateLimit (clientIP : string) (now : Time) (keys : gin.Keys)
    (clients : gmap string (list Time)) : gin.Flow * gmap string (list Time) :=
  (* Clean old entries (older than 1 minute) *)
  let clients :=
    match clients !! clientIP with
    | Some requests =>
      let validRequests := filter (λ reqTime, Sub now reqTime ≤ Minute) requests in
      <[clientIP := validRequests]> clients
    | None => clients
    end in
  (* Check rate limit (100 requests per minute) *)
  if (100 <=? length (default [] (clients !! clientIP)))%nat then
    (gin.Abort (JSON StatusTooManyRequests (H_error "Rate limit exceeded")), clients)
  else
    (* Add current request *)
    (gin.Next keys,
     <[clientIP := List.app (default [] (clients !! clientIP)) [now]]> clients).

End middleware.

(** ** Stand-ins for the libraries

    Small implementations of the library interfaces, on which the
    handlers can be run. *)

Module standin.

(** A password scheme whose hash of [p] is [p] behind a fixed prefix. *)
Definition plain : bcrypt.Library :=
  {| bcrypt.CompareHashAndPassword hash password :=
       String.eqb hash ("$2a$" +:+ password) |}.

Definition alice_id : UUID := 1%N.
Definition alice_session : string := uuid.String 7%N.

Definition claims_of (type : string) : jwt.MapClaims :=
  <["user_id" := jwt.CString (uuid.String alice_id)]>
  (<["session_token" := jwt.CString alice_session]>
  (<["type" := jwt.CString type]>
  (<["exp" := jwt.CNumber 2000]> ∅))).

(** A token format with readable segments: the header is the name of the
    method, the claims are one of a few named sets, and the signature is
    the key itself. *)
Definition tokens : jwt.Library :=
  {| jwt.DecodeHeader h :=
       if String.eqb h "HS256" then Some jwt.HS256
       else if String.eqb h "RS256" then Some jwt.RS256
       else None;
     jwt.DecodeClaims c :=
       if String.eqb c "alice-refresh" then Some (claims_of "refresh")
       else if String.eqb c "alice-access" then Some (claims_of "access")
       else if String.eqb c "alice-nosession" then
         Some (delete "session_token" (claims_of "refresh"))
       else if String.eqb c "empty" then Some ∅
       else None;
     jwt.Verify m input sig key := String.eqb sig key;
     jwt.SignedString m claims key :=
       match claims !! "type" with
       | Some (jwt.CString t) => Some ("HS256.alice-" +:+ t +:+ "." +:+ key)
       | _ => None
       end |}.

Definition any_text : postgres.Library :=
  {| postgres.ILIKE text pattern := true |}.

Definition cfg : JWTConfig :=
  {| Secret := "secret"; Expiry := 24 * 3600 * Second;
     RefreshExp := 7 * 24 * 3600 * Second |}.

Definition admin_role : Role.t :=
  Role.SetPermissions (Slice ["user:read"; "user:create"])
    (Role.mk 1%N 0 0 "admin" "System Administrator" "" true).

Definition alice : User.t :=
  User.mk alice_id 0 0 None "alice" "alice@gauth.local" "$2a$wonderland"
    "Alice" "A" "" true true None [admin_role].

(** An account that was disabled. *)
Definition bob : User.t :=
  User.mk 2%N 0 0 None "bob" "bob@gauth.local" "$2a$builder"
    "Bob" "B" "" false true None [].

Definition session7 : Session.t :=
  Session.mk 70%N 0 0 alice_id alice_session (1000 * Second) "10.0.0.1" "curl"
    true User.zero.

Definition db0 : DB :=
  {| users := [alice; bob]; sessions := [session7]; faults := [] |}.

End standin.

(** * The rest of the code

    The handlers of auth.go and of the user handler that answer with a
    user, the CORS middleware, and the chains of main.go. *)

(** A response of a handler that may also write a user as its body
    ([c.JSON(status, user)]). *)
Inductive Answer :=
| Answer_JSON (r : Response)
| Answer_user (status : Z) (u : User.t).

Definition Answer_status (a : Answer) : Z :=
  match a with
  | Answer_JSON r => Status r
  | Answer_user status _ => status
  end.

Record ChangePasswordRequest := {
  CurrentPassword : string;
  NewPassword : string
}.

Definition StatusNoContent : Z := 204.
Definition StatusNotFound : Z := 404.

Module hashing.

Definition DefaultCost : Z := 10.

(** [bcrypt.GenerateFromPassword(password, cost)]: the hash, or [None]
    when it returns an error. [salt] is what it reads from the random
    source. *)
Class Library := {
  GenerateFromPassword : string → Z → string → option string
}.

End hashing.

Module parsing.

(** [uuid.Parse]: the identifier a text writes, or [None] on an error. *)
Class Library := {
  Parse : string → option UUID
}.

End parsing.

Module validator.

(** The text of the validator for a field that fails a tag. *)
Definition failed (type field tag : string) : string :=
  "Key: '" +:+ type +:+ "." +:+ field +:+ "' Error:Field validation for '" +:+
  field +:+ "' failed on the '" +:+ tag +:+ "' tag".

(** [utf8.RuneCountInString]: a byte that starts no rune counts as one.
    [fuel] bounds the number of runes. *)
Fixpoint runes (fuel : nat) (s : string) : nat :=
  match fuel with
  | O => O
  | S f =>
    match s with
    | EmptyString => O
    | _ => S (runes f (utf8.skip (snd (utf8.DecodeRuneInString s)) s))
    end
  end.

Definition RuneCountInString (s : string) : nat := runes (String.length s) s.

(** [c.ShouldBindJSON(&req)] for a [ChangePasswordRequest]: [required] on
    both fields, then [min=6], counted in runes, on the new password. *)
Definition ShouldBindJSON_ChangePasswordRequest (body : string + ChangePasswordRequest)
  : string + ChangePasswordRequest :=
  match body with
  | inl err => inl err
  | inr req =>
    let failures :=
      List.app
        (if String.eqb (CurrentPassword req) "" then
           [failed "ChangePasswordRequest" "CurrentPassword" "required"] else [])
        (if String.eqb (NewPassword req) "" then
           [failed "ChangePasswordRequest" "NewPassword" "required"]
         else if (RuneCountInString (NewPassword req) <? 6)%nat then
           [failed "ChangePasswordRequest" "NewPassword" "min"]
         else []) in
    match failures with
    | [] => inr req
    | _ => inl (json.join binding.newline failures)
    end
  end.

End validator.

(** ** auth.go: Me and ChangePassword *)

Module account.

(** [BeforeCreate] of a user; [fresh] is what [uuid.New()] returns. *)
Definition BeforeCreate (fresh : UUID) (u : User.t) : User.t :=
  if N.eqb (User.ID u) uuid.Nil then
    User.mk fresh (User.CreatedAt u) (User.UpdatedAt u) (User.DeletedAt u)
      (User.Username u) (User.Email u) (User.Password u) (User.FirstName u)
      (User.LastName u) (User.Avatar u) (User.IsActive u) (User.IsVerified u)
      (User.LastLoginAt u) (User.Roles u)
  else u.

(** The timestamps of an insert: those that are zero get the time. *)
Definition stamped (now : Time) (u : User.t) : User.t :=
  User.mk (User.ID u)
    (if User.CreatedAt u =? 0 then now else User.CreatedAt u)
    (if User.UpdatedAt u =? 0 then now else User.UpdatedAt u)
    (User.DeletedAt u) (User.Username u) (User.Email u) (User.Password u)
    (User.FirstName u) (User.LastName u) (User.Avatar u) (User.IsActive u)
    (User.IsVerified u) (User.LastLoginAt u) (User.Roles u).

(** [db.Save(u)] for the user of the context. With a key it is the update
    of [gorm.Save_user]. With the zero key, which the user of a session
    whose user is gone has, it is an insert: the hook, the timestamps, and
    the row, which the primary key and the unique indexes on [username]
    and [email] can refuse. *)
Definition Save (fresh : UUID) (now : Time) (u : User.t) (db : DB) : result unit * DB :=
  if N.eqb (User.ID u) uuid.Nil then
    let u := stamped now (BeforeCreate fresh u) in
    let '(fault, db) := gorm.statement db in
    if fault then (Error ErrOther, db)
    else if existsb (λ r, (User.ID r =? User.ID u)%N ||
                          String.eqb (User.Username r) (User.Username u) ||
                          String.eqb (User.Email r) (User.Email u))
              (users db)
    then (Error ErrOther, db)
    else (Ok (), gorm.set_users (List.app (users db) [u]) db)
  else gorm.Save_user now u db.

Section Account.
Context {B : bcrypt.Library} {G : hashing.Library}.

(** [Me]. The handler blanks the password of the user the context points
    to; it is the last of its chain. *)
Definition Me (keys : gin.Keys) : Answer :=
  match keys !! "user" with
  | None => Answer_JSON (JSON StatusUnauthorized (H_error "User not found"))
  | Some (gin.VUser u) =>
    (* Remove password from response *)
    Answer_user StatusOK (User.with_Password "" u)
  | Some _ => Answer_JSON recovered
  end.

(** [ChangePassword]. [salt] is what bcrypt draws and [fresh] what
    [uuid.New()] would return. *)
Definition ChangePassword (now : Time) (fresh : UUID) (salt : string)
    (body : string + ChangePasswordRequest) (keys : gin.Keys) (db : DB)
  : Response * DB :=
  match validator.ShouldBindJSON_ChangePasswordRequest body with
  | inl err => (JSON StatusBadRequest (H_error err), db)
  | inr req =>
    match keys !! "user" with
    | None => (JSON StatusUnauthorized (H_error "User not found"), db)
    | Some (gin.VUser u) =>
      (* Verify current password *)
      if negb (bcrypt.CompareHashAndPassword (User.Password u) (CurrentPassword req)) then
        (JSON StatusUnauthorized (H_error "Current password is incorrect"), db)
      else
        (* Hash new password *)
        match hashing.GenerateFromPassword (NewPassword req) hashing.DefaultCost salt with
        | None =>
          (JSON StatusInternalServerError (H_error "Failed to hash password"), db)
        | Some hashedPassword =>
          (* Update password *)
          let u := User.with_Password hashedPassword u in
          let '(saved, db) := Save fresh now u db in
          match saved with
          | Error _ =>
            (JSON StatusInternalServerError (H_error "Failed to update password"), db)
          | Ok _ => (JSON StatusOK (H_message "Password changed successfully"), db)
          end
        end
    | Some _ => (recovered, db)
    end
  end.

End Account.

End account.

(** ** The user handler: GetUser and DeleteUser *)

Module users.

(** [db.Where("id = ?", userID).Preload("Roles").First(&user)]. *)
Definition byID (userID : UUID) (u : User.t) : bool := (User.ID u =? userID)%N.

(** [db.Delete(&user)]: the rows of the key that are not deleted yet get
    the time of the deletion. A user with the zero key gives the statement
    no condition, and gorm refuses it ([ErrMissingWhereClause]). *)
Definition Delete_user (now : Time) (user : User.t) (db : DB) : result unit * DB :=
  let '(fault, db) := gorm.statement db in
  if fault then (Error ErrOther, db)
  else if N.eqb (User.ID user) uuid.Nil then (Error ErrOther, db)
  else
    (Ok (), gorm.set_users
              (map (λ r, if gorm.live r && (User.ID r =? User.ID user)%N then
                           User.mk (User.ID r) (User.CreatedAt r) (User.UpdatedAt r)
                             (Some now) (User.Username r) (User.Email r)
                             (User.Password r) (User.FirstName r) (User.LastName r)
                             (User.Avatar r) (User.IsActive r) (User.IsVerified r)
                             (User.LastLoginAt r) (User.Roles r)
                         else r)
                 (users db)) db).

Section Users.
Context {U : parsing.Library}.

(** [GetUser]: [id] is the parameter of the path. *)
Definition GetUser (id : string) (db : DB) : Answer * DB :=
  match parsing.Parse id with
  | None => (Answer_JSON (JSON StatusBadRequest (H_error "Invalid user ID")), db)
  | Some userID =>
    let '(found, db) := gorm.First_user (byID userID) db in
    match found with
    | Error ErrRecordNotFound =>
      (Answer_JSON (JSON StatusNotFound (H_error "User not found")), db)
    | Error _ =>
      (Answer_JSON (JSON StatusInternalServerError (H_error "Failed to fetch user")), db)
    | Ok user =>
      (* Remove password from response *)
      (Answer_user StatusOK (User.with_Password "" user), db)
    end
  end.

(** [DeleteUser]. The user is read without its roles, which the deletion
    does not use. *)
Definition DeleteUser (now : Time) (id : string) (db : DB) : Response * DB :=
  match parsing.Parse id with
  | None => (JSON StatusBadRequest (H_error "Invalid user ID"), db)
  | Some userID =>
    (* Check if user exists *)
    let '(found, db) := gorm.First_user (byID userID) db in
    match found with
    | Error ErrRecordNotFound => (JSON StatusNotFound (H_error "User not found"), db)
    | Error _ =>
      (JSON StatusInternalServerError (H_error "Failed to fetch user"), db)
    | Ok user =>
      (* Soft delete user *)
      let '(deleted, db) := Delete_user now user db in
      match deleted with
      | Error _ =>
        (JSON StatusInternalServerError (H_error "Failed to delete user"), db)
      | Ok _ => (JSON StatusOK (H_message "User deleted successfully"), db)
      end
    end
  end.

End Users.

End users.

(** ** middleware.go: CORS *)

Module cors.

Definition allowedOrigins : list string :=
  ["http://localhost:3000"; "http://127.0.0.1:3000"; "https://your-domain.com"].

(** The loop over [allowedOrigins]. *)
Fixpoint isAllowed (origin : string) (allowed : list string) : bool :=
  match allowed with
  | [] => false
  | a :: allowed' => if String.eqb origin a then true else isAllowed origin allowed'
  end.

(** [c.Header(key, value)] on the headers of the response: an empty value
    removes the header. *)
Definition Header (key value : string) (headers : gmap string string)
  : gmap string string :=
  if String.eqb value "" then delete key headers else <[key := value]> headers.

(** [CORS]: [origin] is the Origin header of the request, empty when it
    has none; [method] is the method of the request. *)
Definition CORS (origin method : string) (keys : gin.Keys)
    (headers : gmap string string) : gin.Flow * gmap string string :=
  let headers :=
    if isAllowed origin allowedOrigins then
      Header "Access-Control-Allow-Origin" origin headers
    else headers in
  let headers := Header "Access-Control-Allow-Credentials" "true" headers in
  let headers :=
    Header "Access-Control-Allow-Headers"
      "Content-Type, Content-Length, Accept-Encoding, X-CSRF-Token, Authorization, accept, origin, Cache-Control, X-Requested-With"
      headers in
  let headers :=
    Header "Access-Control-Allow-Methods" "POST, OPTIONS, GET, PUT, DELETE, PATCH"
      headers in
  if String.eqb method "OPTIONS" then
    (gin.Abort (JSON StatusNoContent NoBody), headers)
  else (gin.Next keys, headers).

End cors.

(** ** main.go: the chains of the routes

    Of the handlers that every route runs first, [Logger] writes a log
    line and [Recovery] answers a panic (see [recovered]); [CORS] is left
    to its own model: on a request that a route matches by its method it
    sets headers and goes on. *)

Module routes.

Section Routes.
Context {B : bcrypt.Library} {G : hashing.Library} {J : jwt.Library}
        {P : postgres.Library} {U : parsing.Library}.
Variable cfg : JWTConfig.

(** The group [protected]: [AuthMiddleware], then the rest of the chain. *)
Definition protected {A : Type} (stop : Response → A)
    (now : Time) (authHeader : string) (rest : gin.Keys → DB → A * DB) (db : DB)
  : A * DB :=
  match middleware.AuthMiddleware cfg now authHeader ∅ db with
  | (gin.Abort r, db) => (stop r, db)
  | (gin.Next keys, db) => rest keys db
  end.


(** POST /api/auth/logout *)
Definition auth_logout (now : Time) (authHeader : string) (db : DB) : Response * DB :=
  protected (λ r, r) now authHeader (λ keys db, handlers.Logout now keys db) db.

(** GET /api/auth/me *)
Definition auth_me (now : Time) (authHeader : string) (db : DB) : Answer * DB :=
  protected Answer_JSON now authHeader (λ keys db, (account.Me keys, db)) db.

(** POST /api/auth/change-password *)
Definition auth_change_password (now : Time) (fresh : UUID) (salt authHeader : string)
    (body : string + ChangePasswordRequest) (db : DB) : Response * DB :=
  protected (λ r, r) now authHeader
    (λ keys db, account.ChangePassword now fresh salt body keys db) db.




End Routes.

End routes.

(** ** The rate limiter over a sequence of requests *)

(** The requests, each with the address of its client and the time it is
    served at, go through [RateLimit] in turn: whether each is let
    through, and the map at the end. *)
Fixpoint serve (requests : list (string * Time)) (clients : gmap string (list Time))
  : list bool * gmap string (list Time) :=
  match requests with
  | [] => ([], clients)
  | (clientIP, now) :: requests' =>
    let '(flow, clients) := middleware.RateLimit clientIP now ∅ clients in
    let '(flows, clients) := serve requests' clients in
    (match flow with gin.Next _ => true | gin.Abort _ => false end :: flows, clients)
  end.

(** ** Stand-ins for the libraries of the further handlers *)

Module doubles.

(** bcrypt refuses more than 72 bytes. *)
Definition hasher : hashing.Library :=
  {| hashing.GenerateFromPassword password cost salt :=
       if (72 <? String.length password)%nat then None
       else Some ("$2a$" +:+ password) |}.

(** Identifiers written as one decimal digit. *)
Definition digit : parsing.Library :=
  {| parsing.Parse s :=
       match s with
       | String c EmptyString =>
         if json.isDigit (byte_of c) then Some (Z.to_N (byte_of c - 48)) else None
       | _ => None
       end |}.

(** Tokens for alice at time 5 with readable segments: the claims segment
    is the type and the session token, and stands for the claims that
    [Login] and [RefreshToken] sign for them. *)
Definition login_tokens : jwt.Library :=
  {| jwt.DecodeHeader h :=
       if String.eqb h "HS256" then Some jwt.HS256
       else if String.eqb h "RS256" then Some jwt.RS256
       else None;
     jwt.DecodeClaims c :=
       match strings.CutPrefix c "access/", strings.CutPrefix c "refresh/" with
       | Some sessionToken, _ =>
         Some (handlers.accessClaims standin.cfg 5 standin.alice_id sessionToken)
       | None, Some sessionToken =>
         Some (handlers.refreshClaims standin.cfg 5 standin.alice_id sessionToken)
       | None, None => None
       end;
     jwt.Verify m input sig key := String.eqb sig key;
     jwt.SignedString m claims key :=
       match claims !! "type", claims !! "session_token" with
       | Some (jwt.CString t), Some (jwt.CString sessionToken) =>
         Some ("HS256." +:+ t +:+ "/" +:+ sessionToken +:+ "." +:+ key)
       | _, _ => None
       end |}.

End doubles.

(** * The vocabulary of the properties *)

(** ** Accounts and sessions *)

(** The account a login names: the live row of least key whose username
    or email is the name. *)
Definition account (name : string) (db : DB) : option User.t :=
  gorm.least User.ID
    (filter (λ u, gorm.live u && handlers.loginQuery name u) (users db)).

(** The [required] tags of the request let it through. *)
Definition bound (req : LoginRequest) : Prop :=
  LoginRequest_Username req ≠ "" ∧ LoginRequest_Password req ≠ "".

(** The insert of a session with this key and token is not refused. *)
Definition unused (newID : UUID) (token : string) (db : DB) : Prop :=
  ∀ r, r ∈ sessions db → Session.ID r ≠ newID ∧ Session.Token r ≠ token.

(** The primary key of the sessions. *)
Definition unique_ids (db : DB) : Prop :=
  NoDup (Session.ID <$> sessions db).

(** The unique index on [token]. *)
Definition unique_tokens (db : DB) : Prop :=
  NoDup (Session.Token <$> sessions db).

(** No session has the empty token. [Login], the one place that inserts
    a session, gives it the rendering of an identifier. *)
Definition tokens_nonempty (db : DB) : Prop :=
  ∀ s, s ∈ sessions db → Session.Token s ≠ "".

(** What the schema and [Login] keep of the sessions. *)
Definition sessions_ok (db : DB) : Prop :=
  unique_ids db ∧ unique_tokens db ∧ tokens_nonempty db.

(** ** Tokens *)

Section Tokens.
Context {J : jwt.Library}.

(** The claims that the text [t] carries. *)
Definition carries (t : string) (claims : jwt.MapClaims) : Prop :=
  ∃ h c sig,
    jwt.splitToken t = Some (h, c, sig) ∧ jwt.DecodeClaims c = Some claims.

(** [t] is a token over [claims] that an HMAC method signed with
    [secret]. *)
Definition signed (secret t : string) (claims : jwt.MapClaims) : Prop :=
  ∃ h c sig m,
    jwt.splitToken t = Some (h, c, sig) ∧
    jwt.DecodeHeader h = Some m ∧ jwt.isHMAC m = true ∧
    jwt.DecodeClaims c = Some claims ∧
    jwt.Verify m (h +:+ "." +:+ c) sig secret = true.

End Tokens.

(** ** The databases the handlers lead to

    From a database without sessions, by the handlers modelled here. The
    handlers of the users and the connection may change the users and
    the answers to come at any time; [Logout] runs behind
    [AuthMiddleware]. *)

Inductive reachable {B : bcrypt.Library} {J : jwt.Library} (cfg : JWTConfig)
  : DB → Prop :=
| reachable_start us fs :
    reachable cfg {| users := us; sessions := []; faults := fs |}
| reachable_users db us fs :
    reachable cfg db →
    reachable cfg {| users := us; sessions := sessions db; faults := fs |}
| reachable_Login db now newToken newID clientIP userAgent body :
    reachable cfg db →
    reachable cfg
      (handlers.Login cfg now newToken newID clientIP userAgent body db).2
| reachable_RefreshToken db now body :
    reachable cfg db →
    reachable cfg (handlers.RefreshToken cfg now body db).2
| reachable_AuthMiddleware db now authHeader keys :
    reachable cfg db →
    reachable cfg (middleware.AuthMiddleware cfg now authHeader keys db).2
| reachable_Logout db now authHeader keys keys' db1 now' :
    reachable cfg db →
    middleware.AuthMiddleware cfg now authHeader keys db = (gin.Next keys', db1) →
    reachable cfg (handlers.Logout now' keys' db1).2.

(** ** Permissions *)

(** The permissions of an identity: those of all its roles. *)
Definition permissions_of (u : User.t) : list string :=
  concat (map (λ role, elems_of (Role.GetPermissions role)) (User.Roles u)).

(** ** Strings and their JSON text *)

(** The sequences of bytes that encode a rune. *)
Inductive encodes : string → Z → Prop :=
| encodes2 c0 c1 :
    194 ≤ byte_of c0 ≤ 223 → 128 ≤ byte_of c1 ≤ 191 →
    encodes (String c0 (String c1 ""))
      ((byte_of c0 - 192) * 64 + (byte_of c1 - 128))
| encodes3 c0 c1 c2 :
    224 ≤ byte_of c0 ≤ 239 → 128 ≤ byte_of c1 ≤ 191 → 128 ≤ byte_of c2 ≤ 191 →
    (byte_of c0 = 224 → 160 ≤ byte_of c1) →
    (byte_of c0 = 237 → byte_of c1 ≤ 159) →
    encodes (String c0 (String c1 (String c2 "")))
      ((byte_of c0 - 224) * 4096 + (byte_of c1 - 128) * 64 + (byte_of c2 - 128))
| encodes4 c0 c1 c2 c3 :
    240 ≤ byte_of c0 ≤ 244 → 128 ≤ byte_of c1 ≤ 191 →
    128 ≤ byte_of c2 ≤ 191 → 128 ≤ byte_of c3 ≤ 191 →
    (byte_of c0 = 240 → 144 ≤ byte_of c1) →
    (byte_of c0 = 244 → byte_of c1 ≤ 143) →
    encodes (String c0 (String c1 (String c2 (String c3 ""))))
      ((byte_of c0 - 240) * 262144 + (byte_of c1 - 128) * 4096 +
       (byte_of c2 - 128) * 64 + (byte_of c3 - 128)).

(** What [Marshal] followed by [Unmarshal] makes of a string: a byte
    that starts no rune becomes the encoding of U+FFFD, as the
    documentation of [Marshal] has it; all else is kept. [fuel] bounds the
    number of runes. *)
Fixpoint coerce (fuel : nat) (s : string) : string :=
  match fuel with
  | O => ""
  | S f =>
    match s with
    | EmptyString => ""
    | String c rest =>
      if byte_of c <? utf8.RuneSelf then String c (coerce f rest)
      else
        let '(r, size) := utf8.DecodeRuneInString s in
        if (r =? utf8.RuneError) && (size =? 1)%nat then
          utf8.EncodeRune utf8.RuneError +:+ coerce f rest
        else utf8.take size s +:+ coerce f (utf8.skip size s)
    end
  end.

(** The string that comes back for [s]. *)
Definition ToValidUTF8 (s : string) : string := coerce (String.length s) s.

(** The text written for one ASCII byte. *)
Definition asciiOut (c : ascii) : string :=
  if json.htmlSafe (byte_of c) then String c "" else json.escapeByte (byte_of c).

(** The values the scanner finds in the array that [Marshal] writes. *)
Definition written (l : list string) : list json.Value :=
  map (λ s, json.VString (json.appendBody (String.length s) s)) l.

(** ** More stand-ins *)

(** The stand-in database after the session of alice was logged out. *)
Definition db_logged_out : DB :=
  {| users := [standin.alice; standin.bob];
     sessions := [Session.with_IsActive false standin.session7];
     faults := [] |}.

(** Twenty-five users, the accounts 1 to 25. *)
Definition seeded : list User.t :=
  map (λ i, User.mk (N.of_nat i) 0 0 None "user" "user@gauth.local" "" "" "" ""
              true true None [])
    (seq 1 25).

(** ** The vocabulary of the further properties *)

(** The messages of [AuthMiddleware]. *)
Definition unauthorized_messages : list string :=
  ["Authorization header is required"; "Bearer token is required";
   "Invalid token"; "Invalid user ID in token";
   "Invalid session token in claims"; "Invalid session"; "Session expired"].

(** The session that a login at [now] inserts. *)
Definition login_session (cfg : JWTConfig) (now : Time) (newToken newID userID : UUID)
    (clientIP userAgent : string) : Session.t :=
  Session.mk newID now now userID (uuid.String newToken) (now + RefreshExp cfg)
    clientIP userAgent true User.zero.

(** The rows of [users] after [db.Save(&user)]. *)
Definition saved_users (now : Time) (u : User.t) (rows : list User.t) : list User.t :=
  map (λ r, if (User.ID r =? User.ID u)%N then User.with_UpdatedAt now u else r) rows.

(** The times of the requests of [clientIP] that were let through. *)
Fixpoint admitted (clientIP : string) (requests : list (string * Time))
    (flows : list bool) : list Time :=
  match requests, flows with
  | (ip, t) :: requests', flow :: flows' =>
    if flow && String.eqb ip clientIP then t :: admitted clientIP requests' flows'
    else admitted clientIP requests' flows'
  | _, _ => []
  end.

(** The times that fall in the minute that starts at [T]. *)
Definition within (T : Time) (times : list Time) : list Time :=
  filter (λ t, T ≤ t ≤ T + Minute) times.

(** A role with the flag [IsActive] set. *)
Definition with_role_IsActive (a : bool) (r : Role.t) : Role.t :=
  Role.mk (Role.ID r) (Role.CreatedAt r) (Role.UpdatedAt r) (Role.Name r)
    (Role.Description r) (Role.Permissions r) a.

(** A user with other roles. *)
Definition with_Roles (roles : list Role.t) (u : User.t) : User.t :=
  User.mk (User.ID u) (User.CreatedAt u) (User.UpdatedAt u) (User.DeletedAt u)
    (User.Username u) (User.Email u) (User.Password u) (User.FirstName u)
    (User.LastName u) (User.Avatar u) (User.IsActive u) (User.IsVerified u)
    (User.LastLoginAt u) roles.

(** A row of [users] marked deleted at [now]. *)
Definition deleted_at (now : Time) (r : User.t) : User.t :=
  User.mk (User.ID r) (User.CreatedAt r) (User.UpdatedAt r) (Some now)
    (User.Username r) (User.Email r) (User.Password r) (User.FirstName r)
    (User.LastName r) (User.Avatar r) (User.IsActive r) (User.IsVerified r)
    (User.LastLoginAt r) (User.Roles r).

(** No row of [users] that a query sees has the key [userID]. *)
Definition gone (userID : UUID) (db : DB) : Prop :=
  ∀ row, row ∈ users db → gorm.live row = true → User.ID row ≠ userID.

(** The rows of [users] after the soft delete of the key [userID]. *)
Definition deleted_users (now : Time) (userID : UUID) (rows : list User.t) : list User.t :=
  map (λ r, if gorm.live r && (User.ID r =? userID)%N then deleted_at now r else r) rows.

(** The [required] and [min=6] tags let the request through. *)
Definition acceptable (req : ChangePasswordRequest) : Prop :=
  CurrentPassword req ≠ "" ∧ NewPassword req ≠ "" ∧
  (6 ≤ validator.RuneCountInString (NewPassword req))%nat.

(** The primary key of the users. *)
Definition unique_user_ids (db : DB) : Prop :=
  NoDup (User.ID <$> users db).

(** The headers that [CORS] sets. *)
Definition cors_headers : list string :=
  ["Access-Control-Allow-Origin"; "Access-Control-Allow-Credentials";
   "Access-Control-Allow-Headers"; "Access-Control-Allow-Methods"].


(** * Properties *)

(** ** The database *)

Lemma statement_tables db :
  users (gorm.statement db).2 = users db ∧
  sessions (gorm.statement db).2 = sessions db.
Proof. unfold gorm.statement. destruct (faults db); done. Qed.

Lemma statement_answered n db :
  gorm.answered (S n) (faults db) = true →
  (gorm.statement db).1 = false ∧
  gorm.answered n (faults (gorm.statement db).2) = true.
Proof.
  unfold gorm.statement. destruct (faults db) as [|f fs] eqn:E; simpl.
  - rewrite E. by destruct n.
  - intros [Hf Hn]%andb_prop. by destruct f.
Qed.

Lemma least_None {A} (key : A → UUID) rows : gorm.least key rows = None ↔ rows = [].
Proof.
  destruct rows as [|x rows]; simpl; [done|].
  destruct (gorm.least key rows); [destruct (_ <=? _)%N|]; done.
Qed.

Lemma least_elem_of {A} (key : A → UUID) rows x :
  gorm.least key rows = Some x → x ∈ rows.
Proof.
  revert x. induction rows as [|y rows IH]; simpl; intros x; [done|].
  destruct (gorm.least key rows) as [z|].
  - destruct (_ <=? _)%N; intros [= <-]; [left | right; by apply IH].
  - intros [= <-]. left.
Qed.

Lemma answered_S n db :
  gorm.answered (S n) (faults db) = true ↔
  (gorm.statement db).1 = false ∧
  gorm.answered n (faults (gorm.statement db).2) = true.
Proof.
  split; [apply statement_answered|].
  unfold gorm.statement. destruct (faults db) as [|f fs]; simpl; [done|].
  intros [-> ->]. done.
Qed.

Lemma answered_2 db :
  gorm.answered 2 (faults db) = true ↔
  (gorm.statement db).1 = false ∧ (gorm.statement (gorm.statement db).2).1 = false.
Proof.
  rewrite answered_S, answered_S. simpl. tauto.
Qed.

Lemma First_user_unfold q db :
  gorm.First_user q db =
    (if (gorm.statement db).1 then Error ErrOther
     else match gorm.least User.ID (filter (λ u, gorm.live u && q u) (users db)) with
          | Some u => Ok u
          | None => Error ErrRecordNotFound
          end,
     (gorm.statement db).2).
Proof.
  unfold gorm.First_user. pose proof (statement_tables db) as [Hu _].
  destruct (gorm.statement db) as [[] db1]; simpl in *; [done|].
  rewrite Hu. by destruct (gorm.least _ _).
Qed.

Lemma First_session_unfold q db :
  gorm.First_session q db =
    (if (gorm.statement db).1 then Error ErrOther
     else match gorm.least Session.ID (filter q (sessions db)) with
          | Some s => Ok (gorm.preload_User db s)
          | None => Error ErrRecordNotFound
          end,
     (gorm.statement db).2).
Proof.
  unfold gorm.First_session. pose proof (statement_tables db) as [Hu Hs].
  destruct (gorm.statement db) as [[] db1]; simpl in *; [done|].
  rewrite Hs. unfold gorm.preload_User. rewrite Hu.
  by destruct (gorm.least Session.ID _).
Qed.

Lemma unused_existsb newID token rows :
  existsb (λ r, (Session.ID r =? newID)%N || String.eqb (Session.Token r) token) rows = false ↔
  ∀ r, r ∈ rows → Session.ID r ≠ newID ∧ Session.Token r ≠ token.
Proof.
  induction rows as [|x rows IH]; simpl.
  - split; [|done]. intros _ r Hr. by apply elem_of_nil in Hr.
  - rewrite orb_false_iff, IH, orb_false_iff, N.eqb_neq, String.eqb_neq.
    split.
    + intros [Hx Hrows] r [->|Hr]%elem_of_cons; auto.
    + intros Hall. split; [apply Hall; left|]. intros r Hr. apply Hall. by right.
Qed.

Lemma unused_statement newID token db :
  unused newID token (gorm.statement db).2 ↔ unused newID token db.
Proof.
  unfold unused. by destruct (statement_tables db) as [_ ->].
Qed.

Lemma Create_session_unfold newID now s db :
  Session.ID s = uuid.Nil →
  (gorm.Create_session newID now s db).1 = Ok (Session.with_times now now (Session.with_ID newID s)) ∧
  (gorm.statement db).1 = false ∧ unused newID (Session.Token s) db
  ∨ (∃ e, (gorm.Create_session newID now s db).1 = Error e) ∧
    ¬ ((gorm.statement db).1 = false ∧ unused newID (Session.Token s) db).
Proof.
  intros Hid. unfold gorm.Create_session, Session.BeforeCreate, unused.
  rewrite Hid. simpl.
  pose proof (statement_tables db) as [_ Hs].
  destruct (gorm.statement db) as [fault db1]. simpl in *.
  destruct fault; [right; split; [eauto | by intros [? _]]|]. rewrite Hs.
  destruct (existsb _ (sessions db)) eqn:Ex; simpl.
  - right. split; [eauto|]. intros [_ Hu]. apply unused_existsb in Hu. congruence.
  - left. pose proof (proj1 (unused_existsb newID (Session.Token s) (sessions db)) Ex).
    done.
Qed.

(** ** Login *)

Section LoginProperties.
Context {B : bcrypt.Library} {J : jwt.Library}.
Variable cfg : JWTConfig.

Lemma ShouldBindJSON_bound req :
  bound req → binding.ShouldBindJSON_LoginRequest (inr req) = inr req.
Proof.
  intros [Hu%String.eqb_neq Hp%String.eqb_neq].
  unfold binding.ShouldBindJSON_LoginRequest. by rewrite Hu, Hp.
Qed.

Lemma ShouldBindJSON_unbound req :
  ¬ bound req → ∃ err, binding.ShouldBindJSON_LoginRequest (inr req) = inl err.
Proof.
  unfold bound, binding.ShouldBindJSON_LoginRequest. intros Hn.
  destruct (String.eqb_spec (LoginRequest_Username req) "");
    destruct (String.eqb_spec (LoginRequest_Password req) ""); simpl; eauto.
  by destruct Hn.
Qed.

Lemma Login_found now newToken newID clientIP userAgent req db user :
  bound req →
  (gorm.statement db).1 = false →
  account (LoginRequest_Username req) db = Some user →
  let response :=
    (handlers.Login cfg now newToken newID clientIP userAgent (inr req) db).1 in
  (User.IsActive user = false →
     response = JSON StatusUnauthorized (H_error "Account is disabled")) ∧
  (User.IsActive user = true →
     bcrypt.CompareHashAndPassword (User.Password user) (LoginRequest_Password req) = false →
     response = JSON StatusUnauthorized (H_error "Invalid credentials")).
Proof.
  intros Hb Hf Hacc. unfold account in Hacc. simpl.
  unfold handlers.Login. rewrite (ShouldBindJSON_bound _ Hb), First_user_unfold.
  rewrite Hf, Hacc. split.
  - by intros ->.
  - by intros -> ->.
Qed.

(** C1, as the code has it: a login that names an account fails with
    status 401 both when that account is inactive and when the account is
    active and the password does not match its hash; the message is
    "Account is disabled" in the first case, whatever the password, and
    "Invalid credentials" in the second. *)
Theorem Login_disabled_or_wrong_password
    now newToken newID clientIP userAgent req db user :
  bound req →
  gorm.answered 1 (faults db) = true →
  account (LoginRequest_Username req) db = Some user →
  let response :=
    (handlers.Login cfg now newToken newID clientIP userAgent (inr req) db).1 in
  (User.IsActive user = false →
     response = JSON StatusUnauthorized (H_error "Account is disabled")) ∧
  (User.IsActive user = true →
     bcrypt.CompareHashAndPassword (User.Password user) (LoginRequest_Password req) = false →
     response = JSON StatusUnauthorized (H_error "Invalid credentials")).
Proof.
  intros Hb [Hf _]%answered_S Hacc. by apply Login_found.
Qed.

(** C2, as the code has it. Login answers 200 with the user and the two
    tokens exactly when the request passes the binding, the account it
    names is active, the password matches the stored hash, the database
    answers the two statements and accepts the new session, and both
    tokens are signed. A name that matches no account and a wrong password
    for an active account are answered alike: 401, "Invalid
    credentials". *)
Theorem Login_succeeds_iff now newToken newID clientIP userAgent req db :
  let name := LoginRequest_Username req in
  let response :=
    (handlers.Login cfg now newToken newID clientIP userAgent (inr req) db).1 in
  ((∃ r, response = JSON StatusOK (JSON_LoginResponse r)) ↔
   bound req ∧ gorm.answered 2 (faults db) = true ∧
   ∃ user, account name db = Some user ∧
     User.IsActive user = true ∧
     bcrypt.CompareHashAndPassword (User.Password user) (LoginRequest_Password req) = true ∧
     unused newID (uuid.String newToken) db ∧
     is_Some (handlers.generateAccessToken cfg now (User.ID user) (uuid.String newToken)) ∧
     is_Some (handlers.generateRefreshToken cfg now (User.ID user) (uuid.String newToken))) ∧
  (bound req → gorm.answered 1 (faults db) = true →
   account name db = None →
   response = JSON StatusUnauthorized (H_error "Invalid credentials")) ∧
  (bound req → gorm.answered 1 (faults db) = true →
   ∀ user, account name db = Some user → User.IsActive user = true →
     bcrypt.CompareHashAndPassword (User.Password user) (LoginRequest_Password req) = false →
     response = JSON StatusUnauthorized (H_error "Invalid credentials")).
Proof.
  cbv zeta. split; [|split].
  - unfold handlers.Login.
    destruct (decide (bound req)) as [Hb|Hb]; cycle 1.
    { destruct (ShouldBindJSON_unbound _ Hb) as [err ->]. simpl.
      split; [by intros [r [=]] | by intros [? _]]. }
    rewrite (ShouldBindJSON_bound _ Hb), First_user_unfold, answered_2.
    setoid_rewrite <- (unused_statement newID (uuid.String newToken) db).
    destruct (gorm.statement db) as [fault db1]. simpl.
    destruct fault; simpl.
    { split; [by intros [r [=]] | by intros (_ & [[=] _] & _)]. }
    fold (account (LoginRequest_Username req) db).
    destruct (account (LoginRequest_Username req) db) as [user|]; simpl; cycle 1.
    { split; [by intros [r [=]] | by intros (_ & _ & u & [=] & _)]. }
    destruct (User.IsActive user) eqn:Hact; simpl; cycle 1.
    { split; [by intros [r [=]] |]. intros (_ & _ & u & [= <-] & Ha & _). congruence. }
    destruct (bcrypt.CompareHashAndPassword _ _) eqn:Hpw; simpl; cycle 1.
    { split; [by intros [r [=]] |]. intros (_ & _ & u & [= <-] & _ & Hp & _). congruence. }
    set (s := Session.mk _ _ _ _ _ _ _ _ _ _).
    destruct (Create_session_unfold newID now s db1 eq_refl)
      as [(Hc & Hst & Hun) | ([e Hc] & Hn)];
      destruct (gorm.Create_session newID now s db1) as [created db2];
      simpl in Hc; subst created; simpl.
    2:{ split; [by intros [r [=]] |].
        intros (_ & [_ Hst] & u & _ & _ & _ & Hun & _). by destruct Hn. }
    destruct (handlers.generateAccessToken _ _ _ _) as [at_|] eqn:Hat; simpl; cycle 1.
    { split; [by intros [r [=]] |].
      intros (_ & _ & u & [= <-] & _ & _ & _ & [? Hs] & _). congruence. }
    destruct (handlers.generateRefreshToken _ _ _ _) as [rt|] eqn:Hrt; simpl; cycle 1.
    { split; [by intros [r [=]] |].
      intros (_ & _ & u & [= <-] & _ & _ & _ & _ & [? Hs]). congruence. }
    destruct (gorm.Save_user _ _ _) as [saved db3]. simpl.
    split; [|eauto]. intros _. split; [done|]. split; [done|].
    exists user. rewrite Hat, Hrt. eauto 10.
  - intros Hb [Hf _]%answered_S Hacc. unfold account in Hacc.
    unfold handlers.Login. rewrite (ShouldBindJSON_bound _ Hb), First_user_unfold.
    by rewrite Hf, Hacc.
  - intros Hb [Hf _]%answered_S user Hacc Hact Hpw.
    by apply (Login_found now newToken newID clientIP userAgent req db user Hb Hf Hacc).
Qed.

End LoginProperties.

(** Login on the stand-ins: a wrong password for an active account, and a
    login to the disabled account. *)
Lemma Login_disabled_or_wrong_password_witness :
  (handlers.Login (B := standin.plain) (J := standin.tokens) standin.cfg
     5 8%N 80%N "10.0.0.2" "curl"
     (inr {| LoginRequest_Username := "bob"; LoginRequest_Password := "builder" |})
     standin.db0).1
  = JSON StatusUnauthorized (H_error "Account is disabled") ∧
  (handlers.Login (B := standin.plain) (J := standin.tokens) standin.cfg
     5 8%N 80%N "10.0.0.2" "curl"
     (inr {| LoginRequest_Username := "alice"; LoginRequest_Password := "x" |})
     standin.db0).1
  = JSON StatusUnauthorized (H_error "Invalid credentials").
Proof.
  split.
  - apply (Login_disabled_or_wrong_password (B := standin.plain) (J := standin.tokens)
             standin.cfg 5 8%N 80%N "10.0.0.2" "curl"
             {| LoginRequest_Username := "bob"; LoginRequest_Password := "builder" |}
             standin.db0 standin.bob);
      [split; discriminate | reflexivity | reflexivity | reflexivity].
  - apply (Login_disabled_or_wrong_password (B := standin.plain) (J := standin.tokens)
             standin.cfg 5 8%N 80%N "10.0.0.2" "curl"
             {| LoginRequest_Username := "alice"; LoginRequest_Password := "x" |}
             standin.db0 standin.alice);
      [split; discriminate | reflexivity | reflexivity | reflexivity | reflexivity].
Defined.

(** C1 as stated fails: the disabled account is answered with another
    message than a wrong password, even with the right password. *)
Lemma Login_disabled_account_is_told_apart :
  let wrong :=
    (handlers.Login (B := standin.plain) (J := standin.tokens) standin.cfg
       5 8%N 80%N "10.0.0.2" "curl"
       (inr {| LoginRequest_Username := "alice"; LoginRequest_Password := "x" |})
       standin.db0).1 in
  let disabled :=
    (handlers.Login (B := standin.plain) (J := standin.tokens) standin.cfg
       5 8%N 80%N "10.0.0.2" "curl"
       (inr {| LoginRequest_Username := "bob"; LoginRequest_Password := "builder" |})
       standin.db0).1 in
  Payload wrong = H_error "Invalid credentials" ∧
  Payload disabled = H_error "Account is disabled" ∧
  Payload wrong ≠ Payload disabled.
Proof. vm_compute. repeat split; discriminate. Qed.

(** A login on the stand-ins that succeeds, one with an unknown name and
    one with a wrong password. *)
Lemma Login_succeeds_iff_witness :
  (∃ r,
    (handlers.Login (B := standin.plain) (J := standin.tokens) standin.cfg
       5 8%N 80%N "10.0.0.2" "curl"
       (inr {| LoginRequest_Username := "alice"; LoginRequest_Password := "wonderland" |})
       standin.db0).1 = JSON StatusOK (JSON_LoginResponse r)) ∧
  (handlers.Login (B := standin.plain) (J := standin.tokens) standin.cfg
     5 8%N 80%N "10.0.0.2" "curl"
     (inr {| LoginRequest_Username := "carol"; LoginRequest_Password := "x" |})
     standin.db0).1
  = JSON StatusUnauthorized (H_error "Invalid credentials") ∧
  (handlers.Login (B := standin.plain) (J := standin.tokens) standin.cfg
     5 8%N 80%N "10.0.0.2" "curl"
     (inr {| LoginRequest_Username := "alice"; LoginRequest_Password := "x" |})
     standin.db0).1
  = JSON StatusUnauthorized (H_error "Invalid credentials").
Proof.
  split; [|split].
  - apply (proj1 (Login_succeeds_iff (B := standin.plain) (J := standin.tokens)
                    standin.cfg 5 8%N 80%N "10.0.0.2" "curl"
                    {| LoginRequest_Username := "alice";
                       LoginRequest_Password := "wonderland" |} standin.db0)).
    split; [split; discriminate|]. split; [reflexivity|].
    exists standin.alice.
    split; [reflexivity|]. split; [reflexivity|]. split; [reflexivity|].
    split; [|split; vm_compute; eauto].
    intros r ->%list_elem_of_singleton. split; vm_compute; discriminate.
  - apply (proj1 (proj2 (Login_succeeds_iff (B := standin.plain) (J := standin.tokens)
                    standin.cfg 5 8%N 80%N "10.0.0.2" "curl"
                    {| LoginRequest_Username := "carol";
                       LoginRequest_Password := "x" |} standin.db0)));
      [split; discriminate | reflexivity | reflexivity].
  - apply (proj2 (proj2 (Login_succeeds_iff (B := standin.plain) (J := standin.tokens)
                    standin.cfg 5 8%N 80%N "10.0.0.2" "curl"
                    {| LoginRequest_Username := "alice";
                       LoginRequest_Password := "x" |} standin.db0))
             ltac:(split; discriminate) eq_refl standin.alice);
      reflexivity.
Defined.

(** C2 as stated fails: the body for a name that matches no account is
    not the body for the existing account of bob with a wrong password. *)
Lemma Login_unknown_name_and_wrong_password_differ :
  let unknown :=
    (handlers.Login (B := standin.plain) (J := standin.tokens) standin.cfg
       5 8%N 80%N "10.0.0.2" "curl"
       (inr {| LoginRequest_Username := "carol"; LoginRequest_Password := "x" |})
       standin.db0).1 in
  let wrong :=
    (handlers.Login (B := standin.plain) (J := standin.tokens) standin.cfg
       5 8%N 80%N "10.0.0.2" "curl"
       (inr {| LoginRequest_Username := "bob"; LoginRequest_Password := "x" |})
       standin.db0).1 in
  account "carol" standin.db0 = None ∧
  account "bob" standin.db0 = Some standin.bob ∧
  bcrypt.CompareHashAndPassword (Library := standin.plain)
    (User.Password standin.bob) "x" = false ∧
  Payload unknown = H_error "Invalid credentials" ∧
  Payload wrong = H_error "Account is disabled" ∧
  Payload unknown ≠ Payload wrong.
Proof. vm_compute. repeat split; discriminate. Qed.

(** ** Strings *)

Lemma append_length (a b : string) :
  String.length (a +:+ b) = (String.length a + String.length b)%nat.
Proof. induction a as [|c a IH]; simpl; [done|]. by rewrite IH. Qed.

Lemma hex_length digits v : String.length (uuid.hex digits v) = digits.
Proof.
  revert v. induction digits as [|d IH]; intros v; simpl; [done|].
  rewrite append_length, IH. simpl. lia.
Qed.

(** The rendering of an identifier has 36 characters. *)
Lemma uuid_String_length u : String.length (uuid.String u) = 36%nat.
Proof.
  unfold uuid.String. repeat rewrite append_length. repeat rewrite hex_length.
  reflexivity.
Qed.

Lemma uuid_String_nonempty u : uuid.String u ≠ "".
Proof.
  intros Heq. pose proof (uuid_String_length u) as Hl. rewrite Heq in Hl. done.
Qed.

Lemma CutPrefix_append prefix s : strings.CutPrefix (prefix +:+ s) prefix = Some s.
Proof.
  induction prefix as [|c prefix IH]; simpl; [by destruct s|].
  by rewrite Ascii.eqb_refl.
Qed.

Lemma TrimPrefix_Bearer t : strings.TrimPrefix ("Bearer " +:+ t) "Bearer " = t.
Proof. unfold strings.TrimPrefix. by rewrite CutPrefix_append. Qed.

Lemma Bearer_neq t : String.eqb t ("Bearer " +:+ t) = false.
Proof.
  apply String.eqb_neq. intros Heq.
  apply (f_equal String.length) in Heq. rewrite append_length in Heq.
  simpl in Heq. lia.
Qed.

(** ** Sessions and tokens *)

Section SessionProperties.
Context {J : jwt.Library}.
Variable cfg : JWTConfig.

Lemma Parse_keyfuncs t now :
  jwt.Parse t (handlers.refreshKeyfunc cfg) now =
  jwt.Parse t (middleware.authKeyfunc cfg) now.
Proof.
  unfold jwt.Parse, handlers.refreshKeyfunc, middleware.authKeyfunc.
  destruct (jwt.splitToken t) as [[[h c] sig]|]; [|done].
  destruct (jwt.DecodeHeader h) as [m|]; [|done].
  destruct (jwt.DecodeClaims c) as [claims|]; [|done]. simpl.
  by destruct (jwt.isHMAC m).
Qed.

Lemma Parse_Some t now token :
  jwt.Parse t (middleware.authKeyfunc cfg) now = Some token →
  jwt.Valid token = true ∧ signed (Secret cfg) t (jwt.Claims token) ∧
  jwt.Validate (jwt.Claims token) now = true.
Proof.
  unfold jwt.Parse, middleware.authKeyfunc, signed.
  destruct (jwt.splitToken t) as [[[h c] sig]|]; [|done].
  destruct (jwt.DecodeHeader h) as [m|] eqn:Hh; [|done].
  destruct (jwt.DecodeClaims c) as [claims|] eqn:Hc; [|done]. simpl.
  destruct (jwt.isHMAC m) eqn:Hm; [|done]. simpl.
  destruct (jwt.Verify _ _ _ _) eqn:Hv; [|done]. simpl.
  destruct (jwt.Validate _ _) eqn:Hval; [|done]. simpl.
  intros [= <-]. simpl. split; [done|]. split; [|done].
  exists h, c, sig, m. done.
Qed.

Lemma signed_carries secret t claims claims' :
  signed secret t claims → carries t claims' → claims' = claims.
Proof.
  intros (h & c & sig & m & Hs & _ & _ & Hc & _) (h' & c' & sig' & Hs' & Hc').
  congruence.
Qed.

Lemma least_filter_Some {A} (key : A → UUID) (q : A → bool) rows x :
  gorm.least key (filter q rows) = Some x → x ∈ rows ∧ q x = true.
Proof.
  intros Hx%least_elem_of. apply list_elem_of_filter in Hx as [Hq Hx].
  split; [done|]. by apply Is_true_true.
Qed.

(** Every way [AuthMiddleware] has of stopping the chain is a 401. *)
Lemma AuthMiddleware_Abort now authHeader keys db r :
  (middleware.AuthMiddleware cfg now authHeader keys db).1 = gin.Abort r →
  ∃ msg, r = JSON StatusUnauthorized (H_error msg).
Proof.
  unfold middleware.AuthMiddleware, middleware.unauthorized.
  repeat (match goal with
          | |- context [if ?b then _ else _] => destruct b
          | |- context [match jwt.Parse ?a ?b ?c with _ => _ end] =>
              destruct (jwt.Parse a b c)
          | |- context [let '(_, _) := jwt.claimString ?a ?b in _] =>
              destruct (jwt.claimString a b) as [? []]
          | |- context [let '(_, _) := gorm.First_session ?a ?b in _] =>
              destruct (gorm.First_session a b) as [[] ?]
          end; simpl);
    intros [=]; subst; eauto.
Qed.

(** What a request that is let through has shown. *)
Lemma AuthMiddleware_Next now authHeader keys db keys' :
  (middleware.AuthMiddleware cfg now authHeader keys db).1 = gin.Next keys' →
  ∃ t claims userID sessionToken s,
    strings.CutPrefix authHeader "Bearer " = Some t ∧
    signed (Secret cfg) t claims ∧
    claims !! "user_id" = Some (jwt.CString userID) ∧
    claims !! "session_token" = Some (jwt.CString sessionToken) ∧
    s ∈ sessions db ∧
    handlers.sessionQuery sessionToken userID s = true ∧
    Session.IsExpired now s = false ∧
    keys' !! "session" = Some (gin.VSession (gorm.preload_User db s)).
Proof.
  unfold middleware.AuthMiddleware, middleware.unauthorized.
  destruct (String.eqb authHeader ""); [done|].
  unfold strings.TrimPrefix.
  destruct (strings.CutPrefix authHeader "Bearer ") as [t|] eqn:Hcut; simpl;
    [|by rewrite String.eqb_refl].
  destruct (String.eqb t authHeader); [done|].
  destruct (jwt.Parse t _ now) as [token|] eqn:HP; [|done].
  apply Parse_Some in HP as (-> & Hsig & _). simpl.
  unfold jwt.claimString.
  destruct (jwt.Claims token !! "user_id") as [[userID| | | | |]|] eqn:Hu; try done.
  destruct (jwt.Claims token !! "session_token") as [[st| | | | |]|] eqn:Hst; try done.
  simpl. rewrite First_session_unfold.
  destruct (gorm.statement db) as [[] db1]; simpl; [done|].
  destruct (gorm.least Session.ID _) as [s|] eqn:Hl; simpl; [|done].
  apply least_filter_Some in Hl as [Hin Hq].
  destruct (Session.IsExpired now (gorm.preload_User db s)) eqn:Hexp; [done|].
  simpl. intros [= <-].
  exists t, (jwt.Claims token), userID, st, s.
  split; [done|]. repeat (split; [done|]).
  by rewrite lookup_insert_eq.
Qed.

Lemma NoDup_fmap_eq {A K} (f : A → K) (l : list A) x y :
  NoDup (f <$> l) → x ∈ l → y ∈ l → f x = f y → x = y.
Proof.
  induction l as [|z l IH]; simpl; [by intros _ ?%elem_of_nil|].
  intros [Hz Hl]%NoDup_cons [->|Hx]%elem_of_cons [->|Hy]%elem_of_cons Heq; auto.
  - destruct Hz. rewrite Heq. by apply list_elem_of_fmap_2.
  - destruct Hz. rewrite <- Heq. by apply list_elem_of_fmap_2.
Qed.

Lemma sessionQuery_true sessionToken userID s :
  handlers.sessionQuery sessionToken userID s = true ↔
  Session.Token s = sessionToken ∧ uuid.String (Session.UserID s) = userID ∧
  Session.IsActive s = true.
Proof.
  unfold handlers.sessionQuery.
  rewrite !andb_true_iff, !String.eqb_eq. tauto.
Qed.

(** C3: in a database whose session tokens are unique, as the index on the
    column has them, a request whose bearer token carries the token of a
    session marked inactive is answered 401, at any time, so also before
    the token and the session expire. *)
Theorem inactive_session_is_unauthorized now t claims keys db s :
  unique_tokens db →
  s ∈ sessions db →
  Session.IsActive s = false →
  carries t claims →
  claims !! "session_token" = Some (jwt.CString (Session.Token s)) →
  ∃ msg,
    (middleware.AuthMiddleware cfg now ("Bearer " +:+ t) keys db).1 =
      gin.Abort (JSON StatusUnauthorized (H_error msg)).
Proof.
  intros Huniq Hs Hinactive Hcarries Hclaim.
  destruct (middleware.AuthMiddleware cfg now ("Bearer " +:+ t) keys db).1
    as [keys'|r] eqn:Hflow.
  - apply AuthMiddleware_Next in Hflow
      as (t' & claims' & userID & st & s' & Hcut & Hsig & _ & Hst & Hs' & Hq & _).
    rewrite CutPrefix_append in Hcut. injection Hcut as <-.
    rewrite (signed_carries _ _ _ _ Hsig Hcarries) in Hclaim.
    rewrite Hclaim in Hst. injection Hst as <-.
    apply sessionQuery_true in Hq as (Htok & _ & Hact).
    rewrite (NoDup_fmap_eq Session.Token _ s' s Huniq Hs' Hs Htok) in Hact.
    congruence.
  - destruct (AuthMiddleware_Abort _ _ _ _ _ Hflow) as [msg ->]. eauto.
Qed.

Lemma First_session_sessions q db :
  sessions (gorm.First_session q db).2 = sessions db.
Proof. rewrite First_session_unfold. apply statement_tables. Qed.

(** [AuthMiddleware] and [RefreshToken] write no session. *)
Lemma AuthMiddleware_sessions now authHeader keys db :
  sessions (middleware.AuthMiddleware cfg now authHeader keys db).2 = sessions db.
Proof.
  unfold middleware.AuthMiddleware.
  repeat (match goal with
          | |- context [if ?b then _ else _] => destruct b
          | |- context [match jwt.Parse ?a ?b ?c with _ => _ end] =>
              destruct (jwt.Parse a b c)
          | |- context [let '(_, _) := jwt.claimString ?a ?b in _] =>
              destruct (jwt.claimString a b) as [? []]
          end; simpl); try done.
  all: match goal with
       | |- context [gorm.First_session ?q ?d] =>
           pose proof (First_session_sessions q d) as Hs;
           destruct (gorm.First_session q d) as [[session|e] db1]
       end; simpl in *; try done.
  by destruct (Session.IsExpired _ _).
Qed.

Lemma RefreshToken_sessions now body db :
  sessions (handlers.RefreshToken cfg now body db).2 = sessions db.
Proof.
  unfold handlers.RefreshToken.
  destruct (binding.ShouldBindJSON_RefreshTokenRequest body) as [err|req]; [done|].
  destruct (jwt.Parse _ _ now) as [token|]; [|done].
  destruct (negb (jwt.Valid token)); [done|].
  match goal with
  | |- context [gorm.First_session ?q ?d] =>
      pose proof (First_session_sessions q d) as Hs;
      destruct (gorm.First_session q d) as [[session|e] db1]
  end; simpl in *; [|done].
  destruct (Session.IsExpired _ _); [done|].
  by destruct (handlers.generateAccessToken _ _ _ _).
Qed.

(** Saving, with the flag cleared, a session read from the table: the
    keys and the tokens of the rows stay as they are, and when the
    statement is answered the row of the session is inactive. *)
Lemma Save_session_inactive now s user db :
  unique_ids db → unique_tokens db → s ∈ sessions db →
  let saved :=
    gorm.Save_session now (Session.with_IsActive false (Session.with_User user s)) db in
  Session.ID <$> sessions saved.2 = Session.ID <$> sessions db ∧
  Session.Token <$> sessions saved.2 = Session.Token <$> sessions db ∧
  (saved.1 = Ok () →
   ∃ s', s' ∈ sessions saved.2 ∧ Session.Token s' = Session.Token s ∧
         Session.IsActive s' = false).
Proof.
  intros Hids Htoks Hs. cbv zeta. unfold gorm.Save_session.
  destruct (statement_tables db) as [_ Hs1].
  destruct (gorm.statement db) as [[] db1]; simpl in *; [by rewrite Hs1|].
  rewrite Hs1.
  assert (Hother : existsb (λ r, negb (Session.ID r =? Session.ID s)%N &&
                                 String.eqb (Session.Token r) (Session.Token s))
                     (sessions db) = false).
  { destruct (existsb _ (sessions db)) eqn:Hex; [|done].
    apply existsb_exists in Hex as (r & Hr%list_elem_of_In & [Hid Htok]%andb_prop).
    apply String.eqb_eq in Htok.
    rewrite (NoDup_fmap_eq Session.Token _ r s Htoks Hr Hs Htok), N.eqb_refl in Hid.
    done. }
  rewrite Hother.
  assert (Hex : existsb (λ r, (Session.ID r =? Session.ID s)%N) (sessions db) = true).
  { apply existsb_exists. exists s. rewrite <- list_elem_of_In, N.eqb_refl. done. }
  rewrite Hex. simpl.
  set (s0 := Session.with_times _ _ _).
  change (map ?f ?l) with (f <$> l). rewrite <- !list_fmap_compose.
  split; [|split].
  - apply list_fmap_ext. intros i r Hr. simpl.
    by destruct (N.eqb_spec (Session.ID r) (Session.ID s)) as [->|].
  - apply list_fmap_ext. intros i r Hr%list_elem_of_lookup_2. simpl.
    destruct (N.eqb_spec (Session.ID r) (Session.ID s)) as [Heq|]; [|done].
    by rewrite (NoDup_fmap_eq Session.ID _ r s Hids Hr Hs Heq).
  - intros _. exists s0. split; [|done].
    apply list_elem_of_fmap. exists s. by rewrite N.eqb_refl.
Qed.

Lemma sessions_ok_same db db' :
  Session.ID <$> sessions db' = Session.ID <$> sessions db →
  Session.Token <$> sessions db' = Session.Token <$> sessions db →
  sessions_ok db → sessions_ok db'.
Proof.
  unfold sessions_ok, unique_ids, unique_tokens, tokens_nonempty.
  intros -> Htok (Hids & Htoks & Hne). rewrite Htok.
  split; [done|]. split; [done|]. intros s Hs Hempty.
  assert (Hin : "" ∈ Session.Token <$> sessions db).
  { rewrite <- Htok, <- Hempty. by apply list_elem_of_fmap_2. }
  apply list_elem_of_fmap in Hin as (r & Hr & Hin). by apply (Hne r).
Qed.

(** [Logout] behind [AuthMiddleware] keeps the sessions in order. *)
Lemma Logout_keeps_sessions now now' authHeader keys db keys' db1 :
  sessions_ok db →
  middleware.AuthMiddleware cfg now authHeader keys db = (gin.Next keys', db1) →
  sessions_ok (handlers.Logout now' keys' db1).2.
Proof.
  intros Hok Hauth.
  pose proof (AuthMiddleware_sessions now authHeader keys db) as Hdb1.
  rewrite Hauth in Hdb1. simpl in Hdb1.
  assert (Hok1 : sessions_ok db1).
  { apply (sessions_ok_same db); by rewrite ?Hdb1. }
  apply (f_equal fst) in Hauth. simpl in Hauth.
  apply AuthMiddleware_Next in Hauth
    as (t & claims & userID & st & s & _ & _ & _ & _ & Hs & _ & _ & Hkey).
  unfold handlers.Logout. rewrite Hkey. unfold gorm.preload_User.
  rewrite <- Hdb1 in Hs.
  destruct (Save_session_inactive now' s
              (default User.zero
                 (gorm.least User.ID
                    (filter (λ u, gorm.live u && (User.ID u =? Session.UserID s)%N)
                       (users db)))) db1 (proj1 Hok1) (proj1 (proj2 Hok1)) Hs)
    as (Hi & Ht & _).
  destruct (gorm.Save_session _ _ db1) as [[[]|e] db2]; simpl in *;
    by apply (sessions_ok_same db1).
Qed.

(** [Logout] after [AuthMiddleware]: when it answers 200 the session of
    the request is stored inactive, under its token. *)
Lemma Logout_marks_inactive now now' authHeader keys db keys' db1 msg db2 :
  sessions_ok db →
  middleware.AuthMiddleware cfg now authHeader keys db = (gin.Next keys', db1) →
  handlers.Logout now' keys' db1 = (JSON StatusOK msg, db2) →
  ∃ s s', keys' !! "session" = Some (gin.VSession s) ∧
    s' ∈ sessions db2 ∧ Session.Token s' = Session.Token s ∧
    Session.IsActive s' = false.
Proof.
  intros Hok Hauth Hout.
  pose proof (AuthMiddleware_sessions now authHeader keys db) as Hdb1.
  rewrite Hauth in Hdb1. simpl in Hdb1.
  assert (Hok1 : sessions_ok db1).
  { apply (sessions_ok_same db); by rewrite ?Hdb1. }
  apply (f_equal fst) in Hauth. simpl in Hauth.
  apply AuthMiddleware_Next in Hauth
    as (t & claims & userID & st & s & _ & _ & _ & _ & Hs & _ & _ & Hkey).
  revert Hout. unfold handlers.Logout. rewrite Hkey. unfold gorm.preload_User.
  rewrite <- Hdb1 in Hs.
  destruct (Save_session_inactive now' s
              (default User.zero
                 (gorm.least User.ID
                    (filter (λ u, gorm.live u && (User.ID u =? Session.UserID s)%N)
                       (users db)))) db1 (proj1 Hok1) (proj1 (proj2 Hok1)) Hs)
    as (_ & _ & Hsaved).
  destruct (gorm.Save_session _ _ db1) as [[[]|e] db2']; simpl in *; [|done].
  intros [= _ <-]. destruct (Hsaved eq_refl) as (s' & Hs' & Htok & Hact).
  eexists _, s'. split; [reflexivity|]. done.
Qed.

(** C4: a refresh that succeeds, on a database where no session has the
    empty token, signs an access token whose claims carry the
    [session_token] of the token presented, which is the token of a
    stored session; it returns the refresh token it was given; and it
    leaves the sessions as they were. *)
Theorem RefreshToken_same_session now req db r db' :
  tokens_nonempty db →
  handlers.RefreshToken cfg now (inr req) db = (JSON StatusOK (JSON_LoginResponse r), db') →
  let presented := RefreshTokenRequest_RefreshToken req in
  (∃ claims st userID s,
     signed (Secret cfg) presented claims ∧
     claims !! "session_token" = Some (jwt.CString st) ∧
     s ∈ sessions db ∧ Session.Token s = st ∧
     jwt.SignedString jwt.HS256 (handlers.accessClaims cfg now userID st) (Secret cfg)
       = Some (AccessToken r) ∧
     handlers.accessClaims cfg now userID st !! "session_token" = Some (jwt.CString st)) ∧
  RefreshToken_ r = presented ∧
  sessions db' = sessions db.
Proof.
  intros Hne. unfold handlers.RefreshToken.
  destruct (binding.ShouldBindJSON_RefreshTokenRequest _) as [err|req'] eqn:Hbind; [done|].
  assert (req' = req) as ->.
  { revert Hbind. unfold binding.ShouldBindJSON_RefreshTokenRequest.
    destruct (String.eqb _ _); congruence. }
  rewrite Parse_keyfuncs.
  destruct (jwt.Parse _ _ now) as [token|] eqn:HP; [|done].
  apply Parse_Some in HP as (-> & Hsig & _). simpl.
  rewrite First_session_unfold.
  destruct (statement_tables db) as [_ Hs].
  destruct (gorm.statement db) as [[] db1]; simpl in *; [done|].
  destruct (gorm.least Session.ID _) as [s|] eqn:Hl; simpl; [|done].
  apply least_filter_Some in Hl as [Hin Hq].
  apply sessionQuery_true in Hq as (Htok & _ & _).
  destruct (Session.IsExpired now _); [done|].
  destruct (handlers.generateAccessToken _ _ _ _) as [accessToken|] eqn:Hgen; [|done].
  intros [= <- <-]. simpl. split; [|done].
  eexists (jwt.Claims token), (Session.Token s), _, s.
  split; [done|]. split.
  - revert Htok. unfold jwt.claimString.
    destruct (jwt.Claims token !! "session_token") as [[st| | | | |]|]; simpl;
      try (intros Hempty; by destruct (Hne s Hin)).
    by intros ->.
  - split; [done|]. split; [done|]. split; [exact Hgen|].
    unfold handlers.accessClaims. by simplify_map_eq.
Qed.

#[local] Arguments handlers.sessionQuery : simpl never.

Lemma no_session_for_empty_user sessionToken rows :
  filter (λ s, handlers.sessionQuery sessionToken "" s) rows = [].
Proof.
  induction rows as [|s rows IH]; [done|].
  rewrite filter_cons, IH, decide_False; [done|].
  intros Hq%Is_true_true%sessionQuery_true. destruct Hq as (_ & Hu & _).
  by apply uuid_String_nonempty in Hu.
Qed.

Lemma no_session_for_empty_token userID rows :
  (∀ s, s ∈ rows → Session.Token s ≠ "") →
  filter (λ s, handlers.sessionQuery "" userID s) rows = [].
Proof.
  induction rows as [|s rows IH]; intros Hne; [done|].
  rewrite filter_cons, IH, decide_False; [done| |].
  - intros Hq%Is_true_true%sessionQuery_true. destruct Hq as (Ht & _).
    apply (Hne s); [left | done].
  - intros r Hr. apply Hne. by right.
Qed.

(** C5: on a database where no session has the empty token, the token
    [t] gets past the checks of [RefreshToken] (it is answered neither 400
    nor 401) exactly when the request that bears it gets past
    [AuthMiddleware]; a token whose [user_id] or [session_token] claim is
    missing or no string gets past neither. *)
Theorem RefreshToken_validates_as_AuthMiddleware now t keys db :
  tokens_nonempty db →
  let refreshed :=
    (handlers.RefreshToken cfg now
       (inr {| RefreshTokenRequest_RefreshToken := t |}) db).1 in
  (Status refreshed ≠ StatusBadRequest ∧ Status refreshed ≠ StatusUnauthorized) ↔
  ∃ keys',
    (middleware.AuthMiddleware cfg now ("Bearer " +:+ t) keys db).1 = gin.Next keys'.
Proof.
  intros Hne. cbv zeta.
  unfold handlers.RefreshToken, middleware.AuthMiddleware, middleware.unauthorized.
  rewrite TrimPrefix_Bearer, Bearer_neq.
  change (String.eqb ("Bearer " +:+ t) "") with false. cbv iota.
  unfold binding.ShouldBindJSON_RefreshTokenRequest. simpl RefreshTokenRequest_RefreshToken.
  destruct (String.eqb_spec t "") as [->|Ht].
  { simpl. split; [by intros [? _] | intros [? ?]; discriminate]. }
  rewrite Parse_keyfuncs. cbn [RefreshTokenRequest_RefreshToken].
  destruct (jwt.Parse t (middleware.authKeyfunc cfg) now) as [token|] eqn:HP; simpl;
    [|split; [by intros [_ ?] | intros [? ?]; discriminate]].
  apply Parse_Some in HP as (-> & _ & _). simpl.
  unfold jwt.claimString.
  destruct (jwt.Claims token !! "user_id") as [[userID| | | | |]|]; simpl;
    try (rewrite First_session_unfold, no_session_for_empty_user;
         destruct ((gorm.statement db).1); simpl;
         (split; [by intros [_ ?] | intros [? ?]; discriminate])).
  destruct (jwt.Claims token !! "session_token") as [[st| | | | |]|]; simpl;
    try (rewrite First_session_unfold, (no_session_for_empty_token _ _ Hne);
         destruct ((gorm.statement db).1); simpl;
         (split; [by intros [_ ?] | intros [? ?]; discriminate])).
  rewrite First_session_unfold.
  destruct ((gorm.statement db).1); simpl;
    [split; [by intros [_ ?] | intros [? ?]; discriminate]|].
  destruct (gorm.least Session.ID _) as [s|]; simpl;
    [|split; [by intros [_ ?] | intros [? ?]; discriminate]].
  destruct (Session.IsExpired now _); simpl;
    [split; [by intros [_ ?] | intros [? ?]; discriminate]|].
  split; [eauto|]. intros _.
  destruct (handlers.generateAccessToken _ _ _ _); simpl; split; discriminate.
Qed.

(** The claims [RefreshToken] depends on: the two it reads and the two
    dates the validator of [jwt.Parse] reads. *)
Lemma RefreshToken_reads_four_claims now t1 t2 claims1 claims2 db :
  signed (Secret cfg) t1 claims1 →
  signed (Secret cfg) t2 claims2 →
  (∀ k, k ∈ ["user_id"; "session_token"; "exp"; "nbf"] → claims1 !! k = claims2 !! k) →
  Status (handlers.RefreshToken cfg now
            (inr {| RefreshTokenRequest_RefreshToken := t1 |}) db).1 =
  Status (handlers.RefreshToken cfg now
            (inr {| RefreshTokenRequest_RefreshToken := t2 |}) db).1.
Proof.
  intros (h1 & c1 & sig1 & m1 & Hs1 & Hh1 & Hm1 & Hc1 & Hv1)
         (h2 & c2 & sig2 & m2 & Hs2 & Hh2 & Hm2 & Hc2 & Hv2) Hk.
  unfold handlers.RefreshToken, binding.ShouldBindJSON_RefreshTokenRequest.
  cbn [RefreshTokenRequest_RefreshToken].
  destruct (String.eqb_spec t1 "") as [->|_]; [done|].
  destruct (String.eqb_spec t2 "") as [->|_]; [done|].
  cbn [RefreshTokenRequest_RefreshToken].
  unfold jwt.Parse, handlers.refreshKeyfunc.
  rewrite Hs1, Hs2, Hh1, Hh2, Hc1, Hc2. simpl.
  rewrite Hm1, Hm2. simpl. rewrite Hv1, Hv2. simpl.
  assert (Hval : jwt.Validate claims1 now = jwt.Validate claims2 now).
  { unfold jwt.Validate, jwt.parseNumericDate.
    by rewrite (Hk "exp"), (Hk "nbf") by set_solver. }
  rewrite Hval.
  destruct (jwt.Validate claims2 now); simpl; [|done].
  unfold jwt.claimString.
  rewrite (Hk "user_id"), (Hk "session_token") by set_solver.
  destruct (gorm.First_session _ db) as [[s|e] db1]; simpl; [|done].
  destruct (Session.IsExpired now s); simpl; [done|].
  by destruct (handlers.generateAccessToken _ _ _ _).
Qed.

(** C9: [RefreshToken] does not look at the [type] claim. Two tokens
    signed with the secret whose claims differ at most in [type] get the
    same status, so a token of type access is accepted for a refresh
    whenever the token of type refresh with the same other claims is. *)
Theorem RefreshToken_ignores_type now t1 t2 claims1 claims2 db :
  signed (Secret cfg) t1 claims1 →
  signed (Secret cfg) t2 claims2 →
  delete "type" claims1 = delete "type" claims2 →
  Status (handlers.RefreshToken cfg now
            (inr {| RefreshTokenRequest_RefreshToken := t1 |}) db).1 =
  Status (handlers.RefreshToken cfg now
            (inr {| RefreshTokenRequest_RefreshToken := t2 |}) db).1.
Proof.
  intros Hs1 Hs2 Heq. apply (RefreshToken_reads_four_claims now t1 t2 claims1 claims2);
    [done | done |].
  intros k Hk.
  assert (Hne : "type" ≠ k).
  { intros <-. repeat (apply elem_of_cons in Hk as [Hk|Hk]; [discriminate|]).
    by apply elem_of_nil in Hk. }
  rewrite <- (lookup_delete_ne claims1 "type" k), <- (lookup_delete_ne claims2 "type" k)
    by done.
  by rewrite Heq.
Qed.

(** [Login] keeps the sessions within the key, the index and the
    non-empty tokens: the one row it may add has the rendering of a fresh
    identifier for token, and the insert checks key and index. *)
Lemma Login_keeps_sessions {B : bcrypt.Library}
    now newToken newID clientIP userAgent body db :
  sessions_ok db →
  sessions_ok (handlers.Login cfg now newToken newID clientIP userAgent body db).2.
Proof.
  unfold sessions_ok. intros Hinv. unfold handlers.Login.
  destruct (binding.ShouldBindJSON_LoginRequest body) as [err|req]; [done|].
  rewrite First_user_unfold.
  assert (Hinv1 : unique_ids (gorm.statement db).2 ∧
                  unique_tokens (gorm.statement db).2 ∧
                  tokens_nonempty (gorm.statement db).2).
  { unfold unique_ids, unique_tokens, tokens_nonempty.
    by destruct (statement_tables db) as [_ ->]. }
  destruct (gorm.statement db) as [fault db1]. simpl in *. clear Hinv.
  destruct (if fault then _ else _) as [user|e]; [|done].
  destruct (User.IsActive user); [|done]. simpl.
  destruct (bcrypt.CompareHashAndPassword _ _); [|done]. simpl.
  set (s := Session.mk _ _ _ _ _ _ _ _ _ _).
  assert (Hinv2 : unique_ids (gorm.Create_session newID now s db1).2 ∧
                  unique_tokens (gorm.Create_session newID now s db1).2 ∧
                  tokens_nonempty (gorm.Create_session newID now s db1).2).
  { unfold gorm.Create_session.
    assert (Hinv2 : unique_ids (gorm.statement db1).2 ∧
                    unique_tokens (gorm.statement db1).2 ∧
                    tokens_nonempty (gorm.statement db1).2).
    { unfold unique_ids, unique_tokens, tokens_nonempty.
      by destruct (statement_tables db1) as [_ ->]. }
    destruct (gorm.statement db1) as [[] db2]; [done|]. simpl in *.
    destruct (existsb _ (sessions db2)) eqn:Hex0; [done|].
    pose proof (proj1 (unused_existsb newID (uuid.String newToken) (sessions db2)) Hex0)
      as Hex.
    destruct Hinv2 as (Hids & Htoks & Hne).
    unfold unique_ids, unique_tokens, tokens_nonempty, gorm.set_sessions. simpl.
    rewrite !fmap_app. simpl. split; [|split].
    - apply NoDup_app. split; [done|]. split; [|apply NoDup_singleton].
      intros i (r & -> & Hr)%list_elem_of_fmap Heq%list_elem_of_singleton.
      by destruct (Hex r Hr).
    - apply NoDup_app. split; [done|]. split; [|apply NoDup_singleton].
      intros i (r & -> & Hr)%list_elem_of_fmap Heq%list_elem_of_singleton.
      by destruct (Hex r Hr).
    - intros r [Hr | ->%list_elem_of_singleton]%elem_of_app; [by apply Hne|].
      apply uuid_String_nonempty. }
  destruct (gorm.Create_session newID now s db1) as [[session|e] db2]; [|done].
  simpl in Hinv2.
  destruct (handlers.generateAccessToken _ _ _ _); [|done].
  destruct (handlers.generateRefreshToken _ _ _ _); [|done].
  unfold gorm.Save_user.
  assert (Hinv3 : unique_ids (gorm.statement db2).2 ∧
                  unique_tokens (gorm.statement db2).2 ∧
                  tokens_nonempty (gorm.statement db2).2).
  { unfold unique_ids, unique_tokens, tokens_nonempty.
    by destruct (statement_tables db2) as [_ ->]. }
  by destruct (gorm.statement db2) as [[] db3].
Qed.

(** Every database the handlers lead to has its sessions in order: the
    hypotheses of C3, C4 and C5 hold there. *)
Lemma reachable_sessions_ok {B : bcrypt.Library} db :
  reachable cfg db → sessions_ok db.
Proof.
  induction 1 as [us fs | db us fs _ IH | db now newToken newID clientIP userAgent body _ IH
                 | db now body _ IH | db now authHeader keys _ IH
                 | db now authHeader keys keys' db1 now' _ IH Hauth].
  - repeat split; try apply NoDup_nil_2. by intros s ?%elem_of_nil.
  - exact IH.
  - by apply Login_keeps_sessions.
  - apply (sessions_ok_same db); by rewrite ?RefreshToken_sessions.
  - apply (sessions_ok_same db); by rewrite ?AuthMiddleware_sessions.
  - by apply (Logout_keeps_sessions now now' authHeader keys db keys' db1).
Qed.

End SessionProperties.

(** At time 5 neither the access token (exp 2000 s) nor the session
    (expiry 1000 s) of alice has expired; the session is inactive. *)
Lemma inactive_session_is_unauthorized_witness :
  ∃ msg,
    (middleware.AuthMiddleware (J := standin.tokens) standin.cfg 5
       ("Bearer " +:+ "HS256.alice-access.secret") ∅ db_logged_out).1 =
      gin.Abort (JSON StatusUnauthorized (H_error msg)).
Proof.
  apply (inactive_session_is_unauthorized (J := standin.tokens) standin.cfg 5
           "HS256.alice-access.secret" (standin.claims_of "access") ∅
           db_logged_out (Session.with_IsActive false standin.session7)).
  - apply NoDup_singleton.
  - left.
  - reflexivity.
  - exists "HS256", "alice-access", "secret". split; reflexivity.
  - reflexivity.
Defined.

Lemma standin_tokens_nonempty : tokens_nonempty standin.db0.
Proof. intros s ->%list_elem_of_singleton. discriminate. Qed.

Lemma RefreshToken_same_session_witness :
  let r := {| LoginResponse_User := User.with_Password "" standin.alice;
              AccessToken := "HS256.alice-access.secret";
              RefreshToken_ := "HS256.alice-refresh.secret";
              ExpiresIn := 86400 |} in
  (∃ claims st userID s,
     signed (J := standin.tokens) "secret" "HS256.alice-refresh.secret" claims ∧
     claims !! "session_token" = Some (jwt.CString st) ∧
     s ∈ sessions standin.db0 ∧ Session.Token s = st ∧
     jwt.SignedString (Library := standin.tokens) jwt.HS256
       (handlers.accessClaims standin.cfg 5 userID st) "secret"
       = Some (AccessToken r) ∧
     handlers.accessClaims standin.cfg 5 userID st !! "session_token"
       = Some (jwt.CString st)) ∧
  RefreshToken_ r = "HS256.alice-refresh.secret" ∧
  sessions standin.db0 = sessions standin.db0.
Proof.
  apply (RefreshToken_same_session (J := standin.tokens) standin.cfg 5
           {| RefreshTokenRequest_RefreshToken := "HS256.alice-refresh.secret" |}
           standin.db0 _ standin.db0 standin_tokens_nonempty).
  reflexivity.
Defined.

Lemma RefreshToken_validates_as_AuthMiddleware_witness :
  let refreshed :=
    (handlers.RefreshToken (J := standin.tokens) standin.cfg 5
       (inr {| RefreshTokenRequest_RefreshToken := "HS256.alice-nosession.secret" |})
       standin.db0).1 in
  (Status refreshed ≠ StatusBadRequest ∧ Status refreshed ≠ StatusUnauthorized) ↔
  ∃ keys',
    (middleware.AuthMiddleware (J := standin.tokens) standin.cfg 5
       ("Bearer " +:+ "HS256.alice-nosession.secret") ∅ standin.db0).1 = gin.Next keys'.
Proof.
  exact (RefreshToken_validates_as_AuthMiddleware (J := standin.tokens) standin.cfg 5
           "HS256.alice-nosession.secret" ∅ standin.db0 standin_tokens_nonempty).
Defined.

Lemma RefreshToken_ignores_type_witness :
  Status (handlers.RefreshToken (J := standin.tokens) standin.cfg 5
            (inr {| RefreshTokenRequest_RefreshToken := "HS256.alice-refresh.secret" |})
            standin.db0).1 =
  Status (handlers.RefreshToken (J := standin.tokens) standin.cfg 5
            (inr {| RefreshTokenRequest_RefreshToken := "HS256.alice-access.secret" |})
            standin.db0).1.
Proof.
  apply (RefreshToken_ignores_type (J := standin.tokens) standin.cfg 5
           "HS256.alice-refresh.secret" "HS256.alice-access.secret"
           (standin.claims_of "refresh") (standin.claims_of "access") standin.db0).
  - exists "HS256", "alice-refresh", "secret", jwt.HS256. repeat split; reflexivity.
  - exists "HS256", "alice-access", "secret", jwt.HS256. repeat split; reflexivity.
  - reflexivity.
Defined.

(** ** The authorization gate *)

Lemma hasRole_true roles requiredRole :
  middleware.hasRole roles requiredRole = true ↔
  ∃ role, role ∈ roles ∧ Role.Name role = requiredRole.
Proof.
  induction roles as [|role roles IH]; simpl.
  - split; [done|]. by intros (? & ?%elem_of_nil & _).
  - destruct (String.eqb_spec (Role.Name role) requiredRole) as [Heq|Hne].
    + split; [|done]. intros _. exists role. split; [left | done].
    + rewrite IH. split.
      * intros (r & Hr & Hn). exists r. split; [by right | done].
      * intros (r & [->|Hr]%elem_of_cons & Hn); [done|]. eauto.
Qed.

Lemma inPermissions_true permissions requiredPermission :
  middleware.inPermissions permissions requiredPermission = true ↔
  requiredPermission ∈ permissions.
Proof.
  induction permissions as [|p permissions IH]; simpl.
  - split; [done|]. by intros ?%elem_of_nil.
  - destruct (String.eqb_spec p requiredPermission) as [->|Hne].
    + split; [|done]. intros _. left.
    + rewrite IH. split; [by right|]. by intros [->|?]%elem_of_cons.
Qed.

Lemma hasPermission_true roles requiredPermission :
  middleware.hasPermission roles requiredPermission = true ↔
  requiredPermission ∈
    concat (map (λ role, elems_of (Role.GetPermissions role)) roles).
Proof.
  induction roles as [|role roles IH]; simpl.
  - split; [done|]. by intros ?%elem_of_nil.
  - rewrite elem_of_app, <- IH, <- inPermissions_true.
    destruct (middleware.inPermissions _ _); [tauto|].
    split; [tauto|]. by intros [?|?].
Qed.

(** C6: without an identity under "user" both checks answer 401. With an
    identity, the role check answers 403 exactly when no role of the
    identity has the required name, and the permission check answers 403
    exactly when the required permission is in the permissions of none of
    its roles; otherwise the request goes on. *)
Theorem authorization_gate requiredRole requiredPermission keys :
  (keys !! "user" = None →
   middleware.RequireRole requiredRole keys =
     gin.Abort (JSON StatusUnauthorized (H_error "User not found in context")) ∧
   middleware.RequirePermission requiredPermission keys =
     gin.Abort (JSON StatusUnauthorized (H_error "User not found in context"))) ∧
  (∀ u, keys !! "user" = Some (gin.VUser u) →
   ((∃ msg, middleware.RequireRole requiredRole keys =
              gin.Abort (JSON StatusForbidden (H_error msg))) ↔
    ¬ ∃ role, role ∈ User.Roles u ∧ Role.Name role = requiredRole) ∧
   ((∃ role, role ∈ User.Roles u ∧ Role.Name role = requiredRole) →
    middleware.RequireRole requiredRole keys = gin.Next keys) ∧
   ((∃ msg, middleware.RequirePermission requiredPermission keys =
              gin.Abort (JSON StatusForbidden (H_error msg))) ↔
    requiredPermission ∉ permissions_of u) ∧
   (requiredPermission ∈ permissions_of u →
    middleware.RequirePermission requiredPermission keys = gin.Next keys)).
Proof.
  unfold middleware.RequireRole, middleware.RequirePermission, permissions_of.
  split.
  - by intros ->.
  - intros u ->.
    rewrite <- hasRole_true, <- hasPermission_true.
    destruct (middleware.hasRole _ _), (middleware.hasPermission _ _); simpl;
      repeat split; try done; try (intros [msg [=]]); eauto;
      try (by intros []); try (intros _; eauto).
Qed.

Lemma authorization_gate_witness :
  let keys : gin.Keys := {["user" := gin.VUser standin.alice]} in
  middleware.RequireRole "admin" keys = gin.Next keys ∧
  middleware.RequirePermission "user:create" keys = gin.Next keys ∧
  (∃ msg, middleware.RequirePermission "user:delete" keys =
            gin.Abort (JSON StatusForbidden (H_error msg))) ∧
  middleware.RequireRole "admin" ∅ =
    gin.Abort (JSON StatusUnauthorized (H_error "User not found in context")).
Proof.
  pose proof (authorization_gate "admin" "user:create"
                {["user" := gin.VUser standin.alice]}) as [_ Hpresent].
  destruct (Hpresent standin.alice eq_refl) as (_ & Hrole & _ & Hperm).
  pose proof (authorization_gate "admin" "user:delete"
                {["user" := gin.VUser standin.alice]}) as [_ Habsent].
  destruct (Habsent standin.alice eq_refl) as (_ & _ & Hnot & _).
  pose proof (authorization_gate "admin" "user:create" ∅) as [Hnone _].
  cbv zeta. split; [|split; [|split]].
  - apply Hrole. exists standin.admin_role. split; [left | reflexivity].
  - apply Hperm. vm_compute. right. left.
  - apply Hnot. vm_compute.
    intros [[=] | [[=] | ?%elem_of_nil]%elem_of_cons]%elem_of_cons. done.
  - by destruct (Hnone eq_refl).
Defined.

(** ** The listing of users *)

Section UsersProperties.
Context {P : postgres.Library}.

(** C7: over 25 users (rows not deleted), with a database that answers the
    count and the query, [page=2&limit=10] returns exactly 10 users and a
    [total_pages] of 3. *)
Theorem GetUsers_second_page_of_25 (query : gmap string string) db :
  query !! "page" = Some "2" →
  query !! "limit" = Some "10" →
  query !! "search" = None →
  gorm.answered 2 (faults db) = true →
  length (filter (λ u, gorm.live u) (users db)) = 25%nat →
  ∃ users pagination,
    (user_handlers.GetUsers query db).1 = JSON StatusOK (JSON_users users pagination) ∧
    length users = 10%nat ∧
    total_pages pagination = 3 ∧
    current_page pagination = 2 ∧ total_items pagination = 25.
Proof.
  intros Hpage Hlimit Hsearch [Hf1 Hf2]%answered_2 Hlen.
  unfold user_handlers.GetUsers, user_handlers.DefaultQuery, user_handlers.Query.
  rewrite Hpage, Hlimit, Hsearch. simpl default.
  change (strconv.Atoi "2").1 with 2. change (strconv.Atoi "10").1 with 10.
  cbn [Z.ltb Z.compare Pos.compare Pos.compare_cont orb].
  change (wrap64 ((2 - 1) * 10)) with 10.
  destruct (statement_tables db) as [Hu _].
  destruct (gorm.statement db) as [fault db1]. simpl in Hf1, Hf2, Hu. subst fault.
  destruct (statement_tables db1) as [Hu1 _].
  destruct (gorm.statement db1) as [fault db2]. simpl in Hf2, Hu1. subst fault.
  rewrite Hu1, Hu.
  assert (Hsame : filter (λ u, user_handlers.searched "" u) (users db)
                  = filter (λ u, gorm.live u) (users db)).
  { apply list_filter_iff. intros u. unfold user_handlers.searched. simpl.
    by rewrite andb_true_r. }
  rewrite Hsame, Hlen.
  eexists _, _. split; [reflexivity|]. split; [|by vm_compute].
  rewrite length_map. unfold user_handlers.page_of.
  rewrite length_take, length_drop, Hlen. reflexivity.
Qed.

End UsersProperties.

Lemma GetUsers_second_page_of_25_witness :
  ∃ users pagination,
    (user_handlers.GetUsers (P := standin.any_text)
       (<["page" := "2"]> {["limit" := "10"]})
       {| users := seeded; sessions := []; faults := [] |}).1
      = JSON StatusOK (JSON_users users pagination) ∧
    length users = 10%nat ∧
    total_pages pagination = 3 ∧
    current_page pagination = 2 ∧ total_items pagination = 25.
Proof.
  apply (GetUsers_second_page_of_25 (P := standin.any_text)
           (<["page" := "2"]> {["limit" := "10"]})
           {| users := seeded; sessions := []; faults := [] |});
    reflexivity.
Defined.

(** ** The rate limiter *)

Lemma Sub_le_Minute now t : Sub now t ≤ Minute → now - t ≤ Minute.
Proof.
  unfold Sub, minDuration, maxDuration, Minute, Second.
  destruct (Z.ltb_spec (now - t) (- 2 ^ 63)); [lia|].
  destruct (Z.ltb_spec (2 ^ 63 - 1) (now - t)); lia.
Qed.

(** C10: the limiter answers 429 exactly when, after the entries older
    than a minute are dropped, the client has 100 entries or more; then
    the entries kept are stored. Otherwise the request goes on and the
    time of the request is added after the entries kept. In both cases
    every entry stored for the client is at most a minute old. *)
Theorem RateLimit_window clientIP now keys (clients : gmap string (list Time)) :
  let recent :=
    filter (λ reqTime, Sub now reqTime ≤ Minute) (default [] (clients !! clientIP)) in
  let flow := (middleware.RateLimit clientIP now keys clients).1 in
  let stored :=
    default [] ((middleware.RateLimit clientIP now keys clients).2 !! clientIP) in
  (flow = gin.Abort (JSON StatusTooManyRequests (H_error "Rate limit exceeded")) ↔
   (100 ≤ length recent)%nat) ∧
  ((100 ≤ length recent)%nat → stored = recent) ∧
  ((length recent < 100)%nat →
   flow = gin.Next keys ∧ stored = List.app recent [now]) ∧
  (∀ reqTime, reqTime ∈ stored → now - reqTime ≤ Minute).
Proof.
  cbv zeta. unfold middleware.RateLimit.
  set (recent := filter _ (default [] (clients !! clientIP))).
  assert (Hrecent : ∀ reqTime, reqTime ∈ recent → now - reqTime ≤ Minute).
  { intros reqTime [Hle _]%list_elem_of_filter. by apply Sub_le_Minute. }
  set (pruned := match clients !! clientIP with
                 | Some requests => <[clientIP := _]> clients
                 | None => clients
                 end).
  assert (Hpruned : default [] (pruned !! clientIP) = recent).
  { subst pruned recent. destruct (clients !! clientIP) as [requests|] eqn:Hc; simpl.
    - by rewrite lookup_insert_eq.
    - by rewrite Hc. }
  rewrite Hpruned.
  destruct (Nat.leb_spec 100 (length recent)) as [Hfull|Hroom]; simpl.
  - rewrite Hpruned. split; [done|]. split; [done|]. split; [lia|]. done.
  - rewrite lookup_insert_eq. simpl. split; [split; [done | lia]|].
    split; [lia|]. split; [done|].
    intros reqTime [Hin | ->%list_elem_of_singleton]%elem_of_app; [by apply Hrecent|].
    unfold Minute, Second. lia.
Qed.

Lemma RateLimit_window_witness :
  let clients : gmap string (list Time) :=
    {["10.0.0.1" := [0; 30 * Second; 100 * Second]]} in
  let now := 110 * Second in
  (middleware.RateLimit "10.0.0.1" now ∅ clients).1 = gin.Next ∅ ∧
  default [] ((middleware.RateLimit "10.0.0.1" now ∅ clients).2 !! "10.0.0.1")
    = [100 * Second; now].
Proof.
  cbv zeta.
  pose proof (RateLimit_window "10.0.0.1" (110 * Second) ∅
                {["10.0.0.1" := [0; 30 * Second; 100 * Second]]}) as H.
  cbv zeta in H. destruct H as (_ & _ & Hroom & _).
  apply Hroom. vm_compute. lia.
Defined.

(** ** The permissions of a role: writing and reading back *)

Section PermissionsProperties.

#[local] Arguments String.append : simpl nomatch.

Lemma byte_of_range c : 0 ≤ byte_of c < 256.
Proof.
  unfold byte_of. pose proof (N_ascii_bounded c) as Hb. lia.
Qed.

Lemma char_of_byte_of c : char_of (byte_of c) = c.
Proof.
  unfold char_of, byte_of. rewrite N2Z.id. apply ascii_N_embedding.
Qed.

Lemma char_of_eq b c : b = byte_of c → char_of b = c.
Proof. intros ->. apply char_of_byte_of. Qed.

Ltac bools :=
  repeat match goal with
  | H : (_ <? _) = true |- _ => apply Z.ltb_lt in H
  | H : (_ <? _) = false |- _ => apply Z.ltb_ge in H
  | H : (_ <=? _) = true |- _ => apply Z.leb_le in H
  | H : (_ <=? _) = false |- _ => apply Z.leb_gt in H
  | H : (_ =? _) = true |- _ => apply Z.eqb_eq in H
  | H : (_ =? _) = false |- _ => apply Z.eqb_neq in H
  | H : (_ || _) = false |- _ => apply orb_false_elim in H as [? ?]
  | H : (_ || _) = true |- _ => apply orb_prop in H as [?|?]
  | H : (_ && _) = true |- _ => apply andb_prop in H as [? ?]
  | H : (_ && _) = false |- _ => apply andb_false_iff in H as [?|?]
  | H : negb _ = false |- _ => apply negb_false_iff in H
  | H : negb _ = true |- _ => apply negb_true_iff in H
  | H : (_ <? _)%nat = true |- _ => apply Nat.ltb_lt in H
  | H : (_ <? _)%nat = false |- _ => apply Nat.ltb_ge in H
  | H : (_ <=? _)%nat = true |- _ => apply Nat.leb_le in H
  | H : (_ <=? _)%nat = false |- _ => apply Nat.leb_gt in H
  end.

Ltac branches :=
  repeat (match goal with
          | |- context [if ?b then _ else _] => destruct b eqn:?
          end; simpl);
  bools; try lia.

Lemma Decode_encodes bytes r X :
  encodes bytes r →
  utf8.DecodeRuneInString (bytes +:+ X) = (r, String.length bytes).
Proof.
  destruct 1; simpl; unfold utf8.first, utf8.cont, utf8.RuneSelf; branches;
    try reflexivity.
Qed.

Lemma Encode_encodes bytes r : encodes bytes r → utf8.EncodeRune r = bytes.
Proof.
  destruct 1; unfold utf8.EncodeRune, utf8.MaxRune; branches;
    repeat f_equal; apply char_of_eq; Z.div_mod_to_equations; lia.
Qed.

Lemma Decode_inv c0 rest r size :
  128 ≤ byte_of c0 →
  utf8.DecodeRuneInString (String c0 rest) = (r, size) →
  (r = utf8.RuneError ∧ size = 1%nat) ∨
  ∃ bytes rest',
    String c0 rest = bytes +:+ rest' ∧ String.length bytes = size ∧ encodes bytes r.
Proof.
  intros Hhi. unfold utf8.DecodeRuneInString, utf8.first, utf8.cont, utf8.RuneSelf.
  pose proof (byte_of_range c0).
  destruct rest as [|c1 [|c2 [|c3 r3]]]; simpl String.length;
    branches; intros [= <- <-]; try (left; done).
  all: right.
  all: try (exists (String c0 (String c1 "")); eexists; split; [reflexivity|];
            split; [reflexivity|]; apply encodes2; lia).
  all: try (exists (String c0 (String c1 (String c2 ""))); eexists; split; [reflexivity|];
            split; [reflexivity|]; apply encodes3; lia).
  all: try (exists (String c0 (String c1 (String c2 (String c3 "")))); eexists;
            split; [reflexivity|];
            split; [reflexivity|]; apply encodes4; lia).
Qed.

Lemma append_assoc (a b c : string) : (a +:+ b) +:+ c = a +:+ (b +:+ c).
Proof. induction a as [|x a IH]; simpl; [done|]. by f_equal. Qed.

Lemma take_append bytes rest : utf8.take (String.length bytes) (bytes +:+ rest) = bytes.
Proof. induction bytes as [|c bytes IH]; simpl; [by destruct rest|]. by f_equal. Qed.

Lemma skip_append bytes rest : utf8.skip (String.length bytes) (bytes +:+ rest) = rest.
Proof. induction bytes as [|c bytes IH]; simpl; [by destruct rest|]. done. Qed.

Lemma encodes_length bytes r : encodes bytes r → (2 ≤ String.length bytes)%nat.
Proof. destruct 1; simpl; lia. Qed.

Lemma asciiOut_length c : (1 ≤ String.length (asciiOut c))%nat.
Proof.
  unfold asciiOut, json.escapeByte.
  repeat match goal with
         | |- context [if ?b then _ else _] => destruct b
         end; simpl; lia.
Qed.

Lemma unquote_ascii c f X :
  (byte_of c <? 128) = true →
  json.unquote (S f) (asciiOut c +:+ X) = String c <$> json.unquote f X.
Proof.
  destruct c as [[] [] [] [] [] [] [] []]; intros Hc; try discriminate Hc; reflexivity.
Qed.

Lemma scanString_ascii c X :
  (byte_of c <? 128) = true →
  json.scanString (asciiOut c +:+ X) =
    match json.scanString X with
    | Some (raw, rest) => Some (asciiOut c +:+ raw, rest)
    | None => None
    end.
Proof.
  destruct c as [[] [] [] [] [] [] [] []]; intros Hc; try discriminate Hc; reflexivity.
Qed.

Lemma scanString_encodes bytes r X :
  encodes bytes r →
  json.scanString (bytes +:+ X) =
    match json.scanString X with
    | Some (raw, rest) => Some (bytes +:+ raw, rest)
    | None => None
    end.
Proof.
  destruct 1; simpl; branches; by destruct (json.scanString X) as [[? ?]|].
Qed.

#[local] Arguments utf8.DecodeRuneInString : simpl never.
#[local] Arguments utf8.EncodeRune : simpl never.

Lemma unquote_high c tail f :
  128 ≤ byte_of c →
  json.unquote (S f) (String c tail) =
    String.append (utf8.EncodeRune (utf8.DecodeRuneInString (String c tail)).1) <$>
    json.unquote f (utf8.skip (utf8.DecodeRuneInString (String c tail)).2 (String c tail)).
Proof.
  intros Hc. simpl. unfold utf8.RuneSelf.
  destruct (Z.eqb_spec (byte_of c) 92); [lia|].
  destruct (Z.eqb_spec (byte_of c) 34); [lia|].
  destruct (Z.ltb_spec (byte_of c) 32); [lia|].
  destruct (Z.ltb_spec (byte_of c) 128); [lia|]. simpl.
  by destruct (utf8.DecodeRuneInString (String c tail)).
Qed.

Lemma encodes_head bytes r :
  encodes bytes r → ∃ c tail, bytes = String c tail ∧ 128 ≤ byte_of c.
Proof. destruct 1; eexists _, _; (split; [reflexivity | lia]). Qed.

Lemma unquote_encodes bytes r f X :
  encodes bytes r →
  json.unquote (S f) (bytes +:+ X) = String.append bytes <$> json.unquote f X.
Proof.
  intros Henc. destruct (encodes_head bytes r Henc) as (c & tail & Hb & Hc).
  pose proof (Decode_encodes bytes r X Henc) as Hdec.
  assert (Heq : bytes +:+ X = String c (tail +:+ X)) by (by rewrite Hb).
  rewrite Heq, unquote_high by done. rewrite <- Heq, Hdec.
  cbn [fst snd]. by rewrite skip_append, (Encode_encodes _ _ Henc).
Qed.

(** The escape written for U+2028 and U+2029. *)
Lemma separators bytes r f X :
  encodes bytes r → r = 8232 ∨ r = 8233 →
  json.scanString (("\u202" +:+ String (json.hexchar (r mod 16)) "") +:+ X) =
    match json.scanString X with
    | Some (raw, rest) =>
      Some (("\u202" +:+ String (json.hexchar (r mod 16)) "") +:+ raw, rest)
    | None => None
    end ∧
  json.unquote (S f) (("\u202" +:+ String (json.hexchar (r mod 16)) "") +:+ X) =
    String.append bytes <$> json.unquote f X.
Proof.
  intros Henc Hr. rewrite <- (Encode_encodes bytes r Henc).
  destruct Hr as [-> | ->]; split; try reflexivity;
    by destruct (json.scanString X) as [[? ?]|].
Qed.

(** One turn of the loop of [appendString], and what [coerce] makes of
    the same bytes. *)
Lemma appendBody_step n c rest :
  let s := String c rest in
  (byte_of c < 128 ∧
   json.appendBody (S n) s = asciiOut c +:+ json.appendBody n rest ∧
   coerce (S n) s = String c (coerce n rest)) ∨
  (128 ≤ byte_of c ∧
   json.appendBody (S n) s = json.replacement +:+ json.appendBody n rest ∧
   coerce (S n) s = utf8.EncodeRune utf8.RuneError +:+ coerce n rest) ∨
  (∃ bytes rest' r,
     s = bytes +:+ rest' ∧ encodes bytes r ∧
     coerce (S n) s = bytes +:+ coerce n rest' ∧
     (json.appendBody (S n) s = bytes +:+ json.appendBody n rest' ∨
      (r = 8232 ∨ r = 8233) ∧
      json.appendBody (S n) s =
        ("\u202" +:+ String (json.hexchar (r mod 16)) "") +:+ json.appendBody n rest')).
Proof.
  cbv zeta. cbn [json.appendBody coerce]. unfold utf8.RuneSelf, asciiOut.
  destruct (Z.ltb_spec (byte_of c) 128) as [Hlo|Hhi]; [left; done|].
  right.
  destruct (utf8.DecodeRuneInString (String c rest)) as [r size] eqn:Hdec.
  destruct (Decode_inv c rest r size Hhi Hdec) as [[-> ->] | (bytes & rest' & Heq & Hlen & Henc)].
  - left. done.
  - right. exists bytes, rest', r.
    assert (Hne : (r =? utf8.RuneError) && (size =? 1)%nat = false).
    { apply andb_false_iff. right. apply Nat.eqb_neq.
      pose proof (encodes_length _ _ Henc). lia. }
    rewrite Hne, Heq, <- Hlen, take_append, skip_append.
    split; [done|]. split; [done|]. split; [done|].
    destruct ((r =? 8232) || (r =? 8233)) eqn:Hsep; [right | left; done].
    split; [|done]. bools; auto.
Qed.

Lemma json_replacement f X :
  json.scanString (json.replacement +:+ X) =
    match json.scanString X with
    | Some (raw, rest) => Some (json.replacement +:+ raw, rest)
    | None => None
    end ∧
  json.unquote (S f) (json.replacement +:+ X) =
    String.append (utf8.EncodeRune utf8.RuneError) <$> json.unquote f X.
Proof.
  split; [|reflexivity]. unfold json.replacement. simpl.
  by destruct (json.scanString X) as [[? ?]|].
Qed.

Lemma quote_closes tail : json.scanString (String json.quote tail) = Some ("", tail).
Proof. reflexivity. Qed.

(** The scanner reads the body that [appendString] writes up to the
    closing quote. *)
Lemma scanString_appendBody n s tail :
  (String.length s ≤ n)%nat →
  json.scanString (json.appendBody n s +:+ String json.quote tail) =
    Some (json.appendBody n s, tail).
Proof.
  revert s. induction n as [|n IH]; intros s Hlen.
  - destruct s; [reflexivity | simpl in Hlen; lia].
  - destruct s as [|c rest]; [reflexivity|].
    destruct (appendBody_step n c rest)
      as [(Hc & -> & _) | [(Hc & -> & _) | (bytes & rest' & r & Heq & Henc & _ & Hout)]].
    + rewrite append_assoc, scanString_ascii by (by apply Z.ltb_lt).
      rewrite IH; [done | simpl in Hlen; lia].
    + rewrite append_assoc. destruct (json_replacement 0 (json.appendBody n rest +:+ String json.quote tail)) as [-> _].
      rewrite IH; [done | simpl in Hlen; lia].
    + assert (Hrest : (String.length rest' ≤ n)%nat).
      { apply (f_equal String.length) in Heq. rewrite append_length in Heq.
        pose proof (encodes_length _ _ Henc). simpl in Heq, Hlen. lia. }
      destruct Hout as [-> | [Hsep ->]]; rewrite append_assoc.
      * rewrite (scanString_encodes _ _ _ Henc), IH; done.
      * destruct (separators bytes r 0 (json.appendBody n rest' +:+ String json.quote tail) Henc Hsep)
          as [-> _].
        rewrite IH; done.
Qed.

(** [unquote] reads back what [appendString] wrote. *)
Lemma unquote_appendBody n s m :
  (String.length s ≤ n)%nat →
  (String.length (json.appendBody n s) ≤ m)%nat →
  json.unquote m (json.appendBody n s) = Some (coerce n s).
Proof.
  revert s m. induction n as [|n IH]; intros s m Hlen Hm.
  - destruct s; [by destruct m | simpl in Hlen; lia].
  - destruct s as [|c rest]; [by destruct m|].
    destruct (appendBody_step n c rest)
      as [(Hc & Hb & ->) | [(Hc & Hb & ->) | (bytes & rest' & r & Heq & Henc & -> & Hout)]].
    + rewrite Hb in Hm |- *. rewrite append_length in Hm.
      pose proof (asciiOut_length c).
      destruct m as [|m]; [lia|].
      rewrite unquote_ascii by (by apply Z.ltb_lt).
      rewrite IH; [done | simpl in Hlen; lia | lia].
    + rewrite Hb in Hm |- *. rewrite append_length in Hm.
      destruct m as [|m]; [simpl in Hm; lia|].
      destruct (json_replacement m (json.appendBody n rest)) as [_ ->].
      rewrite IH; [done | simpl in Hlen; lia | simpl in Hm; lia].
    + assert (Hrest : (String.length rest' ≤ n)%nat).
      { apply (f_equal String.length) in Heq. rewrite append_length in Heq.
        pose proof (encodes_length _ _ Henc). simpl in Heq, Hlen. lia. }
      pose proof (encodes_length _ _ Henc).
      destruct Hout as [Hb | [Hsep Hb]]; rewrite Hb in Hm |- *;
        rewrite append_length in Hm; (destruct m as [|m]; [simpl in Hm; lia|]).
      * rewrite (unquote_encodes _ _ _ _ Henc), IH; [done | done | lia].
      * destruct (separators bytes r m (json.appendBody n rest') Henc Hsep) as [_ ->].
        rewrite IH; [done | done | simpl in Hm; lia].
Qed.

(** A string that is valid UTF-8 is read back as it was. *)
Lemma coerce_valid n s : utf8.valid_from n s = true → coerce n s = s.
Proof.
  revert s. induction n as [|n IH]; intros s.
  - by destruct s.
  - destruct s as [|c rest]; [done|].
    cbn [utf8.valid_from coerce]. unfold utf8.RuneSelf.
    destruct (Z.ltb_spec (byte_of c) 128) as [Hlo|Hhi].
    + assert (Hdec : utf8.DecodeRuneInString (String c rest) = (byte_of c, 1%nat)).
      { unfold utf8.DecodeRuneInString, utf8.RuneSelf.
        by destruct (Z.ltb_spec (byte_of c) 128); [|lia]. }
      rewrite Hdec.
      destruct (Z.eqb_spec (byte_of c) utf8.RuneError) as [Heq|_];
        [unfold utf8.RuneError in Heq; lia|].
      simpl. intros Hv. by rewrite IH.
    + destruct (utf8.DecodeRuneInString (String c rest)) as [r size] eqn:Hdec.
      destruct (Decode_inv c rest r size Hhi Hdec)
        as [[-> ->] | (bytes & rest' & Heq & Hlen & Henc)]; [done|].
      destruct (_ && _); [done|].
      rewrite Heq, <- Hlen, take_append, skip_append.
      intros Hv. by rewrite IH.
Qed.

Lemma scanValue_quote fuel X :
  json.scanValue (S fuel) (String json.quote X) =
    match json.scanString X with
    | Some (raw, rest) => Some (json.VString raw, rest)
    | None => None
    end.
Proof. reflexivity. Qed.

Lemma scanValue_appendString fuel s tail :
  json.scanValue (S fuel) (json.appendString s +:+ tail) =
    Some (json.VString (json.appendBody (String.length s) s), tail).
Proof.
  unfold json.appendString. rewrite append_assoc.
  change (json.scanValue (S fuel)
            (String json.quote
               (json.appendBody (String.length s) s +:+ String json.quote tail)) =
          Some (json.VString (json.appendBody (String.length s) s), tail)).
  by rewrite scanValue_quote, scanString_appendBody.
Qed.

Lemma scanElements_unfold fuel s :
  json.scanElements (S fuel) s =
    match json.scanValue fuel s with
    | None => None
    | Some (v, r) =>
      match json.skipSpace r with
      | String c r' =>
        if byte_of c =? 44 then
          match json.scanElements fuel r' with
          | Some (vs, rest) => Some (v :: vs, rest)
          | None => None
          end
        else if byte_of c =? 93 then Some ([v], r')
        else None
      | EmptyString => None
      end
    end.
Proof. reflexivity. Qed.

Lemma scanElements_written l fuel tail :
  l ≠ [] → (length l < fuel)%nat →
  json.scanElements fuel (json.join "," (map json.appendString l) +:+ "]" +:+ tail) =
    Some (written l, tail).
Proof.
  revert fuel. induction l as [|x l IH]; intros fuel Hne Hfuel; [done|].
  destruct fuel as [|[|fuel]]; [simpl in Hfuel; lia | simpl in Hfuel; lia |].
  rewrite scanElements_unfold.
  destruct l as [|y l].
  - simpl json.join. simpl map. rewrite scanValue_appendString. reflexivity.
  - change (json.join "," (map json.appendString (x :: y :: l)))
      with (json.appendString x +:+ "," +:+ json.join "," (map json.appendString (y :: l))).
    rewrite !append_assoc, scanValue_appendString.
    change (json.skipSpace ("," +:+ ?q)) with (String "," q).
    change (byte_of "," =? 44) with true. cbv iota.
    rewrite IH; [done | done | simpl in Hfuel |- *; lia].
Qed.

Lemma appendString_length s : (2 ≤ String.length (json.appendString s))%nat.
Proof. unfold json.appendString. simpl. rewrite append_length. simpl. lia. Qed.

Lemma join_length l :
  (length l ≤ String.length (json.join "," (map json.appendString l)))%nat.
Proof.
  induction l as [|x l IH]; [simpl; lia|].
  pose proof (appendString_length x).
  destruct l as [|y l]; [simpl; lia|].
  change (json.join "," (map json.appendString (x :: y :: l)))
    with (json.appendString x +:+ "," +:+ json.join "," (map json.appendString (y :: l))).
  rewrite !append_length. simpl length in *. lia.
Qed.

Lemma appendString_head s : ∃ X, json.appendString s = String json.quote X.
Proof. unfold json.appendString. simpl. eauto. Qed.

Lemma scan_Marshal l : json.scan (json.Marshal (Slice l)) = Some (json.VArray (written l)).
Proof.
  unfold json.scan, json.Marshal.
  destruct l as [|x l]; [reflexivity|].
  set (body := json.join "," (map json.appendString (x :: l))).
  assert (Hhead : ∃ X, body = String json.quote X).
  { subst body. destruct (appendString_head x) as [X HX].
    destruct l; cbn [json.join map]; rewrite HX; simpl; eauto. }
  destruct Hhead as [X HX].
  assert (Hfuel : (length (x :: l) < String.length ("[" +:+ body +:+ "]"))%nat).
  { pose proof (join_length (x :: l)). fold body in H.
    rewrite !append_length. simpl String.length. lia. }
  assert (Hscan : json.scanValue (S (String.length ("[" +:+ body +:+ "]")))
                    ("[" +:+ body +:+ "]") =
                  match json.scanElements (String.length ("[" +:+ body +:+ "]"))
                          (body +:+ "]") with
                  | Some (vs, rest) => Some (json.VArray vs, rest)
                  | None => None
                  end).
  { rewrite HX. reflexivity. }
  rewrite Hscan.
  pose proof (scanElements_written (x :: l) _ "" ltac:(done) Hfuel) as Hel.
  fold body in Hel. change ("]" +:+ "") with "]" in Hel.
  by rewrite Hel.
Qed.

Lemma elementString_written l : map json.elementString (written l) = map ToValidUTF8 l.
Proof.
  unfold written. rewrite map_map. apply map_ext. intros s. simpl.
  by rewrite unquote_appendBody.
Qed.

Lemma elementMismatch_written l : existsb json.elementMismatch (written l) = false.
Proof. induction l; simpl; done. Qed.

Lemma Unmarshal_Marshal l :
  json.Unmarshal (json.Marshal (Slice l)) = (Slice (map ToValidUTF8 l), false).
Proof.
  unfold json.Unmarshal. rewrite scan_Marshal.
  by rewrite elementString_written, elementMismatch_written.
Qed.

Lemma ToValidUTF8_valid s : utf8.ValidString s = true → ToValidUTF8 s = s.
Proof. apply coerce_valid. Qed.

Lemma map_ToValidUTF8_valid l :
  Forall (λ s, utf8.ValidString s = true) l → map ToValidUTF8 l = l.
Proof.
  induction 1 as [|s l Hs _ IH]; [done|].
  cbn [map]. by rewrite IH, ToValidUTF8_valid.
Qed.

(** C8, as the code has it. [SetPermissions] stores, for any slice and for
    nil, a text that is valid JSON and an array, so not null;
    [GetPermissions] then returns the strings that were set, each with the
    bytes that are no UTF-8 replaced by U+FFFD, so the very slice that was
    set (nil as the empty slice) when its strings are valid UTF-8; and
    the empty [Permissions] field reads as the empty slice, not nil. *)
Theorem permissions_round_trip (permissions : StringSlice) (r : Role.t) :
  let role := Role.SetPermissions permissions r in
  (∃ elems, json.scan (Role.Permissions role) = Some (json.VArray elems)) ∧
  Role.GetPermissions role = Slice (map ToValidUTF8 (elems_of permissions)) ∧
  (Forall (λ s, utf8.ValidString s = true) (elems_of permissions) →
   Role.GetPermissions role = Slice (elems_of permissions)) ∧
  (Role.Permissions r = "" → Role.GetPermissions r = Slice []).
Proof.
  cbv zeta.
  assert (Hstored : Role.Permissions (Role.SetPermissions permissions r) =
                    json.Marshal (Slice (elems_of permissions))).
  { by destruct permissions. }
  assert (Hget : Role.GetPermissions (Role.SetPermissions permissions r) =
                 Slice (map ToValidUTF8 (elems_of permissions))).
  { unfold Role.GetPermissions. rewrite Hstored, Unmarshal_Marshal.
    by destruct (elems_of permissions). }
  split; [|split; [|split]].
  - rewrite Hstored, scan_Marshal. eauto.
  - exact Hget.
  - intros Hvalid. rewrite Hget. f_equal. by apply map_ToValidUTF8_valid.
  - unfold Role.GetPermissions. by intros ->.
Qed.

End PermissionsProperties.

Lemma permissions_round_trip_witness :
  let role :=
    Role.SetPermissions (Slice ["user:read"; "a<b"]) standin.admin_role in
  Role.GetPermissions role = Slice ["user:read"; "a<b"] ∧
  Role.GetPermissions (Role.mk 2%N 0 0 "user" "Regular User" "" true) = Slice [].
Proof.
  pose proof (permissions_round_trip (Slice ["user:read"; "a<b"]) standin.admin_role)
    as (_ & _ & Hvalid & _).
  pose proof (permissions_round_trip NilSlice
                (Role.mk 2%N 0 0 "user" "Regular User" "" true))
    as (_ & _ & _ & Hempty).
  split.
  - apply Hvalid. repeat constructor.
  - by apply Hempty.
Defined.

(** C8 as stated fails: the byte 255 is no UTF-8 and is not read back. *)
Lemma permissions_not_utf8_are_changed :
  let set := Slice [String (char_of 255) ""] in
  Role.GetPermissions (Role.SetPermissions set standin.admin_role)
    = Slice [String (char_of 239) (String (char_of 191) (String (char_of 189) ""))] ∧
  Role.GetPermissions (Role.SetPermissions set standin.admin_role) ≠ set.
Proof. vm_compute. split; [reflexivity | discriminate]. Qed.

(** * Further properties *)

Lemma CutPrefix_Some s prefix t :
  strings.CutPrefix s prefix = Some t → s = prefix +:+ t.
Proof.
  revert s. induction prefix as [|a prefix IH]; intros s.
  - destruct s; simpl; by intros [= <-].
  - destruct s as [|c s]; simpl; [done|].
    destruct (Ascii.eqb a c) eqn:Hac; [|done].
    apply Ascii.eqb_eq in Hac as ->. intros ->%IH. done.
Qed.

Section AcceptProperties.
Context {J : jwt.Library}.
Variable cfg : JWTConfig.

Lemma Parse_signed t claims now :
  signed (Secret cfg) t claims →
  jwt.Validate claims now = true →
  ∃ token, jwt.Parse t (middleware.authKeyfunc cfg) now = Some token ∧
    jwt.Claims token = claims ∧ jwt.Valid token = true.
Proof.
  intros (h & c & sig & m & Hs & Hh & Hm & Hc & Hv) Hval.
  unfold jwt.Parse, middleware.authKeyfunc.
  rewrite Hs, Hh, Hc. simpl. rewrite Hm. simpl. rewrite Hv, Hval. simpl.
  eauto.
Qed.

(** The whole of [AuthMiddleware] on a header that has the prefix. *)
Lemma AuthMiddleware_Bearer now t keys db :
  middleware.AuthMiddleware cfg now ("Bearer " +:+ t) keys db =
  match jwt.Parse t (middleware.authKeyfunc cfg) now with
  | None => (middleware.unauthorized "Invalid token", db)
  | Some token =>
    if negb (jwt.Valid token) then (middleware.unauthorized "Invalid token", db)
    else
      match jwt.Claims token !! "user_id" with
      | Some (jwt.CString userID) =>
        match jwt.Claims token !! "session_token" with
        | Some (jwt.CString sessionToken) =>
          if (gorm.statement db).1 then
            (middleware.unauthorized "Invalid session", (gorm.statement db).2)
          else
            match gorm.least Session.ID
                    (filter (handlers.sessionQuery sessionToken userID) (sessions db)) with
            | None => (middleware.unauthorized "Invalid session", (gorm.statement db).2)
            | Some s =>
              if Session.IsExpired now s then
                (middleware.unauthorized "Session expired", (gorm.statement db).2)
              else
                (gin.Next
                   (<["session" := gin.VSession (gorm.preload_User db s)]>
                    (<["user_id" := gin.VUUID (User.ID (Session.User (gorm.preload_User db s)))]>
                     (<["user" := gin.VUser (Session.User (gorm.preload_User db s))]> keys))),
                 (gorm.statement db).2)
            end
        | _ => (middleware.unauthorized "Invalid session token in claims", db)
        end
      | _ => (middleware.unauthorized "Invalid user ID in token", db)
      end
  end.
Proof.
  unfold middleware.AuthMiddleware.
  change (String.eqb ("Bearer " +:+ t) "") with false. cbv iota.
  rewrite TrimPrefix_Bearer, Bearer_neq.
  destruct (jwt.Parse t _ now) as [token|]; [|done].
  destruct (negb (jwt.Valid token)); [done|].
  unfold jwt.claimString.
  destruct (jwt.Claims token !! "user_id") as [[userID| | | | |]|]; try done.
  destruct (jwt.Claims token !! "session_token") as [[st| | | | |]|]; try done.
  cbv beta iota. simpl negb. cbv iota.
  rewrite First_session_unfold.
  destruct (gorm.statement db) as [[] db1]; simpl; [done|].
  destruct (gorm.least Session.ID _) as [s|]; simpl; done.
Qed.

(** A header without the prefix. *)
Lemma AuthMiddleware_no_Bearer now authHeader keys db :
  strings.CutPrefix authHeader "Bearer " = None →
  middleware.AuthMiddleware cfg now authHeader keys db =
  (middleware.unauthorized
     (if String.eqb authHeader "" then "Authorization header is required"
      else "Bearer token is required"), db).
Proof.
  intros Hcut. unfold middleware.AuthMiddleware, strings.TrimPrefix.
  rewrite Hcut. simpl. rewrite String.eqb_refl.
  by destruct (String.eqb authHeader "").
Qed.

Lemma header_cases authHeader :
  strings.CutPrefix authHeader "Bearer " = None ∨
  ∃ t, authHeader = "Bearer " +:+ t.
Proof.
  destruct (strings.CutPrefix authHeader "Bearer ") as [t|] eqn:Hcut; [|by left].
  right. exists t. by apply CutPrefix_Some.
Qed.

Lemma least_unique {A} (key : A → UUID) (q : A → bool) rows x :
  x ∈ rows → q x = true →
  (∀ y, y ∈ rows → q y = true → y = x) →
  gorm.least key (filter q rows) = Some x.
Proof.
  intros Hx Hq Huniq.
  destruct (gorm.least key (filter q rows)) as [y|] eqn:Hl.
  - apply least_filter_Some in Hl as [Hy Hqy]. f_equal. by apply Huniq.
  - apply least_None in Hl.
    assert (x ∈ filter q rows) as Hin
      by (apply list_elem_of_filter; split; [by apply Is_true_true|done]).
    rewrite Hl in Hin. by apply elem_of_nil in Hin.
Qed.

Lemma IsExpired_false now s :
  Session.IsExpired now s = false ↔ now ≤ Session.ExpiresAt s.
Proof. unfold Session.IsExpired, After. rewrite Z.ltb_ge. done. Qed.



(** What [AuthMiddleware] leaves when it lets a request through. *)
Lemma AuthMiddleware_Next_inv now authHeader keys db keys' db1 :
  middleware.AuthMiddleware cfg now authHeader keys db = (gin.Next keys', db1) →
  ∃ s, s ∈ sessions db ∧ Session.IsActive s = true ∧ now ≤ Session.ExpiresAt s ∧
    db1 = (gorm.statement db).2 ∧
    keys' =
      <["session" := gin.VSession (gorm.preload_User db s)]>
        (<["user_id" := gin.VUUID (User.ID (Session.User (gorm.preload_User db s)))]>
           (<["user" := gin.VUser (Session.User (gorm.preload_User db s))]> keys)).
Proof.
  destruct (header_cases authHeader) as [Hcut|[t ->]].
  { by rewrite (AuthMiddleware_no_Bearer _ _ _ _ Hcut). }
  rewrite AuthMiddleware_Bearer. unfold middleware.unauthorized.
  destruct (jwt.Parse t _ now) as [token|]; [|done].
  destruct (negb (jwt.Valid token)); [done|].
  destruct (jwt.Claims token !! "user_id") as [[userID| | | | |]|]; try done.
  destruct (jwt.Claims token !! "session_token") as [[st| | | | |]|]; try done.
  destruct (gorm.statement db).1; [done|].
  destruct (gorm.least Session.ID _) as [s|] eqn:Hl; [|done].
  apply least_filter_Some in Hl as [Hin (_ & _ & Hact)%sessionQuery_true].
  destruct (Session.IsExpired now s) eqn:Hexp; [done|].
  apply IsExpired_false in Hexp. intros [= <- <-]. by exists s.
Qed.

(** The messages with which [AuthMiddleware] stops the chain. *)
Lemma AuthMiddleware_stops now authHeader keys db r :
  (middleware.AuthMiddleware cfg now authHeader keys db).1 = gin.Abort r →
  ∃ msg, msg ∈ unauthorized_messages ∧ r = JSON StatusUnauthorized (H_error msg).
Proof.
  unfold unauthorized_messages.
  destruct (header_cases authHeader) as [Hcut|[t ->]].
  { rewrite (AuthMiddleware_no_Bearer _ _ _ _ Hcut). simpl. intros [= <-].
    destruct (String.eqb authHeader ""); eexists; (split; [|done]); set_solver. }
  rewrite AuthMiddleware_Bearer. unfold middleware.unauthorized.
  repeat (match goal with
          | |- context [match ?x with _ => _ end] => destruct x eqn:?
          end; simpl);
    intros [= <-]; eexists; (split; [|done]); set_solver.
Qed.

(** X2: [AuthMiddleware] writes to neither table and issues at most one
    statement. It either adds the three keys [user], [user_id] and
    [session] to the context, the first two from the user of the session,
    or answers 401 with one of its seven messages. *)
Theorem AuthMiddleware_outcomes now authHeader keys db :
  let flow := (middleware.AuthMiddleware cfg now authHeader keys db).1 in
  let db' := (middleware.AuthMiddleware cfg now authHeader keys db).2 in
  users db' = users db ∧ sessions db' = sessions db ∧
  (db' = db ∨ db' = (gorm.statement db).2) ∧
  ((∃ msg, msg ∈ unauthorized_messages ∧
           flow = gin.Abort (JSON StatusUnauthorized (H_error msg))) ∨
   (∃ s, s ∈ sessions db ∧
      flow = gin.Next
        (<["session" := gin.VSession (gorm.preload_User db s)]>
         (<["user_id" := gin.VUUID (User.ID (Session.User (gorm.preload_User db s)))]>
          (<["user" := gin.VUser (Session.User (gorm.preload_User db s))]> keys))))).
Proof.
  cbv zeta. pose proof (statement_tables db) as [Hus Hss].
  unfold unauthorized_messages.
  destruct (header_cases authHeader) as [Hcut|[t ->]].
  { rewrite (AuthMiddleware_no_Bearer _ _ _ _ Hcut). simpl.
    repeat (split; [by auto|]). left.
    destruct (String.eqb authHeader ""); eexists; (split; [|done]); set_solver. }
  rewrite AuthMiddleware_Bearer. unfold middleware.unauthorized.
  repeat (match goal with
          | |- context [match ?x with _ => _ end] => destruct x eqn:?
          end; simpl);
    (repeat (split; [by auto|]));
    try (left; eexists; (split; [|done]); set_solver).
  right. eexists. split; [|done].
  match goal with H : gorm.least _ _ = Some _ |- _ =>
    apply least_filter_Some in H as [? _] end. done.
Qed.

(** X3: a token whose header names a method that is not an HMAC, [none]
    among them, is refused by both validations before its signature is
    looked at and before the database is asked. *)
Theorem non_HMAC_token_is_refused now t h c sig m keys db :
  jwt.splitToken t = Some (h, c, sig) →
  jwt.DecodeHeader h = Some m →
  jwt.isHMAC m = false →
  middleware.AuthMiddleware cfg now ("Bearer " +:+ t) keys db =
    (gin.Abort (JSON StatusUnauthorized (H_error "Invalid token")), db) ∧
  handlers.RefreshToken cfg now (inr {| RefreshTokenRequest_RefreshToken := t |}) db =
    (JSON StatusUnauthorized (H_error "Invalid refresh token"), db).
Proof.
  intros Hs Hh Hm.
  assert (jwt.Parse t (middleware.authKeyfunc cfg) now = None) as HP.
  { unfold jwt.Parse, middleware.authKeyfunc. rewrite Hs, Hh.
    destruct (jwt.DecodeClaims c); [|done]. simpl. by rewrite Hm. }
  split.
  - by rewrite AuthMiddleware_Bearer, HP.
  - unfold handlers.RefreshToken. simpl.
    destruct t as [|a t]; [done|]. simpl.
    cbn [RefreshTokenRequest_RefreshToken].
    by rewrite Parse_keyfuncs, HP.
Qed.

End AcceptProperties.


Lemma non_HMAC_token_is_refused_witness :
  middleware.AuthMiddleware (J := standin.tokens) standin.cfg 5
    ("Bearer " +:+ "RS256.alice-access.secret") ∅ standin.db0 =
    (gin.Abort (JSON StatusUnauthorized (H_error "Invalid token")), standin.db0) ∧
  handlers.RefreshToken (J := standin.tokens) standin.cfg 5
    (inr {| RefreshTokenRequest_RefreshToken := "RS256.alice-access.secret" |})
    standin.db0 =
    (JSON StatusUnauthorized (H_error "Invalid refresh token"), standin.db0).
Proof.
  apply (non_HMAC_token_is_refused (J := standin.tokens) standin.cfg 5
           "RS256.alice-access.secret" "RS256" "alice-access" "secret" jwt.RS256);
    reflexivity.
Defined.

Section LoginMore.
Context {B : bcrypt.Library} {J : jwt.Library}.
Variable cfg : JWTConfig.

(** What a login that is answered 200 has done. *)
Lemma Login_OK_inv now newToken newID clientIP userAgent body db r db' :
  handlers.Login cfg now newToken newID clientIP userAgent body db =
    (JSON StatusOK (JSON_LoginResponse r), db') →
  ∃ req user,
    body = inr req ∧ bound req ∧
    (gorm.statement db).1 = false ∧
    account (LoginRequest_Username req) db = Some user ∧
    User.IsActive user = true ∧
    bcrypt.CompareHashAndPassword (User.Password user) (LoginRequest_Password req) = true ∧
    unused newID (uuid.String newToken) db ∧
    handlers.generateAccessToken cfg now (User.ID user) (uuid.String newToken)
      = Some (AccessToken r) ∧
    handlers.generateRefreshToken cfg now (User.ID user) (uuid.String newToken)
      = Some (RefreshToken_ r) ∧
    LoginResponse_User r = User.with_Password "" (User.with_LastLoginAt (Some now) user) ∧
    ExpiresIn r = Seconds (Expiry cfg) ∧
    sessions db' =
      List.app (sessions db)
        [login_session cfg now newToken newID (User.ID user) clientIP userAgent] ∧
    (users db' = users db ∨
     users db' = saved_users now (User.with_LastLoginAt (Some now) user) (users db)).
Proof.
  unfold handlers.Login.
  destruct body as [err|req]; [done|].
  destruct (decide (bound req)) as [Hb|Hb].
  2:{ destruct (ShouldBindJSON_unbound req Hb) as [err ->]. done. }
  rewrite (ShouldBindJSON_bound req Hb), First_user_unfold.
  pose proof (statement_tables db) as [Hus Hss].
  destruct (gorm.statement db) as [fault db1] eqn:Hst. simpl in *.
  destruct fault; [done|].
  fold (account (LoginRequest_Username req) db).
  destruct (account (LoginRequest_Username req) db) as [user|] eqn:Hacc; [|done].
  destruct (User.IsActive user) eqn:Hact; [|done]. simpl.
  destruct (bcrypt.CompareHashAndPassword _ _) eqn:Hpw; [|done]. simpl.
  unfold gorm.Create_session. simpl.
  pose proof (statement_tables db1) as [Hus1 Hss1].
  destruct (gorm.statement db1) as [fault db2]. simpl in *.
  destruct fault; [done|].
  destruct (existsb _ (sessions db2)) eqn:Hex; [done|].
  rewrite Hss1, Hss in Hex.
  pose proof (proj1 (unused_existsb newID (uuid.String newToken) (sessions db)) Hex)
    as Hunused.
  simpl.
  destruct (handlers.generateAccessToken _ _ _ _) as [access|] eqn:Ha; [|done].
  destruct (handlers.generateRefreshToken _ _ _ _) as [refresh|] eqn:Hr; [|done].
  unfold gorm.Save_user.
  destruct (gorm.statement (gorm.set_sessions _ db2)) as [fault db3] eqn:Hst3.
  pose proof (statement_tables (gorm.set_sessions
    (List.app (sessions db2)
       [Session.with_times now now
          (Session.BeforeCreate newID
             (Session.mk uuid.Nil 0 0 (User.ID user) (uuid.String newToken)
                (now + RefreshExp cfg) clientIP userAgent true User.zero))]) db2))
    as [Hus3 Hss3].
  rewrite Hst3 in Hus3, Hss3. simpl in Hus3, Hss3.
  destruct fault; intros [= <- <-]; exists req, user; simpl;
    rewrite ?Hss3, ?Hus3, ?Hss1, ?Hus1, ?Hss, ?Hus; repeat (split; [done|]); auto.
Qed.

Lemma Login_refused_tables now newToken newID clientIP userAgent body db :
  let response := (handlers.Login cfg now newToken newID clientIP userAgent body db).1 in
  Status response = StatusBadRequest ∨ Status response = StatusUnauthorized →
  users (handlers.Login cfg now newToken newID clientIP userAgent body db).2 = users db ∧
  sessions (handlers.Login cfg now newToken newID clientIP userAgent body db).2
    = sessions db.
Proof.
  unfold handlers.Login.
  destruct (binding.ShouldBindJSON_LoginRequest body) as [err|req]; [done|].
  rewrite First_user_unfold.
  pose proof (statement_tables db) as [Hus Hss].
  destruct (gorm.statement db) as [fault db1]. simpl in *.
  destruct (if fault then _ else _) as [user|e]; [|done].
  destruct (User.IsActive user); [|done]. simpl.
  destruct (bcrypt.CompareHashAndPassword _ _); [|done]. simpl.
  destruct (gorm.Create_session _ _ _ _) as [[session|e] db2]; simpl;
    [|intros [[=]|[=]]].
  destruct (handlers.generateAccessToken _ _ _ _); simpl; [|intros [[=]|[=]]].
  destruct (handlers.generateRefreshToken _ _ _ _); simpl; [|intros [[=]|[=]]].
  destruct (gorm.Save_user _ _ _); simpl. intros [[=]|[=]].
Qed.

(** X4: a login that is answered 400 or 401 has written nothing. One that
    is answered 200 has added one row to the sessions, and no other: it
    has the token and the key that were drawn, the key of the account, the
    address and agent of the request, it is active and expires after the
    refresh period. Of the users only rows with the key of the account may
    differ, and the user in the answer has the time of this login and no
    password. *)
Theorem Login_writes now newToken newID clientIP userAgent body db :
  let response := (handlers.Login cfg now newToken newID clientIP userAgent body db).1 in
  let db' := (handlers.Login cfg now newToken newID clientIP userAgent body db).2 in
  (Status response = StatusBadRequest ∨ Status response = StatusUnauthorized →
   users db' = users db ∧ sessions db' = sessions db) ∧
  (∀ r, response = JSON StatusOK (JSON_LoginResponse r) →
   sessions db' =
     List.app (sessions db)
       [login_session cfg now newToken newID (User.ID (LoginResponse_User r))
          clientIP userAgent] ∧
   User.Password (LoginResponse_User r) = "" ∧
   User.LastLoginAt (LoginResponse_User r) = Some now ∧
   length (users db') = length (users db) ∧
   ∀ i u u', users db !! i = Some u → users db' !! i = Some u' →
     u' = u ∨ User.ID u = User.ID (LoginResponse_User r)).
Proof.
  cbv zeta. split; [apply Login_refused_tables|].
  intros r Hr.
  destruct (handlers.Login cfg now newToken newID clientIP userAgent body db)
    as [response db'] eqn:HL.
  simpl in Hr. subst response. cbn [fst snd].
  apply Login_OK_inv in HL
    as (req & user & _ & _ & _ & _ & _ & _ & _ & _ & _ & -> & _ & -> & Hus).
  simpl. repeat (split; [done|]).
  destruct Hus as [->| ->]; unfold saved_users.
  - split; [done|]. intros i u u' Hu Hu'. left. congruence.
  - split; [by rewrite length_map|]. intros i u u' Hu Hu'.
    rewrite list_lookup_fmap, Hu in Hu'. simpl in Hu'. injection Hu' as <-.
    destruct (N.eqb_spec (User.ID u) (User.ID user)); auto.
Qed.

End LoginMore.

Lemma preload_found db s :
  (∃ u, u ∈ users db ∧ gorm.live u = true ∧ User.ID u = Session.UserID s) →
  ∃ u, gorm.preload_User db s = Session.with_User u s ∧
       u ∈ users db ∧ gorm.live u = true ∧ User.ID u = Session.UserID s.
Proof.
  intros (u & Hu & Hlive & Hid). unfold gorm.preload_User.
  destruct (gorm.least User.ID _) as [x|] eqn:Hl.
  - apply least_filter_Some in Hl as [Hx [Hxl Hxid%N.eqb_eq]%andb_true_iff].
    exists x. done.
  - apply least_None in Hl.
    assert (u ∈ filter (λ u, gorm.live u && (User.ID u =? Session.UserID s)%N) (users db))
      as Hin.
    { apply list_elem_of_filter. split; [|done].
      apply Is_true_true. rewrite Hlive. simpl. by apply N.eqb_eq. }
    rewrite Hl in Hin. by apply elem_of_nil in Hin.
Qed.

Lemma preload_missing db s :
  (∀ u, u ∈ users db → gorm.live u = true → User.ID u ≠ Session.UserID s) →
  gorm.preload_User db s = Session.with_User User.zero s.
Proof.
  intros Hnone. unfold gorm.preload_User.
  destruct (gorm.least User.ID _) as [x|] eqn:Hl; [|done].
  apply least_filter_Some in Hl as [Hx [Hxl Hxid%N.eqb_eq]%andb_true_iff].
  by destruct (Hnone x Hx Hxl).
Qed.

Section Compositions.
Context {B : bcrypt.Library} {J : jwt.Library}.
Variable cfg : JWTConfig.

Lemma Validate_accessClaims now userID sessionToken now' :
  now' < Unix (now + Expiry cfg) * Second →
  jwt.Validate (handlers.accessClaims cfg now userID sessionToken) now' = true.
Proof.
  intros Hlt. unfold jwt.Validate, jwt.parseNumericDate, handlers.accessClaims.
  rewrite !lookup_insert_ne by done. rewrite lookup_insert_eq.
  rewrite !lookup_insert_ne by done. rewrite lookup_empty.
  destruct (Unix (now + Expiry cfg) =? 0); [done|].
  unfold Before. rewrite andb_true_r. by apply Z.ltb_lt.
Qed.

(** What lets a token through that carries the claims of an access
    token. *)
Lemma access_token_accepted now t userID s now' keys db :
  signed (Secret cfg) t (handlers.accessClaims cfg now userID (Session.Token s)) →
  now' < Unix (now + Expiry cfg) * Second →
  (gorm.statement db).1 = false →
  s ∈ sessions db →
  (∀ y, y ∈ sessions db → Session.Token y = Session.Token s → y = s) →
  Session.UserID s = userID → Session.IsActive s = true →
  now' ≤ Session.ExpiresAt s →
  (middleware.AuthMiddleware cfg now' ("Bearer " +:+ t) keys db).1 =
    gin.Next
      (<["session" := gin.VSession (gorm.preload_User db s)]>
       (<["user_id" := gin.VUUID (User.ID (Session.User (gorm.preload_User db s)))]>
        (<["user" := gin.VUser (Session.User (gorm.preload_User db s))]> keys))).
Proof.
  intros Hsig Hlt Hf Hin Huniq Huser Hact Hexp.
  rewrite AuthMiddleware_Bearer.
  destruct (Parse_signed cfg _ _ now' Hsig (Validate_accessClaims _ _ _ _ Hlt))
    as (token & -> & -> & ->). simpl negb. cbv iota.
  unfold handlers.accessClaims.
  rewrite lookup_insert_eq, lookup_insert_ne, lookup_insert_eq by done.
  rewrite Hf, (least_unique Session.ID _ _ s Hin).
  - apply IsExpired_false in Hexp. by rewrite Hexp.
  - apply sessionQuery_true. by rewrite Huser.
  - intros y Hy (Htok & _)%sessionQuery_true. by apply Huniq.
Qed.

(** X5: the access token of a login is let through by [AuthMiddleware]
    while it and the session last, on the database that the login left,
    when the database answers: the identity in the context is a user,
    not deleted, with the key of the account that logged in, and the
    session is the one the login made. The library is asked for one thing,
    that the token it gave for the claims is a token over them signed with
    the secret. *)
Theorem Login_then_AuthMiddleware
    now newToken newID clientIP userAgent body db r db' now' keys :
  handlers.Login cfg now newToken newID clientIP userAgent body db =
    (JSON StatusOK (JSON_LoginResponse r), db') →
  signed (Secret cfg) (AccessToken r)
    (handlers.accessClaims cfg now (User.ID (LoginResponse_User r)) (uuid.String newToken)) →
  (gorm.statement db').1 = false →
  now' < Unix (now + Expiry cfg) * Second →
  now' ≤ now + RefreshExp cfg →
  ∃ u,
    (middleware.AuthMiddleware cfg now' ("Bearer " +:+ AccessToken r) keys db').1 =
      gin.Next
        (<["session" :=
            gin.VSession
              (Session.with_User u
                 (login_session cfg now newToken newID (User.ID u) clientIP userAgent))]>
         (<["user_id" := gin.VUUID (User.ID u)]>
          (<["user" := gin.VUser u]> keys))) ∧
    u ∈ users db' ∧ gorm.live u = true ∧
    User.ID u = User.ID (LoginResponse_User r).
Proof.
  intros HL Hsig Hf Hlt Hexp.
  apply Login_OK_inv in HL
    as (req & user & _ & _ & _ & Hacc & _ & _ & Hunused & _ & _ & Hr & _ & Hss & Hus).
  rewrite Hr in *. simpl in Hsig. simpl.
  set (s := login_session cfg now newToken newID (User.ID user) clientIP userAgent).
  apply least_filter_Some in Hacc as [Huser [Hlive _]%andb_true_iff].
  destruct (preload_found db' s) as (u & Hpre & Hu & Hul & Huid).
  { destruct Hus as [->| ->].
    - by exists user.
    - exists (User.with_UpdatedAt now (User.with_LastLoginAt (Some now) user)).
      split; [|done]. unfold saved_users.
      apply list_elem_of_fmap. exists user. simpl. by rewrite N.eqb_refl. }
  exists u. simpl in Huid. split; [|done].
  rewrite (access_token_accepted now _ (User.ID user) s); try done.
  - rewrite Hpre. simpl. rewrite Huid. done.
  - rewrite Hss. apply elem_of_app. right. by apply list_elem_of_singleton.
  - rewrite Hss. intros y [Hy| ->%list_elem_of_singleton]%elem_of_app Htok; [|done].
    by destruct (Hunused y Hy).
Qed.

End Compositions.

Lemma Login_then_AuthMiddleware_witness :
  ∃ keys',
    (middleware.AuthMiddleware (J := doubles.login_tokens) standin.cfg 6
       ("Bearer " +:+ ("HS256.access/" +:+ uuid.String 8%N +:+ ".secret")) ∅
       (handlers.Login (B := standin.plain) (J := doubles.login_tokens) standin.cfg
          5 8%N 80%N "10.0.0.2" "curl"
          (inr {| LoginRequest_Username := "alice";
                  LoginRequest_Password := "wonderland" |})
          standin.db0).2).1 = gin.Next keys'.
Proof.
  edestruct (Login_then_AuthMiddleware (B := standin.plain) (J := doubles.login_tokens)
               standin.cfg 5 8%N 80%N "10.0.0.2" "curl"
               (inr {| LoginRequest_Username := "alice";
                       LoginRequest_Password := "wonderland" |})
               standin.db0
               {| LoginResponse_User :=
                    User.with_Password "" (User.with_LastLoginAt (Some 5) standin.alice);
                  AccessToken := "HS256.access/" +:+ uuid.String 8%N +:+ ".secret";
                  RefreshToken_ := "HS256.refresh/" +:+ uuid.String 8%N +:+ ".secret";
                  ExpiresIn := 86400 |}
               (handlers.Login (B := standin.plain) (J := doubles.login_tokens)
                  standin.cfg 5 8%N 80%N "10.0.0.2" "curl"
                  (inr {| LoginRequest_Username := "alice";
                          LoginRequest_Password := "wonderland" |})
                  standin.db0).2
               6 ∅) as (u & Hflow & _).
  - reflexivity.
  - exists "HS256", ("access/" +:+ uuid.String 8%N), "secret", jwt.HS256. repeat split; reflexivity.
  - reflexivity.
  - vm_compute. reflexivity.
  - vm_compute. discriminate.
  - eexists. exact Hflow.
Defined.

Lemma preload_users db db' s :
  users db' = users db → gorm.preload_User db' s = gorm.preload_User db s.
Proof. unfold gorm.preload_User. by intros ->. Qed.

Lemma standin_sessions_ok : sessions_ok standin.db0.
Proof.
  split; [apply NoDup_singleton|]. split; [apply NoDup_singleton|].
  apply standin_tokens_nonempty.
Qed.

Section RefreshMore.
Context {J : jwt.Library}.
Variable cfg : JWTConfig.

Lemma signed_inj secret t claims claims' :
  signed secret t claims → signed secret t claims' → claims' = claims.
Proof.
  intros (h & c & sig & m & Hs & _ & _ & Hc & _) (h' & c' & sig' & m' & Hs' & _ & _ & Hc' & _).
  congruence.
Qed.

(** What a refresh that is answered 200 has found. *)
Lemma RefreshToken_OK_inv now req db r db' :
  handlers.RefreshToken cfg now (inr req) db = (JSON StatusOK (JSON_LoginResponse r), db') →
  ∃ claims s,
    signed (Secret cfg) (RefreshTokenRequest_RefreshToken req) claims ∧
    jwt.Validate claims now = true ∧
    s ∈ sessions db ∧
    handlers.sessionQuery (jwt.claimString claims "session_token").1
      (jwt.claimString claims "user_id").1 s = true ∧
    (gorm.statement db).1 = false ∧ db' = (gorm.statement db).2 ∧
    Session.IsExpired now s = false ∧
    handlers.generateAccessToken cfg now (User.ID (Session.User (gorm.preload_User db s)))
      (Session.Token s) = Some (AccessToken r) ∧
    LoginResponse_User r = User.with_Password "" (Session.User (gorm.preload_User db s)) ∧
    RefreshToken_ r = RefreshTokenRequest_RefreshToken req.
Proof.
  unfold handlers.RefreshToken.
  destruct (binding.ShouldBindJSON_RefreshTokenRequest (inr req)) as [err|req'] eqn:Hb;
    [done|].
  assert (req' = req) as ->.
  { simpl in Hb. by destruct (String.eqb _ ""); simplify_eq. }
  rewrite Parse_keyfuncs.
  destruct (jwt.Parse _ _ now) as [token|] eqn:HP; [|done].
  apply Parse_Some in HP as (Hvalid & Hsig & Hval). rewrite Hvalid. simpl negb. cbv iota.
  rewrite First_session_unfold.
  destruct (gorm.statement db) as [fault db1]. simpl.
  destruct fault; [done|].
  destruct (gorm.least Session.ID _) as [s|] eqn:Hl; [|done].
  apply least_filter_Some in Hl as [Hin Hq].
  destruct (Session.IsExpired now (gorm.preload_User db s)) eqn:Hexp; [done|].
  destruct (handlers.generateAccessToken _ _ _ _) as [access|] eqn:Ha; [|done].
  intros [= <- <-]. exists (jwt.Claims token), s. simpl. done.
Qed.

(** X6: the access token of a refresh is let through by [AuthMiddleware]
    while it and the session last, for the session [s] of the refresh token
    and with the identity of the answer, when the database answers and the
    user of the session is there (the answer then names a user and not the
    zero value). The library is asked for one thing, that the token it
    gave is a token over the claims signed with the secret. *)
Theorem RefreshToken_then_AuthMiddleware now req db r db' claims s now' keys :
  unique_tokens db →
  handlers.RefreshToken cfg now (inr req) db = (JSON StatusOK (JSON_LoginResponse r), db') →
  carries (RefreshTokenRequest_RefreshToken req) claims →
  claims !! "session_token" = Some (jwt.CString (Session.Token s)) →
  s ∈ sessions db →
  User.ID (LoginResponse_User r) ≠ uuid.Nil →
  signed (Secret cfg) (AccessToken r)
    (handlers.accessClaims cfg now (User.ID (LoginResponse_User r)) (Session.Token s)) →
  (gorm.statement db').1 = false →
  now' < Unix (now + Expiry cfg) * Second →
  now' ≤ Session.ExpiresAt s →
  (middleware.AuthMiddleware cfg now' ("Bearer " +:+ AccessToken r) keys db').1 =
    gin.Next
      (<["session" := gin.VSession (gorm.preload_User db s)]>
       (<["user_id" := gin.VUUID (User.ID (LoginResponse_User r))]>
        (<["user" := gin.VUser (Session.User (gorm.preload_User db s))]> keys))).
Proof.
  intros Huniq HR Hcarries Hst Hs Hnil Hsig Hf Hlt Hexp.
  apply RefreshToken_OK_inv in HR
    as (claims0 & s0 & Hsig0 & _ & Hs0 & Hq & _ & -> & _ & _ & Hr & _).
  rewrite (signed_carries _ _ _ _ Hsig0 Hcarries) in Hst.
  unfold jwt.claimString in Hq. rewrite Hst in Hq. simpl in Hq.
  apply sessionQuery_true in Hq as (Htok & _ & Hact).
  assert (s0 = s) as -> by by apply (NoDup_fmap_eq Session.Token (sessions db)).
  destruct (statement_tables db) as [Hus Hss].
  rewrite Hr in *. cbn [User.ID User.with_Password] in *.
  assert (User.ID (Session.User (gorm.preload_User db s)) = Session.UserID s) as Hid.
  { revert Hnil. unfold gorm.preload_User.
    destruct (gorm.least User.ID _) as [x|] eqn:Hl; simpl; [|done].
    by apply least_filter_Some in Hl as [_ [_ ?%N.eqb_eq]%andb_true_iff]. }
  rewrite (access_token_accepted cfg now _ (Session.UserID s) s); try done.
  - by rewrite (preload_users db _ s Hus).
  - by rewrite <- Hid.
  - by rewrite Hss.
  - rewrite Hss. intros y Hy Hty.
    by apply (NoDup_fmap_eq Session.Token (sessions db)).
Qed.

End RefreshMore.

Lemma RefreshToken_then_AuthMiddleware_witness :
  ∃ keys',
    (middleware.AuthMiddleware (J := doubles.login_tokens) standin.cfg 6
       ("Bearer " +:+ ("HS256.access/" +:+ standin.alice_session +:+ ".secret")) ∅
       standin.db0).1 = gin.Next keys'.
Proof.
  eexists.
  apply (RefreshToken_then_AuthMiddleware (J := doubles.login_tokens) standin.cfg 5
           {| RefreshTokenRequest_RefreshToken :=
                "HS256.refresh/" +:+ standin.alice_session +:+ ".secret" |}
           standin.db0
           {| LoginResponse_User := User.with_Password "" standin.alice;
              AccessToken := "HS256.access/" +:+ standin.alice_session +:+ ".secret";
              RefreshToken_ := "HS256.refresh/" +:+ standin.alice_session +:+ ".secret";
              ExpiresIn := 86400 |}
           standin.db0
           (handlers.refreshClaims standin.cfg 5 standin.alice_id standin.alice_session)
           standin.session7 6 ∅).
  - apply NoDup_singleton.
  - reflexivity.
  - exists "HS256", ("refresh/" +:+ standin.alice_session), "secret". split; reflexivity.
  - reflexivity.
  - apply list_elem_of_here.
  - vm_compute. discriminate.
  - exists "HS256", ("access/" +:+ standin.alice_session), "secret", jwt.HS256. repeat split; reflexivity.
  - reflexivity.
  - vm_compute. reflexivity.
  - vm_compute. discriminate.
Defined.

Section LogoutMore.
Context {J : jwt.Library}.
Variable cfg : JWTConfig.

(** The save of [Logout] is refused only by the database. *)
Lemma Save_session_answer now s user db :
  unique_tokens db → s ∈ sessions db →
  (gorm.Save_session now (Session.with_IsActive false (Session.with_User user s)) db).1 =
    if (gorm.statement db).1 then Error ErrOther else Ok ().
Proof.
  intros Htoks Hs. unfold gorm.Save_session.
  destruct (statement_tables db) as [_ Hs1].
  destruct (gorm.statement db) as [[] db1]; simpl in *; [done|].
  rewrite Hs1.
  assert (Hother : existsb (λ r, negb (Session.ID r =? Session.ID s)%N &&
                                 String.eqb (Session.Token r) (Session.Token s))
                     (sessions db) = false).
  { destruct (existsb _ (sessions db)) eqn:Hex; [|done].
    apply existsb_exists in Hex as (r & Hr%list_elem_of_In & [Hid Htok]%andb_prop).
    apply String.eqb_eq in Htok.
    rewrite (NoDup_fmap_eq Session.Token _ r s Htoks Hr Hs Htok), N.eqb_refl in Hid.
    done. }
  rewrite Hother. clear Hother. simpl. by destruct (existsb _ _).
Qed.

(** X7: after a logout through its route that is answered 200, the header
    that was let through is refused: where the sessions are in order,
    every route behind [AuthMiddleware] answers a request with that header
    401 from then on, whatever the time, until the sessions change
    again. *)
Theorem logout_revokes now authHeader db msg db' :
  sessions_ok db →
  routes.auth_logout cfg now authHeader db = (JSON StatusOK msg, db') →
  ∀ now' db'', sessions db'' = sessions db' →
    (∀ keys, ∃ m, (middleware.AuthMiddleware cfg now' authHeader keys db'').1 =
                    gin.Abort (JSON StatusUnauthorized (H_error m))) ∧
    (∀ A (stop : Response → A) rest, ∃ m,
       (routes.protected cfg stop now' authHeader rest db'').1 =
         stop (JSON StatusUnauthorized (H_error m))).
Proof.
  intros Hok. unfold routes.auth_logout, routes.protected.
  destruct (middleware.AuthMiddleware cfg now authHeader ∅ db) as [[keys1|r] db1] eqn:Hauth.
  2:{ intros [= Hr _]. apply (f_equal fst) in Hauth.
      apply AuthMiddleware_Abort in Hauth as [m ->]. done. }
  intros Hout now' db'' Hsame.
  pose proof (Logout_keeps_sessions cfg now now authHeader ∅ db keys1 db1 Hok Hauth)
    as Hok'.
  rewrite Hout in Hok'. simpl in Hok'.
  destruct (Logout_marks_inactive cfg _ _ _ _ _ _ _ _ _ Hok Hauth Hout)
    as (s & s' & Hkey & Hs' & Htok & Hinactive).
  apply (f_equal fst) in Hauth. simpl in Hauth.
  apply AuthMiddleware_Next in Hauth
    as (t & claims & userID & st & s1 & Hcut & Hsig & _ & Hst & _ & Hq & _ & Hkey1).
  rewrite Hkey in Hkey1. injection Hkey1 as ->.
  apply sessionQuery_true in Hq as (Htok1 & _).
  assert (Hrefused : ∀ keys, ∃ m,
            (middleware.AuthMiddleware cfg now' authHeader keys db'').1 =
              gin.Abort (JSON StatusUnauthorized (H_error m))).
  { intros keys.
    destruct (middleware.AuthMiddleware cfg now' authHeader keys db'').1
      as [keys2|r] eqn:Hflow.
    - apply AuthMiddleware_Next in Hflow
        as (t2 & claims2 & userID2 & st2 & s2 & Hcut2 & Hsig2 & _ & Hst2 & Hs2 & Hq2 & _).
      rewrite Hcut in Hcut2. injection Hcut2 as <-.
      rewrite (signed_inj _ _ _ _ Hsig Hsig2), Hst in Hst2. injection Hst2 as <-.
      apply sessionQuery_true in Hq2 as (Htok2 & _ & Hact).
      rewrite Hsame in Hs2.
      assert (s2 = s') as ->.
      { apply (NoDup_fmap_eq Session.Token (sessions db')); try done.
        - apply Hok'.
        - rewrite Htok, Htok2. done. }
      congruence.
    - destruct (AuthMiddleware_Abort _ _ _ _ _ _ Hflow) as [m ->]. eauto. }
  split; [done|]. intros A stop rest.
  destruct (Hrefused ∅) as [m Hm]. exists m.
  destruct (middleware.AuthMiddleware cfg now' authHeader ∅ db'') as [flow db3].
  simpl in Hm. by rewrite Hm.
Qed.

(** X8: behind [AuthMiddleware], where the sessions are in order, the
    logout is answered 200 exactly when the request is let through and the
    database answers the save; [Logout] then finds its session in the
    context, and the index on the tokens has nothing to refuse. *)
Theorem auth_logout_answers now authHeader db :
  sessions_ok db →
  let response := (routes.auth_logout cfg now authHeader db).1 in
  ((∃ msg, response = JSON StatusOK msg) ↔
   ∃ keys' db1,
     middleware.AuthMiddleware cfg now authHeader ∅ db = (gin.Next keys', db1) ∧
     (gorm.statement db1).1 = false) ∧
  response ≠ JSON StatusUnauthorized (H_error "Session not found") ∧
  response ≠ recovered.
Proof.
  intros Hok. cbv zeta. unfold routes.auth_logout, routes.protected.
  pose proof (AuthMiddleware_sessions cfg now authHeader ∅ db) as Hss.
  destruct (middleware.AuthMiddleware cfg now authHeader ∅ db) as [[keys1|r] db1] eqn:Hauth.
  2:{ apply (f_equal fst) in Hauth.
      apply AuthMiddleware_stops in Hauth as (m & Hm & ->). simpl.
      split; [split; [by intros [? [=]] | by intros (? & ? & [=] & _)]|].
      split; [|done]. intros [= ->]. unfold unauthorized_messages in Hm.
      repeat (apply elem_of_cons in Hm as [Hm|Hm]; [discriminate Hm|]).
      by apply elem_of_nil in Hm. }
  simpl in Hss. apply (f_equal fst) in Hauth. simpl in Hauth.
  apply AuthMiddleware_Next in Hauth
    as (t & claims & userID & st & s & _ & _ & _ & _ & Hs & _ & _ & Hkey).
  unfold handlers.Logout. rewrite Hkey. unfold gorm.preload_User.
  rewrite <- Hss in Hs.
  assert (unique_tokens db1) as Huniq.
  { unfold unique_tokens. rewrite Hss. apply Hok. }
  pose proof (Save_session_answer now s
                (default User.zero
                   (gorm.least User.ID
                      (filter (λ u, gorm.live u && (User.ID u =? Session.UserID s)%N)
                         (users db)))) db1 Huniq Hs) as Hsave.
  destruct (gorm.Save_session _ _ db1) as [saved db2]. simpl in Hsave. subst saved.
  destruct (gorm.statement db1).1 eqn:Hf; simpl.
  - split; [|done]. split; [by intros [? [=]]|].
    intros (? & ? & [= <- <-] & ?). congruence.
  - split; [|done]. split; [by eauto|]. by eauto.
Qed.

End LogoutMore.

Lemma logout_revokes_witness :
  ∃ m,
    (middleware.AuthMiddleware (J := standin.tokens) standin.cfg 6
       ("Bearer " +:+ "HS256.alice-access.secret") ∅
       (routes.auth_logout (J := standin.tokens) standin.cfg 5
          ("Bearer " +:+ "HS256.alice-access.secret") standin.db0).2).1 =
      gin.Abort (JSON StatusUnauthorized (H_error m)).
Proof.
  apply (logout_revokes (J := standin.tokens) standin.cfg 5
           ("Bearer " +:+ "HS256.alice-access.secret") standin.db0
           (H_message "Logged out successfully")
           (routes.auth_logout (J := standin.tokens) standin.cfg 5
              ("Bearer " +:+ "HS256.alice-access.secret") standin.db0).2
           standin_sessions_ok eq_refl 6 _ eq_refl).
Defined.

Lemma auth_logout_answers_witness :
  ∃ msg,
    (routes.auth_logout (J := standin.tokens) standin.cfg 5
       ("Bearer " +:+ "HS256.alice-access.secret") standin.db0).1 = JSON StatusOK msg.
Proof.
  apply (auth_logout_answers (J := standin.tokens) standin.cfg 5
           ("Bearer " +:+ "HS256.alice-access.secret") standin.db0 standin_sessions_ok).
  eexists _, _. split; reflexivity.
Defined.

Lemma Sub_le_Minute_iff now t : Sub now t ≤ Minute ↔ now - t ≤ Minute.
Proof.
  split; [apply Sub_le_Minute|].
  unfold Sub, minDuration, maxDuration, Minute, Second.
  destruct (Z.ltb_spec (now - t) (- 2 ^ 63)); [lia|].
  destruct (Z.ltb_spec (2 ^ 63 - 1) (now - t)); lia.
Qed.

(** One call of [RateLimit], by what it stores. *)
Lemma RateLimit_cases clientIP now keys (clients : gmap string (list Time)) :
  let valid :=
    filter (λ reqTime, Sub now reqTime ≤ Minute) (default [] (clients !! clientIP)) in
  let flow := (middleware.RateLimit clientIP now keys clients).1 in
  let clients' := (middleware.RateLimit clientIP now keys clients).2 in
  (∀ ip, ip ≠ clientIP → clients' !! ip = clients !! ip) ∧
  (is_Some (clients !! clientIP) → is_Some (clients' !! clientIP)) ∧
  (((100 ≤ length valid)%nat ∧
    flow = gin.Abort (JSON StatusTooManyRequests (H_error "Rate limit exceeded")) ∧
    default [] (clients' !! clientIP) = valid) ∨
   ((length valid < 100)%nat ∧ flow = gin.Next keys ∧
    clients' !! clientIP = Some (List.app valid [now]))).
Proof.
  cbv zeta. unfold middleware.RateLimit.
  set (valid := filter _ (default [] (clients !! clientIP))).
  set (pruned := match clients !! clientIP with
                 | Some requests => <[clientIP := _]> clients
                 | None => clients
                 end).
  assert (Hpruned : default [] (pruned !! clientIP) = valid).
  { subst pruned valid. destruct (clients !! clientIP) as [requests|] eqn:Hc; simpl.
    - by rewrite lookup_insert_eq.
    - by rewrite Hc. }
  assert (Hother : ∀ ip, ip ≠ clientIP → pruned !! ip = clients !! ip).
  { intros ip Hip. subst pruned. destruct (clients !! clientIP); [|done].
    by rewrite lookup_insert_ne. }
  assert (Hsome : is_Some (clients !! clientIP) → is_Some (pruned !! clientIP)).
  { subst pruned. intros [l Hl]. rewrite Hl, lookup_insert_eq. eauto. }
  rewrite Hpruned.
  destruct (Nat.leb_spec 100 (length valid)) as [Hfull|Hroom]; simpl.
  - split; [done|]. split; [done|]. left. done.
  - split; [intros ip Hip; by rewrite lookup_insert_ne, Hother|].
    split; [intros _; rewrite lookup_insert_eq; eauto|].
    right. by rewrite lookup_insert_eq.
Qed.

Lemma serve_cons clientIP now requests clients :
  serve ((clientIP, now) :: requests) clients =
    (match (middleware.RateLimit clientIP now ∅ clients).1 with
     | gin.Next _ => true
     | gin.Abort _ => false
     end :: (serve requests (middleware.RateLimit clientIP now ∅ clients).2).1,
     (serve requests (middleware.RateLimit clientIP now ∅ clients).2).2).
Proof.
  simpl. destruct (middleware.RateLimit clientIP now ∅ clients) as [flow clients1].
  simpl. by destruct (serve requests clients1).
Qed.

Lemma admitted_times clientIP requests flows t :
  t ∈ admitted clientIP requests flows → t ∈ requests.*2.
Proof.
  revert flows. induction requests as [|[ip t0] requests IH]; intros flows; simpl.
  - by intros ?%elem_of_nil.
  - destruct flows as [|flow flows]; [by intros ?%elem_of_nil|].
    destruct (flow && String.eqb ip clientIP).
    + intros [->|Hin]%elem_of_cons; [by left|]. right. by apply (IH flows).
    + intros Hin. right. by apply (IH flows).
Qed.

Lemma within_app T a b : within T (List.app a b) = List.app (within T a) (within T b).
Proof. apply filter_app. Qed.

Lemma within_later T now times :
  T + Minute < now → (∀ t, t ∈ times → now ≤ t) → within T times = [].
Proof.
  intros Hlt Hall. unfold within. induction times as [|t times IH]; [done|].
  rewrite filter_cons. destruct (decide _) as [[_ Hle]|_].
  - specialize (Hall t ltac:(by left)). lia.
  - apply IH. intros t' Ht'. apply Hall. by right.
Qed.

Lemma within_valid T now times :
  now ≤ T + Minute →
  within T (filter (λ reqTime, Sub now reqTime ≤ Minute) times) = within T times.
Proof.
  intros Hle. unfold within. apply list_filter_filter_l.
  intros t [Ht _]. apply Sub_le_Minute_iff. lia.
Qed.

(** The invariant of a run: with the times stored for the client before
    it, the times let through never count more than a hundred in any
    minute. *)
Lemma serve_window clientIP requests :
  ∀ clients : gmap string (list Time),
  StronglySorted Z.le requests.*2 →
  (∀ T, (length (within T (default [] (clients !! clientIP))) ≤ 100)%nat) →
  ∀ T, (length (within T (List.app (default [] (clients !! clientIP))
                            (admitted clientIP requests (serve requests clients).1)))
        ≤ 100)%nat.
Proof.
  induction requests as [|[ip now] requests IH]; intros clients Hsorted Hpre T.
  - simpl. by rewrite app_nil_r.
  - rewrite serve_cons. simpl admitted.
    apply StronglySorted_inv in Hsorted as [Hsorted Hnow]. simpl in Hnow.
    rewrite Forall_forall in Hnow.
    pose proof (RateLimit_cases ip now ∅ clients) as (Hother & _ & Hcases).
    cbv zeta in Hother, Hcases.
    set (flow := (middleware.RateLimit ip now ∅ clients).1) in *.
    set (clients1 := (middleware.RateLimit ip now ∅ clients).2) in *.
    destruct (String.eqb_spec ip clientIP) as [->|Hip].
    + set (L := default [] (clients !! clientIP)) in *.
      set (valid := filter _ L) in *.
      assert (Hlater : ∀ flows t,
                t ∈ admitted clientIP requests flows → now ≤ t).
      { intros flows t Ht%admitted_times. by apply Hnow. }
      destruct Hcases as [(Hfull & -> & Hstored)|(Hroom & -> & Hstored)].
      * simpl. specialize (IH clients1 Hsorted). rewrite Hstored in IH.
        assert (Hpre1 : ∀ T, (length (within T valid) ≤ 100)%nat).
        { intros T'. subst valid. unfold within. rewrite list_filter_filter.
          etransitivity; [|apply (Hpre T')]. unfold within.
          rewrite <- (list_filter_filter_l (λ t, T' ≤ t ≤ T' + Minute ∧ Sub now t ≤ Minute)
                        (λ t, T' ≤ t ≤ T' + Minute) L) by tauto.
          apply length_filter. }
        specialize (IH Hpre1 T). rewrite within_app in *.
        destruct (Z.lt_ge_cases (T + Minute) now) as [Hlt|Hge].
        -- rewrite (within_later T now (admitted _ _ _)) by eauto.
           rewrite app_nil_r. apply Hpre.
        -- subst valid. by rewrite within_valid in IH.
      * simpl. specialize (IH clients1 Hsorted). rewrite Hstored in IH. simpl in IH.
        assert (Hpre1 : ∀ T, (length (within T (List.app valid [now])) ≤ 100)%nat).
        { intros T'. rewrite within_app, length_app.
          assert (length (within T' valid) ≤ length valid)%nat by apply length_filter.
          assert (length (within T' [now]) ≤ 1)%nat by apply (length_filter _ [now]).
          lia. }
        specialize (IH Hpre1 T). rewrite !within_app in *.
        destruct (Z.lt_ge_cases (T + Minute) now) as [Hlt|Hge].
        -- rewrite (within_later T now (now :: admitted _ _ _)); [|done|].
           ++ rewrite app_nil_r. apply Hpre.
           ++ intros t [->|Ht]%elem_of_cons; [lia|]. eauto.
        -- subst valid. rewrite within_valid in IH by done.
           rewrite <- app_assoc in IH.
           change (now :: ?x) with (List.app [now] x). by rewrite within_app.
    + rewrite andb_false_r.
      specialize (IH clients1 Hsorted). rewrite (Hother clientIP) in IH by done.
      by apply IH.
Qed.

(** X9: over a run of requests that are served one after the other at
    times that do not go back, starting with the empty map, the requests
    of one client that [RateLimit] lets through never count more than a
    hundred in any minute. *)
Theorem RateLimit_hundred_a_minute requests clientIP T :
  Sorted Z.le (snd <$> requests) →
  (length (within T (admitted clientIP requests (serve requests ∅).1)) ≤ 100)%nat.
Proof.
  intros Hsorted.
  assert (StronglySorted Z.le (snd <$> requests)) as Hstrong.
  { apply Sorted_StronglySorted; [|done]. intros x y z. apply Z.le_trans. }
  pose proof (serve_window clientIP requests ∅ Hstrong) as Hrun.
  rewrite lookup_empty in Hrun. simpl in Hrun. apply Hrun.
  intros T'. simpl. lia.
Qed.

Lemma RateLimit_hundred_a_minute_witness :
  let requests : list (string * Time) :=
    [("10.0.0.1", 0); ("10.0.0.2", Second); ("10.0.0.1", 2 * Second)] in
  let start : Time := 0 in
  (length (within start (admitted "10.0.0.1" requests (serve requests ∅).1)) ≤ 100)%nat.
Proof.
  cbv zeta.
  apply (RateLimit_hundred_a_minute
           [("10.0.0.1", 0); ("10.0.0.2", Second); ("10.0.0.1", 2 * Second)]
           "10.0.0.1" 0).
  repeat constructor; vm_compute; discriminate.
Defined.

(** X10: [RateLimit] forgets no client: over a run, every client that had
    an entry in the map or sent a request has an entry at the end, and
    where no entry held more than a hundred times at the start none does
    at the end. *)
Theorem RateLimit_store requests (clients : gmap string (list Time)) :
  (∀ ip l, clients !! ip = Some l → (length l ≤ 100)%nat) →
  let clients' := (serve requests clients).2 in
  (∀ ip l, clients' !! ip = Some l → (length l ≤ 100)%nat) ∧
  (∀ ip, is_Some (clients !! ip) ∨ ip ∈ requests.*1 → is_Some (clients' !! ip)).
Proof.
  cbv zeta. revert clients.
  induction requests as [|[clientIP now] requests IH]; intros clients Hbound.
  - simpl. split; [done|]. intros ip [H|H%elem_of_nil]; done.
  - rewrite serve_cons. cbn [snd].
    pose proof (RateLimit_cases clientIP now ∅ clients) as (Hother & Hsome & Hcases).
    cbv zeta in Hother, Hsome, Hcases.
    set (clients1 := (middleware.RateLimit clientIP now ∅ clients).2) in *.
    assert (Hvalid : (length (filter (λ reqTime, (Sub now reqTime ≤ Minute)%Z)
                                (default [] (clients !! clientIP))) ≤ 100)%nat).
    { etransitivity; [apply length_filter|].
      destruct (clients !! clientIP) as [l|] eqn:Hl; simpl; [by apply (Hbound clientIP)|lia]. }
    destruct (IH clients1) as [IHbound IHsome].
    { intros ip l Hl. destruct (decide (ip = clientIP)) as [->|Hip].
      - destruct Hcases as [(_ & _ & Hstored)|(Hroom & _ & Hstored)].
        + rewrite Hl in Hstored. simpl in Hstored. by subst l.
        + rewrite Hl in Hstored. injection Hstored as ->.
          rewrite length_app. simpl. lia.
      - rewrite Hother in Hl by done. by apply (Hbound ip). }
    split; [done|]. intros ip Hip. apply IHsome.
    destruct (decide (ip = clientIP)) as [->|Hne].
    + left. destruct (clients !! clientIP) as [l|] eqn:Hl; [by apply Hsome|].
      destruct Hcases as [(Hfull & _)|(_ & _ & ->)]; [|done].
      simpl in Hfull. lia.
    + destruct Hip as [Hip|[Hip|Hip]%elem_of_cons].
      * left. by rewrite Hother.
      * done.
      * by right.
Qed.

Lemma RateLimit_store_witness :
  is_Some ((serve [("10.0.0.1", 0); ("10.0.0.2", Second)] ∅).2 !! "10.0.0.1").
Proof.
  apply (RateLimit_store [("10.0.0.1", 0); ("10.0.0.2", Second)] ∅).
  - intros ip l. rewrite lookup_empty. discriminate.
  - right. apply list_elem_of_here.
Defined.

Lemma wrap64_id z : - 2 ^ 63 ≤ z < 2 ^ 63 → wrap64 z = z.
Proof. intros Hz. unfold wrap64. rewrite Z.mod_small; lia. Qed.

Section UsersMore.
Context {P : postgres.Library}.

(** X11: whatever the query string says, a page of [GetUsers] holds at
    most [items_per_page] users and that is between 1 and 100; the page
    number is at least 1; every user listed is a row that is not deleted,
    with its password blanked; and the pages counted are just enough for
    the items counted. *)
Theorem GetUsers_page query db us pagination :
  (user_handlers.GetUsers query db).1 = JSON StatusOK (JSON_users us pagination) →
  Z.of_nat (length (users db)) < 2 ^ 62 →
  1 ≤ current_page pagination ∧
  1 ≤ items_per_page pagination ≤ 100 ∧
  Z.of_nat (length us) ≤ items_per_page pagination ∧
  (∀ u, u ∈ us →
     User.Password u = "" ∧ User.DeletedAt u = None ∧
     ∃ row, row ∈ users db ∧ u = User.with_Password "" row) ∧
  0 ≤ total_items pagination ≤ Z.of_nat (length (users db)) ∧
  total_items pagination ≤ total_pages pagination * items_per_page pagination
    < total_items pagination + items_per_page pagination.
Proof.
  unfold user_handlers.GetUsers.
  set (page0 := (strconv.Atoi _).1). set (limit0 := (strconv.Atoi _).1).
  set (page := if page0 <? 1 then 1 else page0).
  set (limit := if (limit0 <? 1) || (100 <? limit0) then 10 else limit0).
  set (search := user_handlers.Query query "search").
  assert (1 ≤ page) as Hpage by (subst page; destruct (Z.ltb_spec page0 1); lia).
  assert (1 ≤ limit ≤ 100) as Hlimit.
  { subst limit. destruct (Z.ltb_spec limit0 1); simpl; [lia|].
    destruct (Z.ltb_spec 100 limit0); lia. }
  destruct (statement_tables db) as [Hus _].
  destruct (gorm.statement db) as [fault1 db1]. simpl in Hus.
  destruct (statement_tables db1) as [Hus1 _].
  destruct (gorm.statement db1) as [fault2 db2]. simpl in Hus1.
  destruct fault2; [done|]. simpl. intros [= <- <-] Hsize. simpl.
  rewrite Hus1, Hus.
  set (rows := filter (λ u, user_handlers.searched search u) (users db)).
  assert (length rows ≤ length (users db))%nat as Hrows by apply length_filter.
  split; [done|]. split; [done|]. split.
  { rewrite length_map. unfold user_handlers.page_of. rewrite length_take. lia. }
  split.
  { intros u (row & -> & Hrow)%list_elem_of_fmap. unfold user_handlers.page_of in Hrow.
    apply subseteq_take, subseteq_drop in Hrow.
    apply list_elem_of_filter in Hrow as [Hq Hin].
    apply Is_true_true in Hq. unfold user_handlers.searched in Hq.
    apply andb_true_iff in Hq as [Hlive _]. unfold gorm.live in Hlive.
    split; [done|]. split; [|by eauto]. simpl. by destruct (User.DeletedAt row). }
  set (total := if fault1 then 0 else Z.of_nat (length rows)).
  assert (0 ≤ total ≤ Z.of_nat (length (users db))) as Htotal
    by (subst total; destruct fault1; lia).
  split; [done|].
  rewrite (wrap64_id (total + limit)) by lia.
  rewrite (wrap64_id (total + limit - 1)) by lia.
  rewrite Z.quot_div_nonneg by lia.
  pose proof (Z.div_mod (total + limit - 1) limit ltac:(lia)).
  pose proof (Z.mod_pos_bound (total + limit - 1) limit ltac:(lia)).
  nia.
Qed.

End UsersMore.

Lemma GetUsers_page_witness :
  ∃ us pagination,
    (user_handlers.GetUsers (P := standin.any_text) {["limit" := "1000"]}
       {| users := seeded; sessions := []; faults := [] |}).1
      = JSON StatusOK (JSON_users us pagination) ∧
    1 ≤ current_page pagination ∧
    1 ≤ items_per_page pagination ≤ 100 ∧
    Z.of_nat (length us) ≤ items_per_page pagination ∧
    (∀ u, u ∈ us →
       User.Password u = "" ∧ User.DeletedAt u = None ∧
       ∃ row, row ∈ seeded ∧ u = User.with_Password "" row) ∧
    0 ≤ total_items pagination ≤ Z.of_nat (length seeded) ∧
    total_items pagination ≤ total_pages pagination * items_per_page pagination
      < total_items pagination + items_per_page pagination.
Proof.
  eexists _, _. split; [reflexivity|].
  apply (GetUsers_page (P := standin.any_text) {["limit" := "1000"]}
           {| users := seeded; sessions := []; faults := [] |});
    [reflexivity | vm_compute; reflexivity].
Defined.

Lemma elem_of_concat {A} (x : A) (ls : list (list A)) :
  x ∈ concat ls ↔ ∃ l, x ∈ l ∧ l ∈ ls.
Proof.
  induction ls as [|l ls IH]; simpl.
  - split; [by intros ?%elem_of_nil|]. by intros (l & _ & ?%elem_of_nil).
  - rewrite elem_of_app, IH. split.
    + intros [Hx|(l' & Hx & Hl')]; [exists l; split; [done | by left]|].
      exists l'. split; [done | by right].
    + intros (l' & Hx & [->|Hl']%elem_of_cons); [by left|]. right. eauto.
Qed.

Lemma GetPermissions_SetPermissions l r :
  Role.GetPermissions (Role.SetPermissions (Slice l) r) = Slice (map ToValidUTF8 l).
Proof.
  unfold Role.GetPermissions.
  change (Role.Permissions (Role.SetPermissions (Slice l) r))
    with (json.Marshal (Slice l)).
  rewrite Unmarshal_Marshal. by destruct l.
Qed.

(** X12: a user whose roles were each written by [SetPermissions] passes
    [RequirePermission] exactly for the permissions that were set, each
    read as JSON gives it back (a permission that is valid UTF-8 as
    itself); otherwise the answer is 403 and names the permission. *)
Theorem RequirePermission_after_SetPermissions
    requiredPermission (keys : gin.Keys) u (grants : list (list string * Role.t)) :
  keys !! "user" = Some (gin.VUser u) →
  User.Roles u = map (λ g, Role.SetPermissions (Slice g.1) g.2) grants →
  (middleware.RequirePermission requiredPermission keys = gin.Next keys ↔
   ∃ g, g ∈ grants ∧ requiredPermission ∈ map ToValidUTF8 g.1) ∧
  (middleware.RequirePermission requiredPermission keys =
     gin.Abort (JSON StatusForbidden
                  (H_error ("Permission '" +:+ requiredPermission +:+ "' is required"))) ↔
   ¬ ∃ g, g ∈ grants ∧ requiredPermission ∈ map ToValidUTF8 g.1) ∧
  (Forall (λ g, Forall (λ s, utf8.ValidString s = true) g.1) grants →
   (middleware.RequirePermission requiredPermission keys = gin.Next keys ↔
    ∃ g, g ∈ grants ∧ requiredPermission ∈ g.1)).
Proof.
  intros Hkey Hroles.
  assert (Hhas : middleware.hasPermission (User.Roles u) requiredPermission = true ↔
                 ∃ g, g ∈ grants ∧ requiredPermission ∈ map ToValidUTF8 g.1).
  { rewrite hasPermission_true, Hroles. rewrite elem_of_concat. split.
    - intros (l & Hp & Hl).
      apply list_elem_of_fmap in Hl as (role & -> & Hrole).
      apply list_elem_of_fmap in Hrole as (g & -> & Hg).
      rewrite GetPermissions_SetPermissions in Hp. eauto.
    - intros (g & Hg & Hp). exists (map ToValidUTF8 g.1). split; [done|].
      apply list_elem_of_fmap. exists (Role.SetPermissions (Slice g.1) g.2).
      rewrite GetPermissions_SetPermissions. split; [done|].
      apply list_elem_of_fmap. eauto. }
  unfold middleware.RequirePermission. rewrite Hkey.
  destruct (middleware.hasPermission (User.Roles u) requiredPermission) eqn:Hp; simpl.
  - pose proof (proj1 Hhas eq_refl) as Hg.
    split; [done|]. split; [split; [done | by intros []]|].
    intros Hvalid. split; [|done]. intros _.
    destruct Hg as (g & Hg & Hin). exists g. split; [done|].
    rewrite map_ToValidUTF8_valid in Hin; [done|].
    rewrite Forall_forall in Hvalid. by apply Hvalid.
  - assert (¬ ∃ g, g ∈ grants ∧ requiredPermission ∈ map ToValidUTF8 g.1) as Hno.
    { intros Hg. apply Hhas in Hg. done. }
    split; [split; [done | by intros ?]|]. split; [done|].
    intros Hvalid. split; [done|]. intros (g & Hg & Hin). destruct Hno.
    exists g. split; [done|]. rewrite map_ToValidUTF8_valid; [done|].
    rewrite Forall_forall in Hvalid. by apply Hvalid.
Qed.

Lemma RequirePermission_after_SetPermissions_witness :
  let keys : gin.Keys := {["user" := gin.VUser standin.alice]} in
  middleware.RequirePermission "user:create" keys = gin.Next keys ↔
  ∃ g : list string * Role.t,
    g ∈ [(["user:read"; "user:create"],
          Role.mk 1%N 0 0 "admin" "System Administrator" "" true)] ∧
    "user:create" ∈ g.1.
Proof.
  apply (RequirePermission_after_SetPermissions "user:create"
           {["user" := gin.VUser standin.alice]} standin.alice
           [(["user:read"; "user:create"],
             Role.mk 1%N 0 0 "admin" "System Administrator" "" true)]).
  - reflexivity.
  - reflexivity.
  - repeat constructor.
Defined.

Lemma hasRole_IsActive active roles requiredRole :
  middleware.hasRole (map (with_role_IsActive active) roles) requiredRole =
  middleware.hasRole roles requiredRole.
Proof.
  induction roles as [|role roles IH]; [done|]. simpl. by rewrite IH.
Qed.

Lemma hasPermission_IsActive active roles requiredPermission :
  middleware.hasPermission (map (with_role_IsActive active) roles) requiredPermission =
  middleware.hasPermission roles requiredPermission.
Proof.
  induction roles as [|role roles IH]; [done|]. simpl. rewrite IH. done.
Qed.

(** X13: the two authorization gates look at the names and the
    permissions of the roles only: a role that is marked inactive lets
    through all that it lets through when active. *)
Theorem inactive_roles_still_grant active requiredRole requiredPermission
    (keys : gin.Keys) u :
  keys !! "user" = Some (gin.VUser u) →
  let keys' :=
    <["user" := gin.VUser (with_Roles (map (with_role_IsActive active) (User.Roles u)) u)]>
      keys in
  (middleware.RequireRole requiredRole keys' = gin.Next keys' ↔
   middleware.RequireRole requiredRole keys = gin.Next keys) ∧
  (middleware.RequirePermission requiredPermission keys' = gin.Next keys' ↔
   middleware.RequirePermission requiredPermission keys = gin.Next keys).
Proof.
  intros Hkey. cbv zeta.
  unfold middleware.RequireRole, middleware.RequirePermission.
  rewrite lookup_insert_eq, Hkey. simpl.
  rewrite hasRole_IsActive, hasPermission_IsActive.
  destruct (middleware.hasRole _ _), (middleware.hasPermission _ _); simpl;
    split; split; done.
Qed.

Lemma inactive_roles_still_grant_witness :
  let keys : gin.Keys := {["user" := gin.VUser standin.alice]} in
  let keys' : gin.Keys :=
    <["user" :=
       gin.VUser (with_Roles (map (with_role_IsActive false) (User.Roles standin.alice))
                    standin.alice)]> keys in
  middleware.RequireRole "admin" keys' = gin.Next keys'.
Proof.
  destruct (inactive_roles_still_grant false "admin" "user:read"
              {["user" := gin.VUser standin.alice]} standin.alice) as [[_ H] _];
    [reflexivity|].
  apply H. reflexivity.
Defined.

Section AnswersMore.
Context {B : bcrypt.Library} {J : jwt.Library} {P : postgres.Library}
        {U : parsing.Library}.
Variable cfg : JWTConfig.

(** X14: no answer carries a password hash: every user that [Me],
    [GetUser], [Login], [RefreshToken] and [GetUsers] write into a
    response has the empty password, whatever the status. *)
Theorem answers_carry_no_password :
  (∀ keys status u,
     account.Me keys = Answer_user status u → User.Password u = "") ∧
  (∀ id db status u,
     (users.GetUser id db).1 = Answer_user status u → User.Password u = "") ∧
  (∀ now newToken newID clientIP userAgent body db status r,
     (handlers.Login cfg now newToken newID clientIP userAgent body db).1 =
       JSON status (JSON_LoginResponse r) →
     User.Password (LoginResponse_User r) = "") ∧
  (∀ now body db status r,
     (handlers.RefreshToken cfg now body db).1 = JSON status (JSON_LoginResponse r) →
     User.Password (LoginResponse_User r) = "") ∧
  (∀ query db status us pagination,
     (user_handlers.GetUsers query db).1 = JSON status (JSON_users us pagination) →
     ∀ u, u ∈ us → User.Password u = "").
Proof.
  split; [|split; [|split; [|split]]].
  - intros keys status u. unfold account.Me.
    destruct (keys !! "user") as [[]|]; try done. by intros [= _ <-].
  - intros id db status u. unfold users.GetUser.
    destruct (parsing.Parse id); [|done].
    destruct (gorm.First_user _ db) as [[user|[]] db1]; try done.
    by intros [= _ <-].
  - intros now newToken newID clientIP userAgent body db status r.
    unfold handlers.Login.
    repeat (match goal with
            | |- context [match ?x with _ => _ end] => destruct x
            end; simpl; try done).
    by intros [= _ <-].
  - intros now body db status r. unfold handlers.RefreshToken.
    repeat (match goal with
            | |- context [match ?x with _ => _ end] => destruct x
            end; simpl; try done).
    by intros [= _ <-].
  - intros query db status us pagination. unfold user_handlers.GetUsers.
    destruct (gorm.statement db) as [fault1 db1].
    destruct (gorm.statement db1) as [[] db2]; [done|]. simpl.
    intros [= _ <- _] u (row & -> & _)%list_elem_of_fmap. done.
Qed.

End AnswersMore.

Section MeMore.
Context {B : bcrypt.Library} {G : hashing.Library} {J : jwt.Library}
        {P : postgres.Library} {U : parsing.Library}.
Variable cfg : JWTConfig.

(** The user that [Preload] gives a session. *)
Lemma preload_cases db s :
  (∃ row, row ∈ users db ∧ gorm.live row = true ∧ User.ID row = Session.UserID s ∧
          Session.User (gorm.preload_User db s) = row) ∨
  (gone (Session.UserID s) db ∧ Session.User (gorm.preload_User db s) = User.zero).
Proof.
  unfold gorm.preload_User, gone.
  destruct (gorm.least User.ID _) as [x|] eqn:Hl; simpl.
  - left. apply least_filter_Some in Hl as [Hx [Hxl Hxid%N.eqb_eq]%andb_true_iff].
    by exists x.
  - right. split; [|done]. intros row Hrow Hlive Hid.
    apply least_None in Hl.
    assert (row ∈ filter (λ u, gorm.live u && (User.ID u =? Session.UserID s)%N) (users db))
      as Hin.
    { apply list_elem_of_filter. split; [|done].
      apply Is_true_true. rewrite Hlive. simpl. by apply N.eqb_eq. }
    rewrite Hl in Hin. by apply elem_of_nil in Hin.
Qed.

(** X15: GET /api/auth/me answers either 401 with one of the messages of
    [AuthMiddleware], never the "User not found" of [Me] itself, or 200
    with the user of a session that is stored, active and not expired:
    the row of that user with its password blanked, or, when the user is
    deleted, the zero value of a user. *)
Theorem auth_me_answers now authHeader db :
  match (routes.auth_me cfg now authHeader db).1 with
  | Answer_JSON r =>
    ∃ msg, msg ∈ unauthorized_messages ∧ r = JSON StatusUnauthorized (H_error msg)
  | Answer_user status u =>
    status = StatusOK ∧
    ∃ s, s ∈ sessions db ∧ Session.IsActive s = true ∧ now ≤ Session.ExpiresAt s ∧
      ((∃ row, row ∈ users db ∧ gorm.live row = true ∧
               User.ID row = Session.UserID s ∧ u = User.with_Password "" row) ∨
       (gone (Session.UserID s) db ∧ u = User.zero))
  end.
Proof.
  unfold routes.auth_me, routes.protected.
  destruct (middleware.AuthMiddleware cfg now authHeader ∅ db) as [[keys'|r] db1] eqn:Hauth.
  2:{ simpl. apply (AuthMiddleware_stops cfg now authHeader ∅ db). by rewrite Hauth. }
  apply (f_equal fst) in Hauth. simpl in Hauth.
  cbn [fst]. revert Hauth.
  destruct (header_cases authHeader) as [Hcut|[t ->]].
  { by rewrite (AuthMiddleware_no_Bearer _ _ _ _ _ Hcut). }
  rewrite AuthMiddleware_Bearer. unfold middleware.unauthorized.
  destruct (jwt.Parse t _ now) as [token|]; [|done].
  destruct (negb (jwt.Valid token)); [done|].
  destruct (jwt.Claims token !! "user_id") as [[userID| | | | |]|]; try done.
  destruct (jwt.Claims token !! "session_token") as [[st| | | | |]|]; try done.
  destruct (gorm.statement db).1; [done|].
  destruct (gorm.least Session.ID _) as [s|] eqn:Hl; [|done].
  apply least_filter_Some in Hl as [Hin (_ & _ & Hact)%sessionQuery_true].
  destruct (Session.IsExpired now s) eqn:Hexp; [done|].
  apply IsExpired_false in Hexp. cbn [fst]. intros [= <-].
  unfold account.Me. rewrite lookup_insert_ne, lookup_insert_ne, lookup_insert_eq by done.
  split; [done|]. exists s. repeat (split; [done|]).
  destruct (preload_cases db s) as [(row & Hrow & Hlive & Hid & Heq)|[Hgone Heq]];
    unfold gorm.preload_User in Heq; simpl in Heq; rewrite Heq.
  - left. by exists row.
  - by right.
Qed.

(** X16: whether [AuthMiddleware] stops a request, and with what answer,
    depends on the sessions and on the answers of the database only, not
    on the users: making an account inactive or deleting it ends none of
    its sessions. *)
Theorem AuthMiddleware_ignores_users now authHeader keys db1 db2 :
  sessions db1 = sessions db2 →
  faults db1 = faults db2 →
  ∀ r, (middleware.AuthMiddleware cfg now authHeader keys db1).1 = gin.Abort r ↔
       (middleware.AuthMiddleware cfg now authHeader keys db2).1 = gin.Abort r.
Proof.
  intros Hss Hfs r.
  assert ((gorm.statement db1).1 = (gorm.statement db2).1) as Hst.
  { unfold gorm.statement. rewrite Hfs. by destruct (faults db2). }
  destruct (header_cases authHeader) as [Hcut|[t ->]].
  { by rewrite !(AuthMiddleware_no_Bearer _ _ _ _ _ Hcut). }
  rewrite !AuthMiddleware_Bearer, Hss, Hst.
  destruct (jwt.Parse t _ now) as [token|]; [|done].
  destruct (negb (jwt.Valid token)); [done|].
  destruct (jwt.Claims token !! "user_id") as [[userID| | | | |]|]; try done.
  destruct (jwt.Claims token !! "session_token") as [[st| | | | |]|]; try done.
  destruct (gorm.statement db2).1; [done|].
  destruct (gorm.least Session.ID _) as [s|]; [|done].
  by destruct (Session.IsExpired now s).
Qed.

End MeMore.

Lemma AuthMiddleware_ignores_users_witness :
  (middleware.AuthMiddleware (J := standin.tokens) standin.cfg 5
     ("Bearer " +:+ "HS256.alice-access.secret") ∅
     {| users := []; sessions := sessions db_logged_out; faults := [] |}).1 =
    gin.Abort (JSON StatusUnauthorized (H_error "Invalid session")).
Proof.
  apply (AuthMiddleware_ignores_users (J := standin.tokens) standin.cfg 5
           ("Bearer " +:+ "HS256.alice-access.secret") ∅ db_logged_out
           {| users := []; sessions := sessions db_logged_out; faults := [] |});
    reflexivity.
Defined.

Lemma gone_First_user userID db :
  gone userID db →
  (gorm.First_user (users.byID userID) db).1 =
    if (gorm.statement db).1 then Error ErrOther else Error ErrRecordNotFound.
Proof.
  intros Hgone. rewrite First_user_unfold. simpl.
  destruct (gorm.statement db).1; [done|].
  destruct (gorm.least User.ID _) as [x|] eqn:Hl; [|done].
  apply least_filter_Some in Hl as [Hx [Hxl Hxid%N.eqb_eq]%andb_true_iff].
  by destruct (Hgone x Hx Hxl).
Qed.

Lemma deleted_users_gone now userID db db' :
  users db' = deleted_users now userID (users db) → gone userID db'.
Proof.
  intros Hus row Hrow Hlive Hid. rewrite Hus in Hrow.
  apply list_elem_of_fmap in Hrow as (r & -> & _).
  destruct (gorm.live r) eqn:Hr; simpl in *.
  - destruct (N.eqb_spec (User.ID r) userID) as [Heq|Hne]; [done|]. congruence.
  - congruence.
Qed.

Section DeleteMore.
Context {J : jwt.Library} {U : parsing.Library}.
Variable cfg : JWTConfig.

(** What a deletion that is answered 200 has done. *)
Lemma DeleteUser_OK_inv now id db msg db' :
  users.DeleteUser now id db = (JSON StatusOK msg, db') →
  ∃ userID,
    parsing.Parse id = Some userID ∧ userID ≠ uuid.Nil ∧
    sessions db' = sessions db ∧
    users db' = deleted_users now userID (users db) ∧
    ¬ gone userID db.
Proof.
  unfold users.DeleteUser.
  destruct (parsing.Parse id) as [userID|]; [|done].
  rewrite First_user_unfold.
  destruct (statement_tables db) as [Hus Hss].
  destruct (gorm.statement db) as [fault db1]. simpl in *.
  destruct fault; [done|].
  destruct (gorm.least User.ID _) as [user|] eqn:Hl; [|done].
  apply least_filter_Some in Hl as [Huser [Hlive Hid%N.eqb_eq]%andb_true_iff].
  unfold users.Delete_user.
  destruct (statement_tables db1) as [Hus1 Hss1].
  destruct (gorm.statement db1) as [fault db2]. simpl in *.
  destruct fault; [done|].
  destruct (N.eqb_spec (User.ID user) uuid.Nil) as [|Hnil]; [done|].
  intros [= _ <-]. exists userID. simpl.
  rewrite Hss1, Hss, Hus1, Hus, <- Hid.
  split; [done|]. split; [done|]. split; [done|]. split; [done|].
  intros Hgone. by destruct (Hgone user Huser Hlive).
Qed.

(** X17: a deletion that is answered 200 leaves the sessions as they
    are and marks deleted the rows of the key that were not; after it no
    query sees a user with that key: no login name leads to one, and
    [GetUser] and a second [DeleteUser] for the same id answer 404 when
    the database answers. *)
Theorem DeleteUser_deletes now id db msg db' :
  users.DeleteUser now id db = (JSON StatusOK msg, db') →
  ∃ userID,
    parsing.Parse id = Some userID ∧
    sessions db' = sessions db ∧
    users db' = deleted_users now userID (users db) ∧
    gone userID db' ∧
    (∀ name user, account name db' = Some user → User.ID user ≠ userID) ∧
    (∀ now', (gorm.statement db').1 = false →
       (users.GetUser id db').1 =
         Answer_JSON (JSON StatusNotFound (H_error "User not found")) ∧
       (users.DeleteUser now' id db').1 = JSON StatusNotFound (H_error "User not found")).
Proof.
  intros (userID & Hparse & _ & Hss & Hus & _)%DeleteUser_OK_inv.
  pose proof (deleted_users_gone now userID db db' Hus) as Hgone.
  exists userID. repeat (split; [done|]). split.
  - intros name user [Huser [Hlive _]%andb_true_iff]%least_filter_Some.
    by apply Hgone.
  - intros now' Hf. unfold users.GetUser, users.DeleteUser. rewrite Hparse.
    pose proof (gone_First_user userID db' Hgone) as Hfirst. rewrite Hf in Hfirst.
    destruct (gorm.First_user (users.byID userID) db') as [found db1].
    simpl in Hfirst. subst found. done.
Qed.

(** X18: the sessions of a deleted user go on: when a request is let
    through with a session of the user that was deleted, the identity in
    the context is the zero value of a user, so [RequireRole] answers 403
    whatever the role and [Me] answers 200 with an empty user. *)
Theorem deleted_user_is_let_through
    now id db msg db' userID now' authHeader keys keys' s :
  users.DeleteUser now id db = (JSON StatusOK msg, db') →
  parsing.Parse id = Some userID →
  (middleware.AuthMiddleware cfg now' authHeader keys db').1 = gin.Next keys' →
  keys' !! "session" = Some (gin.VSession s) →
  Session.UserID s = userID →
  keys' !! "user" = Some (gin.VUser User.zero) ∧
  keys' !! "user_id" = Some (gin.VUUID uuid.Nil) ∧
  (∀ requiredRole,
     middleware.RequireRole requiredRole keys' =
       gin.Abort (JSON StatusForbidden
                    (H_error ("Role '" +:+ requiredRole +:+ "' is required")))) ∧
  account.Me keys' = Answer_user StatusOK User.zero.
Proof.
  intros (userID' & Hparse & _ & Hss & Hus & _)%DeleteUser_OK_inv Hid Hflow Hkey Huser.
  rewrite Hparse in Hid. injection Hid as ->.
  pose proof (deleted_users_gone now userID db db' Hus) as Hgone.
  revert Hflow.
  destruct (header_cases authHeader) as [Hcut|[t ->]].
  { by rewrite (AuthMiddleware_no_Bearer _ _ _ _ _ Hcut). }
  rewrite AuthMiddleware_Bearer. unfold middleware.unauthorized.
  destruct (jwt.Parse t _ now') as [token|]; [|done].
  destruct (negb (jwt.Valid token)); [done|].
  destruct (jwt.Claims token !! "user_id") as [[uid| | | | |]|]; try done.
  destruct (jwt.Claims token !! "session_token") as [[st| | | | |]|]; try done.
  destruct (gorm.statement db').1; [done|].
  destruct (gorm.least Session.ID _) as [s0|]; [|done].
  destruct (Session.IsExpired now' s0); [done|].
  cbn [fst]. intros [= <-].
  rewrite lookup_insert_eq in Hkey. injection Hkey as <-.
  assert (Session.User (gorm.preload_User db' s0) = User.zero) as Hzero.
  { destruct (preload_cases db' s0) as [(row & Hrow & Hlive & Hrid & _)|[_ Hz]]; [|done].
    simpl in Huser. destruct (Hgone row Hrow Hlive). congruence. }
  unfold middleware.RequireRole, account.Me.
  rewrite lookup_insert_ne, lookup_insert_ne, lookup_insert_eq by done.
  rewrite lookup_insert_ne, lookup_insert_eq by done.
  unfold gorm.preload_User in Hzero. simpl in Hzero. rewrite Hzero. done.
Qed.

End DeleteMore.

Lemma DeleteUser_deletes_witness :
  ∃ userID,
    parsing.Parse (Library := doubles.digit) "1" = Some userID ∧
    sessions (users.DeleteUser (U := doubles.digit) 5 "1" standin.db0).2
      = sessions standin.db0 ∧
    users (users.DeleteUser (U := doubles.digit) 5 "1" standin.db0).2
      = deleted_users 5 userID (users standin.db0) ∧
    gone userID (users.DeleteUser (U := doubles.digit) 5 "1" standin.db0).2 ∧
    (∀ name user,
       account name (users.DeleteUser (U := doubles.digit) 5 "1" standin.db0).2 = Some user →
       User.ID user ≠ userID) ∧
    (∀ now',
       (gorm.statement (users.DeleteUser (U := doubles.digit) 5 "1" standin.db0).2).1
         = false →
       (users.GetUser (U := doubles.digit) "1"
          (users.DeleteUser (U := doubles.digit) 5 "1" standin.db0).2).1 =
         Answer_JSON (JSON StatusNotFound (H_error "User not found")) ∧
       (users.DeleteUser (U := doubles.digit) now' "1"
          (users.DeleteUser (U := doubles.digit) 5 "1" standin.db0).2).1
         = JSON StatusNotFound (H_error "User not found")).
Proof.
  apply (DeleteUser_deletes (U := doubles.digit) 5 "1" standin.db0
           (H_message "User deleted successfully")).
  reflexivity.
Defined.

Lemma deleted_user_is_let_through_witness :
  let db' := (users.DeleteUser (U := doubles.digit) 5 "1" standin.db0).2 in
  ∃ keys',
    (middleware.AuthMiddleware (J := standin.tokens) standin.cfg 6
       ("Bearer " +:+ "HS256.alice-access.secret") ∅ db').1 = gin.Next keys' ∧
    keys' !! "user" = Some (gin.VUser User.zero) ∧
    middleware.RequireRole "admin" keys' =
      gin.Abort (JSON StatusForbidden (H_error "Role 'admin' is required")).
Proof.
  eexists. split; [reflexivity|].
  edestruct (deleted_user_is_let_through (J := standin.tokens) (U := doubles.digit)
               standin.cfg 5 "1" standin.db0 (H_message "User deleted successfully")
               (users.DeleteUser (U := doubles.digit) 5 "1" standin.db0).2
               1%N 6 ("Bearer " +:+ "HS256.alice-access.secret") ∅
               (<["session" :=
                   gin.VSession (Session.with_User User.zero standin.session7)]>
                (<["user_id" := gin.VUUID uuid.Nil]>
                 (<["user" := gin.VUser User.zero]> ∅)))
               (Session.with_User User.zero standin.session7))
    as (Huser & _ & Hrole & _);
    [reflexivity | reflexivity | reflexivity | reflexivity | reflexivity |].
  split; [exact Huser | exact (Hrole "admin")].
Defined.

Lemma ShouldBindJSON_ChangePasswordRequest_inr body req :
  validator.ShouldBindJSON_ChangePasswordRequest body = inr req ↔
  body = inr req ∧ acceptable req.
Proof.
  unfold validator.ShouldBindJSON_ChangePasswordRequest, acceptable.
  destruct body as [err|req0]; [split; [done | by intros [[=] _]]|].
  destruct (String.eqb_spec (CurrentPassword req0) "") as [Hc|Hc];
    destruct (String.eqb_spec (NewPassword req0) "") as [Hn|Hn];
    try destruct (Nat.ltb_spec (validator.RuneCountInString (NewPassword req0)) 6)
      as [Hr|Hr];
    simpl; (split; [intros [= <-] | intros [[= <-] (? & ? & ?)]]);
    try done; try lia.
Qed.

Section PasswordMore.
Context {B : bcrypt.Library} {G : hashing.Library} {J : jwt.Library}.
Variable cfg : JWTConfig.

Lemma Save_sessions fresh now u db :
  sessions (account.Save fresh now u db).2 = sessions db.
Proof.
  unfold account.Save, gorm.Save_user.
  destruct (statement_tables db) as [_ Hss].
  destruct (N.eqb (User.ID u) uuid.Nil);
    destruct (gorm.statement db) as [[] db1]; simpl in *; try done.
  by destruct (existsb _ (users db1)).
Qed.

(** X19: a change of password writes no session, so it ends none. When
    it is answered 400 or 401 it has not spoken to the database. When it
    is answered 200 the request held both passwords, the new one of six
    runes or more, the current one was accepted for the user of the
    context, and, that user being a row of the table, the rows of its key
    hold the new hash and no other row differs. *)
Theorem ChangePassword_writes now fresh salt body keys db :
  let response := (account.ChangePassword now fresh salt body keys db).1 in
  let db' := (account.ChangePassword now fresh salt body keys db).2 in
  sessions db' = sessions db ∧
  (Status response = StatusBadRequest ∨ Status response = StatusUnauthorized →
   db' = db) ∧
  (response = JSON StatusOK (H_message "Password changed successfully") →
   ∃ req u hashed,
     body = inr req ∧ acceptable req ∧
     keys !! "user" = Some (gin.VUser u) ∧
     bcrypt.CompareHashAndPassword (User.Password u) (CurrentPassword req) = true ∧
     hashing.GenerateFromPassword (NewPassword req) hashing.DefaultCost salt
       = Some hashed ∧
     (u ∈ users db →
      users db' = saved_users now (User.with_Password hashed u) (users db))).
Proof.
  cbv zeta. unfold account.ChangePassword.
  destruct (validator.ShouldBindJSON_ChangePasswordRequest body) as [err|req] eqn:Hbind;
    [done|].
  apply ShouldBindJSON_ChangePasswordRequest_inr in Hbind as [-> Hacc].
  destruct (keys !! "user") as [[u| |]|] eqn:Hkey; try done.
  destruct (bcrypt.CompareHashAndPassword _ _) eqn:Hpw; [|done]. simpl.
  destruct (hashing.GenerateFromPassword _ _ _) as [hashed|] eqn:Hhash;
    [|split; [done|]; split; [by intros [[=]|[=]] | done]].
  pose proof (Save_sessions fresh now (User.with_Password hashed u) db) as Hss.
  destruct (account.Save fresh now (User.with_Password hashed u) db)
    as [saved db1] eqn:Hsave.
  simpl in Hss.
  destruct saved as [[]|e]; simpl; (split; [done|]); (split; [by intros [[=]|[=]]|]);
    [|done].
  intros _. exists req, u, hashed. repeat (split; [done|]).
  intros Hu. revert Hsave. unfold account.Save. simpl.
  destruct (statement_tables db) as [Hus _].
  destruct (N.eqb_spec (User.ID u) uuid.Nil) as [Hnil|_].
  - unfold account.BeforeCreate, account.stamped. simpl. rewrite Hnil. simpl.
    destruct (gorm.statement db) as [[] db2]; [done|]. simpl in Hus.
    destruct (existsb _ (users db2)) eqn:Hex; [done|]. exfalso.
    apply Bool.not_true_iff_false in Hex. apply Hex.
    apply existsb_exists. exists u. split.
    + apply list_elem_of_In. by rewrite Hus.
    + simpl. rewrite String.eqb_refl. by rewrite orb_true_r.
  - unfold gorm.Save_user.
    destruct (gorm.statement db) as [[] db2]; simpl in *; [done|].
    intros [= <-]. simpl. by rewrite Hus.
Qed.

End PasswordMore.

(** The least row under a rewrite of the rows that keeps the key and the
    condition. *)
Lemma least_map {A} (key : A → UUID) (q : A → bool) (f : A → A) rows :
  (∀ r, r ∈ rows → key (f r) = key r ∧ q (f r) = q r) →
  gorm.least key (filter q (map f rows)) = f <$> gorm.least key (filter q rows).
Proof.
  induction rows as [|r rows IH]; intros Hf; [done|].
  assert (key (f r) = key r ∧ q (f r) = q r) as [Hk Hq] by (apply Hf; by left).
  assert (IH' : gorm.least key (filter q (map f rows)) =
                f <$> gorm.least key (filter q rows)).
  { apply IH. intros r' Hr'. apply Hf. by right. }
  simpl map. rewrite !(filter_cons (λ x, q x)). rewrite Hq.
  destruct (q r); simpl.
  - destruct (decide (Is_true true)) as [_|Hn]; [|by destruct Hn].
    simpl. rewrite IH'.
    destruct (gorm.least key (filter q rows)) as [y|] eqn:Hy; simpl; [|done].
    assert (y ∈ rows) as Hin by by apply least_filter_Some in Hy as [? _].
    destruct (Hf y ltac:(by right)) as [Hky _]. rewrite Hk, Hky.
    by destruct (key r <=? key y)%N.
  - destruct (decide (Is_true false)) as [Hn|_]; [by destruct Hn|]. done.
Qed.

Lemma account_saved now name db db' u u' :
  unique_user_ids db →
  users db' = saved_users now u' (users db) →
  User.ID u' = User.ID u → User.DeletedAt u' = User.DeletedAt u →
  User.Username u' = User.Username u → User.Email u' = User.Email u →
  u ∈ users db →
  account name db = Some u →
  account name db' = Some (User.with_UpdatedAt now u').
Proof.
  intros Huniq Hus Hid Hdel Hname Hemail Hu Hacc. unfold account in *.
  rewrite Hus. unfold saved_users.
  rewrite (least_map User.ID (λ r, gorm.live r && handlers.loginQuery name r)).
  - rewrite Hacc. simpl. by rewrite Hid, N.eqb_refl.
  - intros r Hr. rewrite Hid.
    destruct (N.eqb_spec (User.ID r) (User.ID u)) as [Heq|]; [|done].
    assert (r = u) as -> by by apply (NoDup_fmap_eq User.ID (users db)).
    unfold gorm.live, handlers.loginQuery. simpl.
    by rewrite Hid, Hdel, Hname, Hemail.
Qed.

Section PasswordLogin.
Context {B : bcrypt.Library} {G : hashing.Library} {J : jwt.Library}.
Variable cfg : JWTConfig.

(** A login whose name leads to an active account and whose password is
    accepted is not refused. *)
Lemma Login_accepts now newToken newID clientIP userAgent req db user :
  bound req →
  (gorm.statement db).1 = false →
  account (LoginRequest_Username req) db = Some user →
  User.IsActive user = true →
  bcrypt.CompareHashAndPassword (User.Password user) (LoginRequest_Password req) = true →
  let response :=
    (handlers.Login cfg now newToken newID clientIP userAgent (inr req) db).1 in
  Status response = StatusOK ∨ Status response = StatusInternalServerError.
Proof.
  intros Hb Hf Hacc Hact Hpw. cbv zeta. unfold handlers.Login.
  rewrite (ShouldBindJSON_bound req Hb), First_user_unfold, Hf.
  fold (account (LoginRequest_Username req) db). rewrite Hacc.
  destruct (gorm.statement db) as [fault db1]. simpl.
  rewrite Hact, Hpw. simpl.
  destruct (gorm.Create_session _ _ _ _) as [[session|e] db2]; simpl; [|by right].
  destruct (handlers.generateAccessToken _ _ _ _); simpl; [|by right].
  destruct (handlers.generateRefreshToken _ _ _ _); simpl; [|by right].
  destruct (gorm.Save_user _ _ _). simpl. by left.
Qed.

(** What a change of password that is answered 200 has done. *)
Lemma ChangePassword_OK_inv now fresh salt body keys db msg db' :
  account.ChangePassword now fresh salt body keys db = (JSON StatusOK msg, db') →
  ∃ req u hashed,
    body = inr req ∧ acceptable req ∧
    keys !! "user" = Some (gin.VUser u) ∧
    bcrypt.CompareHashAndPassword (User.Password u) (CurrentPassword req) = true ∧
    hashing.GenerateFromPassword (NewPassword req) hashing.DefaultCost salt
      = Some hashed ∧
    account.Save fresh now (User.with_Password hashed u) db = (Ok (), db').
Proof.
  unfold account.ChangePassword.
  destruct (validator.ShouldBindJSON_ChangePasswordRequest body) as [err|req] eqn:Hbind;
    [done|].
  apply ShouldBindJSON_ChangePasswordRequest_inr in Hbind as [-> Hacc].
  destruct (keys !! "user") as [[u| |]|] eqn:Hkey; try done.
  destruct (bcrypt.CompareHashAndPassword _ _) eqn:Hpw; [|done]. simpl.
  destruct (hashing.GenerateFromPassword _ _ _) as [hashed|] eqn:Hhash; [|done].
  destruct (account.Save fresh now (User.with_Password hashed u) db)
    as [[[]|e] db1] eqn:Hsave; [|done].
  intros [= _ <-]. by exists req, u, hashed.
Qed.

(** X20: after a change of password through its route that is answered
    200, where the keys of the users are unique and bcrypt accepts nothing
    for the empty hash, the rows of the user of the session hold the new
    hash, no other row differs, and a login whose name leads to that user
    is decided by the new hash alone: a password that bcrypt accepts for
    it is not refused, and any other is answered 401. *)
Theorem change_password_then_Login
    now fresh salt authHeader req db msg db' keys' user hashed :
  unique_user_ids db →
  (∀ password, bcrypt.CompareHashAndPassword "" password = false) →
  (middleware.AuthMiddleware cfg now authHeader ∅ db).1 = gin.Next keys' →
  keys' !! "user" = Some (gin.VUser user) →
  hashing.GenerateFromPassword (NewPassword req) hashing.DefaultCost salt = Some hashed →
  routes.auth_change_password cfg now fresh salt authHeader (inr req) db
    = (JSON StatusOK msg, db') →
  user ∈ users db ∧ gorm.live user = true ∧
  users db' = saved_users now (User.with_Password hashed user) (users db) ∧
  ∀ now' newToken newID clientIP userAgent login,
    bound login → (gorm.statement db').1 = false →
    account (LoginRequest_Username login) db = Some user →
    User.IsActive user = true →
    let response :=
      (handlers.Login cfg now' newToken newID clientIP userAgent (inr login) db').1 in
    (bcrypt.CompareHashAndPassword hashed (LoginRequest_Password login) = true →
     Status response = StatusOK ∨ Status response = StatusInternalServerError) ∧
    (bcrypt.CompareHashAndPassword hashed (LoginRequest_Password login) = false →
     response = JSON StatusUnauthorized (H_error "Invalid credentials")).
Proof.
  intros Huniq Hempty Hflow Huser Hhashed.
  unfold routes.auth_change_password, routes.protected.
  destruct (middleware.AuthMiddleware cfg now authHeader ∅ db) as [flow db1] eqn:Hauth.
  simpl in Hflow. subst flow.
  apply AuthMiddleware_Next_inv in Hauth as (s & _ & _ & _ & -> & ->).
  destruct (statement_tables db) as [Hus1 _].
  intros (req' & u & hashed' & [= <-] & _ & Hkey & Hpw & Hhash & Hsave)%ChangePassword_OK_inv.
  rewrite Huser in Hkey. injection Hkey as <-.
  rewrite Hhashed in Hhash. injection Hhash as <-.
  rewrite lookup_insert_ne, lookup_insert_ne, lookup_insert_eq in Huser by done.
  destruct (preload_cases db s) as [(row & Hrow & Hlive & _ & Heq)|[_ Heq]];
    rewrite Heq in Huser; injection Huser as <-;
    [|simpl in Hpw; by rewrite Hempty in Hpw].
  clear Heq. repeat (split; [done|]).
  assert (Husers : users db' = saved_users now (User.with_Password hashed row) (users db)).
  { revert Hsave. unfold account.Save. simpl.
    destruct (N.eqb_spec (User.ID row) uuid.Nil) as [Hnil|_].
    - unfold account.BeforeCreate, account.stamped. simpl. rewrite Hnil. simpl.
      destruct (statement_tables (gorm.statement db).2) as [Hus2 _].
      destruct (gorm.statement (gorm.statement db).2) as [[] db2]; [done|].
      simpl in Hus2.
      destruct (existsb _ (users db2)) eqn:Hex; [done|]. exfalso.
      apply Bool.not_true_iff_false in Hex. apply Hex.
      apply existsb_exists. exists row. split.
      + apply list_elem_of_In. by rewrite Hus2, Hus1.
      + simpl. rewrite String.eqb_refl. by rewrite orb_true_r.
    - unfold gorm.Save_user.
      destruct (statement_tables (gorm.statement db).2) as [Hus2 _].
      destruct (gorm.statement (gorm.statement db).2) as [[] db2]; [done|].
      simpl in *. intros [= <-]. simpl. by rewrite Hus2, Hus1. }
  split; [done|].
  intros now' newToken newID clientIP userAgent login Hb Hf Hacc Hact.
  pose proof (account_saved now (LoginRequest_Username login) db db' row
                (User.with_Password hashed row) Huniq Husers
                eq_refl eq_refl eq_refl eq_refl Hrow Hacc) as Hacc'.
  cbv zeta. split.
  - intros Hnew. by apply (Login_accepts now' newToken newID clientIP userAgent login db'
                             (User.with_UpdatedAt now (User.with_Password hashed row))).
  - intros Hold.
    by apply (Login_found cfg now' newToken newID clientIP userAgent login db'
                (User.with_UpdatedAt now (User.with_Password hashed row))).
Qed.

End PasswordLogin.

Lemma change_password_then_Login_witness :
  let db' :=
    (routes.auth_change_password (B := standin.plain) (G := doubles.hasher)
       (J := standin.tokens) standin.cfg 5 90%N "salt"
       ("Bearer " +:+ "HS256.alice-access.secret")
       (inr {| CurrentPassword := "wonderland"; NewPassword := "looking-glass" |})
       standin.db0).2 in
  (handlers.Login (B := standin.plain) (J := standin.tokens) standin.cfg
     6 8%N 80%N "10.0.0.2" "curl"
     (inr {| LoginRequest_Username := "alice"; LoginRequest_Password := "wonderland" |})
     db').1 = JSON StatusUnauthorized (H_error "Invalid credentials").
Proof.
  cbv zeta.
  edestruct (change_password_then_Login (B := standin.plain) (G := doubles.hasher)
               (J := standin.tokens) standin.cfg 5 90%N "salt"
               ("Bearer " +:+ "HS256.alice-access.secret")
               {| CurrentPassword := "wonderland"; NewPassword := "looking-glass" |}
               standin.db0 (H_message "Password changed successfully")
               (routes.auth_change_password (B := standin.plain) (G := doubles.hasher)
                  (J := standin.tokens) standin.cfg 5 90%N "salt"
                  ("Bearer " +:+ "HS256.alice-access.secret")
                  (inr {| CurrentPassword := "wonderland";
                          NewPassword := "looking-glass" |})
                  standin.db0).2
               (<["session" := gin.VSession (gorm.preload_User standin.db0 standin.session7)]>
                (<["user_id" := gin.VUUID standin.alice_id]>
                 (<["user" := gin.VUser standin.alice]> ∅)))
               standin.alice "$2a$looking-glass")
    as (_ & _ & _ & Hlogin).
  - unfold unique_user_ids. simpl. apply NoDup_cons. split; [|apply NoDup_singleton].
    intros Hin%list_elem_of_singleton. discriminate Hin.
  - intros password. reflexivity.
  - reflexivity.
  - reflexivity.
  - reflexivity.
  - reflexivity.
  - apply (Hlogin 6 8%N 80%N "10.0.0.2" "curl"
             {| LoginRequest_Username := "alice"; LoginRequest_Password := "wonderland" |});
      try reflexivity.
    split; discriminate.
Defined.

Lemma isAllowed_true origin allowed :
  cors.isAllowed origin allowed = true ↔ origin ∈ allowed.
Proof.
  induction allowed as [|a allowed IH]; simpl.
  - split; [done|]. by intros ?%elem_of_nil.
  - rewrite elem_of_cons, <- IH.
    destruct (String.eqb_spec origin a); [tauto|]. split; [tauto|]. by intros [?|?].
Qed.

Lemma Header_ne key value (h : gmap string string) k :
  key ≠ k → cors.Header key value h !! k = h !! k.
Proof.
  intros Hkey. unfold cors.Header.
  destruct (String.eqb value "");
    [by rewrite lookup_delete_ne | by rewrite lookup_insert_ne].
Qed.

Lemma Header_eq key value (h : gmap string string) :
  value ≠ "" → cors.Header key value h !! key = Some value.
Proof.
  intros Hvalue%String.eqb_neq. unfold cors.Header. rewrite Hvalue.
  by rewrite lookup_insert_eq.
Qed.

(** X21: on a response without headers, [CORS] names an origin exactly
    when the request comes from one of the three origins of its list, and
    then that origin, never another and never a wildcard; it allows
    credentials whatever the origin; it touches no header but its four;
    and it stops a request exactly when its method is OPTIONS, with 204
    and before any later handler runs. *)
Theorem CORS_headers origin method keys (headers : gmap string string) :
  let flow := (cors.CORS origin method keys headers).1 in
  let headers' := (cors.CORS origin method keys headers).2 in
  (∀ o, (cors.CORS origin method keys ∅).2 !! "Access-Control-Allow-Origin" = Some o ↔
        o = origin ∧ origin ∈ cors.allowedOrigins) ∧
  headers' !! "Access-Control-Allow-Credentials" = Some "true" ∧
  (∀ k, k ∉ cors_headers → headers' !! k = headers !! k) ∧
  (flow = gin.Abort (JSON StatusNoContent NoBody) ↔ method = "OPTIONS") ∧
  (flow = gin.Next keys ↔ method ≠ "OPTIONS").
Proof.
  cbv zeta. unfold cors.CORS.
  split; [|split; [|split]].
  - intros o. rewrite <- (isAllowed_true origin cors.allowedOrigins).
    assert (∀ h : gmap string string,
              (if String.eqb method "OPTIONS"
               then (gin.Abort (JSON StatusNoContent NoBody), h)
               else (gin.Next keys, h)).2 = h) as Hsnd
      by (intros h; by destruct (String.eqb method "OPTIONS")).
    rewrite Hsnd, !Header_ne by done.
    destruct (cors.isAllowed origin cors.allowedOrigins) eqn:Hallowed.
    + assert (origin ≠ "") as Hne.
      { intros ->. by vm_compute in Hallowed. }
      rewrite Header_eq by done. split; [by intros [= <-] | by intros [-> _]].
    + rewrite lookup_empty. split; [done | by intros [_ [=]]].
  - destruct (String.eqb method "OPTIONS"); cbn [snd];
      by rewrite !Header_ne, Header_eq by done.
  - intros k Hk. unfold cors_headers in Hk.
    assert (k ≠ "Access-Control-Allow-Origin" ∧ k ≠ "Access-Control-Allow-Credentials" ∧
            k ≠ "Access-Control-Allow-Headers" ∧ k ≠ "Access-Control-Allow-Methods")
      as (H1 & H2 & H3 & H4).
    { repeat split; intros ->; apply Hk, list_elem_of_In; simpl; tauto. }
    destruct (cors.isAllowed origin cors.allowedOrigins);
      destruct (String.eqb method "OPTIONS"); cbn [snd];
      by rewrite !Header_ne by done.
  - destruct (String.eqb_spec method "OPTIONS"); simpl; split; split; done.
Qed.

Section RoutesMore.
Context {B : bcrypt.Library} {G : hashing.Library} {J : jwt.Library}
        {P : postgres.Library} {U : parsing.Library}.
Variable cfg : JWTConfig.



End RoutesMore.

Section InvariantMore.
Context {B : bcrypt.Library} {G : hashing.Library} {J : jwt.Library}
        {P : postgres.Library} {U : parsing.Library}.
Variable cfg : JWTConfig.








End InvariantMore.


Section TypeMore.
Context {B : bcrypt.Library} {J : jwt.Library}.
Variable cfg : JWTConfig.

Lemma Validate_refreshClaims now userID sessionToken now' :
  now' < Unix (now + RefreshExp cfg) * Second →
  jwt.Validate (handlers.refreshClaims cfg now userID sessionToken) now' = true.
Proof.
  intros Hlt. unfold jwt.Validate, jwt.parseNumericDate, handlers.refreshClaims.
  rewrite !lookup_insert_ne by done. rewrite lookup_insert_eq.
  rewrite !lookup_insert_ne by done. rewrite lookup_empty.
  destruct (Unix (now + RefreshExp cfg) =? 0); [done|].
  unfold Before. rewrite andb_true_r. by apply Z.ltb_lt.
Qed.

(** X24: [AuthMiddleware] does not look at the claim [type]: the refresh
    token of a login is let through as a bearer token, on the database
    that the login left and when the database answers, for as long as the
    token and the session last, which is the refresh period and not the
    shorter life of the access token. The library is asked for one thing,
    that the token it gave for the claims is a token over them signed with
    the secret. *)
Theorem refresh_token_passes_AuthMiddleware
    now newToken newID clientIP userAgent body db r db' now' keys :
  handlers.Login cfg now newToken newID clientIP userAgent body db =
    (JSON StatusOK (JSON_LoginResponse r), db') →
  signed (Secret cfg) (RefreshToken_ r)
    (handlers.refreshClaims cfg now (User.ID (LoginResponse_User r))
       (uuid.String newToken)) →
  (gorm.statement db').1 = false →
  now' < Unix (now + RefreshExp cfg) * Second →
  now' ≤ now + RefreshExp cfg →
  ∃ keys',
    (middleware.AuthMiddleware cfg now' ("Bearer " +:+ RefreshToken_ r) keys db').1 =
      gin.Next keys' ∧
    keys' !! "user_id" = Some (gin.VUUID (User.ID (LoginResponse_User r))).
Proof.
  intros HL Hsig Hf Hlt Hexp.
  apply Login_OK_inv in HL
    as (req & user & _ & _ & _ & Hacc & _ & _ & Hunused & _ & _ & Hr & _ & Hss & Hus).
  rewrite Hr in *. cbn [User.ID User.with_Password User.with_LastLoginAt] in *.
  set (s := login_session cfg now newToken newID (User.ID user) clientIP userAgent) in *.
  apply least_filter_Some in Hacc as [Huser [Hlive _]%andb_true_iff].
  destruct (preload_found db' s) as (u & Hpre & Hu & Hul & Huid).
  { destruct Hus as [->| ->].
    - by exists user.
    - exists (User.with_UpdatedAt now (User.with_LastLoginAt (Some now) user)).
      split; [|done]. unfold saved_users.
      apply list_elem_of_fmap. exists user. simpl. by rewrite N.eqb_refl. }
  rewrite AuthMiddleware_Bearer.
  destruct (Parse_signed cfg _ _ now' Hsig (Validate_refreshClaims _ _ _ _ Hlt))
    as (token & -> & -> & ->). simpl negb. cbv iota.
  unfold handlers.refreshClaims.
  rewrite lookup_insert_eq, lookup_insert_ne, lookup_insert_eq by done.
  rewrite Hf, (least_unique Session.ID _ _ s).
  - assert (Session.IsExpired now' s = false) as -> by by apply IsExpired_false.
    eexists. split; [done|].
    rewrite lookup_insert_ne, lookup_insert_eq by done.
    rewrite Hpre. simpl. by rewrite Huid.
  - rewrite Hss. apply elem_of_app. right. by apply list_elem_of_singleton.
  - by apply sessionQuery_true.
  - rewrite Hss. intros y [Hy| ->%list_elem_of_singleton]%elem_of_app
      (Htok & _)%sessionQuery_true; [|done].
    by destruct (Hunused y Hy).
Qed.

End TypeMore.

Lemma refresh_token_passes_AuthMiddleware_witness :
  ∃ keys',
    (middleware.AuthMiddleware (J := doubles.login_tokens) standin.cfg
       (2 * 24 * 3600 * Second)
       ("Bearer " +:+ ("HS256.refresh/" +:+ uuid.String 8%N +:+ ".secret")) ∅
       (handlers.Login (B := standin.plain) (J := doubles.login_tokens) standin.cfg
          5 8%N 80%N "10.0.0.2" "curl"
          (inr {| LoginRequest_Username := "alice";
                  LoginRequest_Password := "wonderland" |})
          standin.db0).2).1 = gin.Next keys' ∧
    keys' !! "user_id" = Some (gin.VUUID standin.alice_id).
Proof.
  apply (refresh_token_passes_AuthMiddleware (B := standin.plain)
           (J := doubles.login_tokens) standin.cfg 5 8%N 80%N "10.0.0.2" "curl"
           (inr {| LoginRequest_Username := "alice";
                   LoginRequest_Password := "wonderland" |})
           standin.db0
           {| LoginResponse_User :=
                User.with_Password "" (User.with_LastLoginAt (Some 5) standin.alice);
              AccessToken := "HS256.access/" +:+ uuid.String 8%N +:+ ".secret";
              RefreshToken_ := "HS256.refresh/" +:+ uuid.String 8%N +:+ ".secret";
              ExpiresIn := 86400 |}
           (handlers.Login (B := standin.plain) (J := doubles.login_tokens)
              standin.cfg 5 8%N 80%N "10.0.0.2" "curl"
              (inr {| LoginRequest_Username := "alice";
                      LoginRequest_Password := "wonderland" |})
              standin.db0).2
           (2 * 24 * 3600 * Second) ∅).
  - reflexivity.
  - exists "HS256", ("refresh/" +:+ uuid.String 8%N), "secret", jwt.HS256.
    repeat split; reflexivity.
  - reflexivity.
  - vm_compute. reflexivity.
  - vm_compute. discriminate.
Defined.
